(** * Intense Notes: derived views, editor actions and API handlers

    A shallow embedding of the pure and state-passing parts of
    [src/App.jsx] and of the two serverless handlers
    [api/flashcards.js] and [api/summarize.js], followed by the
    properties the specification states about them.

    Conventions.
    - JavaScript strings are [string]s; one character of the model is one
      code unit of the source string.  Case mapping and white space are
      those of the ASCII range.
    - JavaScript integers that the code computes with (indices, seconds,
      day numbers) are [Z].
    - A [Date] is its local calendar day number (days since 1970-01-01,
      local time); the time of day, which no function below reads, and the
      clipping of time values beyond 10^8 days from the epoch are left out.
    - Documents of the remote store are records; a missing or [null]
      field is [None] or [JUndefined]. *)

From Stdlib Require Import ZArith Lia Bool Ascii String DecimalString DecimalPos DecimalZ List Permutation Sorted.
From stdpp Require Import gmap strings list fin_maps.
Import ListNotations.

Local Open Scope Z_scope.

(* ===================================================================== *)
(** * Part I: the program                                                 *)
(* ===================================================================== *)

(** ** Dates (ECMAScript, section "Date objects", in whole days) *)

Module JsDate.

(** A Date object, as the local day number of its time value. *)
Definition t := Z.

Definition DaysInYear (y : Z) : Z :=
  if negb (y mod 4 =? 0) then 365
  else if negb (y mod 100 =? 0) then 366
  else if negb (y mod 400 =? 0) then 365
  else 366.

Definition DayFromYear (y : Z) : Z :=
  365 * (y - 1970) + (y - 1969) / 4 - (y - 1901) / 100 + (y - 1601) / 400.

(** The largest [y] with [DayFromYear y <= d]: the mean-year estimate is
    off by at most one year, so one comparison on either side settles it. *)
Definition YearFromTime (d : t) : Z :=
  let y := 1970 + (400 * d) / 146097 in
  if d <? DayFromYear y then y - 1
  else if DayFromYear (y + 1) <=? d then y + 1
  else y.

Definition InLeapYear (d : t) : Z :=
  if DaysInYear (YearFromTime d) =? 366 then 1 else 0.

Definition DayWithinYear (d : t) : Z := d - DayFromYear (YearFromTime d).

Definition MonthFromTime (d : t) : Z :=
  let w := DayWithinYear d in
  let L := InLeapYear d in
  if w <? 31 then 0
  else if w <? 59 + L then 1
  else if w <? 90 + L then 2
  else if w <? 120 + L then 3
  else if w <? 151 + L then 4
  else if w <? 181 + L then 5
  else if w <? 212 + L then 6
  else if w <? 243 + L then 7
  else if w <? 273 + L then 8
  else if w <? 304 + L then 9
  else if w <? 334 + L then 10
  else 11.

Definition DateFromTime (d : t) : Z :=
  let w := DayWithinYear d in
  let L := InLeapYear d in
  match MonthFromTime d with
  | 0 => w + 1
  | 1 => w - 30
  | 2 => w - 58 - L
  | 3 => w - 89 - L
  | 4 => w - 119 - L
  | 5 => w - 150 - L
  | 6 => w - 180 - L
  | 7 => w - 211 - L
  | 8 => w - 242 - L
  | 9 => w - 272 - L
  | 10 => w - 303 - L
  | _ => w - 333 - L
  end.

Definition WeekDay (d : t) : Z := (d + 4) mod 7.

(** Days from the start of a year to the start of its month [mn]. *)
Definition DaysBeforeMonth (leap mn : Z) : Z :=
  match mn with
  | 0 => 0
  | 1 => 31
  | 2 => 59 + leap
  | 3 => 90 + leap
  | 4 => 120 + leap
  | 5 => 151 + leap
  | 6 => 181 + leap
  | 7 => 212 + leap
  | 8 => 243 + leap
  | 9 => 273 + leap
  | 10 => 304 + leap
  | _ => 334 + leap
  end.

(** [MakeDay(year, month, date)]: the day number of the first of the
    month, plus [date - 1]; months outside 0..11 carry into the year. *)
Definition MakeDay (year month date : Z) : Z :=
  let ym := year + month / 12 in
  let mn := month mod 12 in
  let leap := if DaysInYear ym =? 366 then 1 else 0 in
  DayFromYear ym + DaysBeforeMonth leap mn + date - 1.

(** [new Date(year, month, date)]: a year from 0 to 99 means 1900 + year. *)
Definition make (year month date : Z) : t :=
  let yr := if (0 <=? year) && (year <=? 99) then 1900 + year else year in
  MakeDay yr month date.

Definition getFullYear (d : t) : Z := YearFromTime d.
Definition getMonth (d : t) : Z := MonthFromTime d.
Definition getDate (d : t) : Z := DateFromTime d.
Definition getDay (d : t) : Z := WeekDay d.

(** [d.setDate(n)]: same year and month fields, day of month [n] (which
    may be zero, negative or past the month's end). *)
Definition setDate (d : t) (n : Z) : t :=
  MakeDay (YearFromTime d) (MonthFromTime d) n.

End JsDate.

(** [buildMonthGrid(date)] (App.jsx): the for loop pushes, for
    [i = 0 .. 41], a copy of [start] moved by [setDate(start.getDate() + i)]. *)
Definition buildMonthGrid (date : JsDate.t) : list JsDate.t :=
  let first := JsDate.make (JsDate.getFullYear date) (JsDate.getMonth date) 1 in
  let startDow := JsDate.getDay first in
  let start := JsDate.setDate first (JsDate.getDate first - startDow) in
  map (fun i => JsDate.setDate start (JsDate.getDate start + i)) (seqZ 0 42).

(** The first of the month that [buildMonthGrid] starts from. *)
Definition gridFirst (date : JsDate.t) : JsDate.t :=
  JsDate.make (JsDate.getFullYear date) (JsDate.getMonth date) 1.

(** ** Strings and scalar values *)

Module JsString.

Definition isEmpty (s : string) : bool :=
  match s with EmptyString => true | String _ _ => false end.

Definition lowerChar (c : ascii) : ascii :=
  let n := nat_of_ascii c in
  if (65 <=? n)%nat && (n <=? 90)%nat then ascii_of_nat (n + 32) else c.

(** [s.toLowerCase()] *)
Fixpoint toLowerCase (s : string) : string :=
  match s with
  | EmptyString => EmptyString
  | String c s' => String (lowerChar c) (toLowerCase s')
  end.

(** [s.trimStart()] *)
Fixpoint trimStart (s : string) : string :=
  match s with
  | EmptyString => EmptyString
  | String c s' => if Ascii.is_space c then trimStart s' else s
  end.

(** [s.trimEnd()] *)
Fixpoint trimEnd (s : string) : string :=
  match s with
  | EmptyString => EmptyString
  | String c s' =>
      let r := trimEnd s' in
      if Ascii.is_space c && isEmpty r then EmptyString else String c r
  end.

(** [s.trim()] *)
Definition trim (s : string) : string := trimEnd (trimStart s).

(** [s.includes(q)] *)
Fixpoint includes (s q : string) : bool :=
  String.prefix q s ||
  match s with
  | EmptyString => false
  | String _ s' => includes s' q
  end.

(** [s.slice(0, n)] for [n >= 0] *)
Fixpoint slice0 (n : nat) (s : string) : string :=
  match n, s with
  | O, _ => EmptyString
  | S _, EmptyString => EmptyString
  | S n', String c s' => String c (slice0 n' s')
  end.

(** The last character is white space. *)
Fixpoint endsWithSpace (s : string) : bool :=
  match s with
  | EmptyString => false
  | String c EmptyString => Ascii.is_space c
  | String _ s' => endsWithSpace s'
  end.

(** The first character is white space. *)
Definition startsWithSpace (s : string) : bool :=
  match s with
  | EmptyString => false
  | String c _ => Ascii.is_space c
  end.

(** White space only, as [trim] sees it. *)
Fixpoint allSpace (s : string) : bool :=
  match s with
  | EmptyString => true
  | String c s' => Ascii.is_space c && allSpace s'
  end.

End JsString.

Module Js.

(** The scalar values a JSON payload or a document field holds here.
    Numbers are the integral ones. *)
Inductive value :=
| Undefined
| Null
| Bool (b : bool)
| Num (n : Z)
| Str (s : string).

(** [ToBoolean] *)
Definition truthy (v : value) : bool :=
  match v with
  | Undefined | Null => false
  | Bool b => b
  | Num n => negb (n =? 0)
  | Str s => negb (JsString.isEmpty s)
  end.

(** [String(v)], also what a template literal does to [v] *)
Definition toString (v : value) : string :=
  match v with
  | Undefined => "undefined"
  | Null => "null"
  | Bool true => "true"
  | Bool false => "false"
  | Num n => DecimalString.NilZero.string_of_int (Z.to_int n)
  | Str s => s
  end.

(** [a || b] *)
Definition or (a b : value) : value := if truthy a then a else b.

(** A string-valued property that may be absent. *)
Definition ofField (o : option string) : value :=
  match o with Some s => Str s | None => Undefined end.

(** [Array.prototype.sort(cmp)] with a consistent comparator: the sort is
    stable, so its result is the one of a stable insertion sort. *)
Fixpoint insert {A} (cmp : A -> A -> Z) (x : A) (l : list A) : list A :=
  match l with
  | [] => [x]
  | y :: l' => if cmp x y <=? 0 then x :: l else y :: insert cmp x l'
  end.

Fixpoint sort {A} (cmp : A -> A -> Z) (l : list A) : list A :=
  match l with
  | [] => []
  | x :: l' => insert cmp x (sort cmp l')
  end.

End Js.

(** ** Documents of the remote store and their local mirrors *)

(** A note of the mirrored list: [{ id: d.id, ...d.data() }].  [updatedAt]
    is the [seconds] of the timestamp, absent while the server has not yet
    assigned it. *)
Record Note := mkNote {
  note_id : string;
  note_title : option string;
  note_className : option string;
  note_body : option string;
  note_pinned : bool;
  note_updatedAt : option Z
}.

Record Task := mkTask {
  task_id : string;
  task_title : string;
  task_className : string;
  task_due : option string;
  task_done : bool
}.

Record Flashcard := mkFlashcard {
  card_id : string;
  card_noteId : option string;
  card_noteTitle : string;
  card_question : string;
  card_answer : string
}.

(** ** Derived views (the [useMemo] blocks of [App]) *)

(** [normalize(s)]: [String(s || "").toLowerCase()] *)
Definition normalize (s : Js.value) : string :=
  JsString.toLowerCase (Js.toString (Js.or s (Js.Str ""))).

(** [(x || "")] for a string field *)
Definition orEmpty (o : option string) : string :=
  Js.toString (Js.or (Js.ofField o) (Js.Str "")).

(** The text of a field inside a template literal *)
Definition tpl (o : option string) : string := Js.toString (Js.ofField o).

(** [n.updatedAt?.seconds ? n.updatedAt.seconds : 0] *)
Definition noteSeconds (n : Note) : Z :=
  match note_updatedAt n with
  | Some s => if s =? 0 then 0 else s
  | None => 0
  end.

(** The comparator passed to [list.sort] in [filteredNotes] *)
Definition noteCompare (a b : Note) : Z :=
  let ap := note_pinned a in
  let bp := note_pinned b in
  if negb (Bool.eqb ap bp) then (if ap then -1 else 1)
  else
    let at_ := noteSeconds a in
    let bt := noteSeconds b in
    bt - at_.

Definition noteHay (n : Note) : string :=
  normalize (Js.Str (tpl (note_title n) ++ " " ++ tpl (note_className n)
                     ++ " " ++ tpl (note_body n))).

(** The predicate passed to [notes.filter] in [filteredNotes] *)
Definition noteMatches (q cf : string) (n : Note) : bool :=
  let matchesClass :=
    if String.eqb cf "ALL" then true
    else String.eqb (JsString.trim (orEmpty (note_className n))) cf in
  if JsString.isEmpty q then matchesClass
  else
    let hay := noteHay n in
    matchesClass && JsString.includes hay q.

Definition filteredNotes (notes : list Note) (noteSearch classFilter : string)
  : list Note :=
  let q := normalize (Js.Str noteSearch) in
  let cf := classFilter in
  let list := List.filter (noteMatches q cf) notes in
  Js.sort noteCompare list.

(** [!t?.due] *)
Definition taskDueKey (t : Task) : option string :=
  match task_due t with
  | Some d => if JsString.isEmpty d then None else Some d
  | None => None
  end.

(** One turn of the loop of [tasksByDate] *)
Definition tasksByDate_step (map : gmap string (list Task)) (t : Task)
  : gmap string (list Task) :=
  match taskDueKey t with
  | None => map
  | Some due =>
      let map1 := match map !! due with
                  | None => <[due := []]> map
                  | Some _ => map
                  end in
      alter (fun l => l ++ [t]) due map1
  end.

Definition tasksByDate (tasks : list Task) : gmap string (list Task) :=
  fold_left tasksByDate_step tasks ∅.

(** Truthiness of an identifier that is a string or [null] *)
Definition truthyId (o : option string) : bool := Js.truthy (Js.ofField o).

Definition studyDeck (cards : list Flashcard) (studyOnlyThisNote : bool)
    (activeNoteId : option string) : list Flashcard :=
  if studyOnlyThisNote && truthyId activeNoteId
  then List.filter (fun c => bool_decide (card_noteId c = activeNoteId)) cards
  else cards.

(** ** The remote store, as the writes the application issues *)

(** A write to the store.  [uid] is the user whose collections are
    written; every [serverTimestamp()] field is filled in by the server. *)
Inductive StoreOp :=
| SetNoteDoc (uid id title className body : string) (pinned : bool)
    (* setDoc(notes/id, {title, className, body, pinned, createdAt, updatedAt}) *)
| MergeNoteDoc (uid id title className body : string)
    (* setDoc(notes/id, {title, className, body, updatedAt}, {merge: true}) *)
| SetCardDoc (uid id : string) (noteId : option string)
    (noteTitle question answer : string).
    (* setDoc(flashcards/id, {noteId, noteTitle, question, answer, createdAt}) *)

(** A document of the [notes] collection of one user. *)
Record NoteDoc := mkNoteDoc {
  doc_title : option string;
  doc_className : option string;
  doc_body : option string;
  doc_pinned : option bool;
  doc_createdAt : option Z;
  doc_updatedAt : option Z
}.

Definition emptyNoteDoc : NoteDoc := mkNoteDoc None None None None None None.

(** What a write does to the [notes] collection of user [u] when the
    server applies it at time [now]. *)
Definition applyNoteOp (u : string) (now : Z) (op : StoreOp)
    (col : gmap string NoteDoc) : gmap string NoteDoc :=
  match op with
  | SetNoteDoc uid id title className body pinned =>
      if String.eqb uid u
      then <[id := mkNoteDoc (Some title) (Some className) (Some body)
                     (Some pinned) (Some now) (Some now)]> col
      else col
  | MergeNoteDoc uid id title className body =>
      if String.eqb uid u
      then
        let old := default emptyNoteDoc (col !! id) in
        <[id := mkNoteDoc (Some title) (Some className) (Some body)
                  (doc_pinned old) (doc_createdAt old) (Some now)]> col
      else col
  | SetCardDoc _ _ _ _ _ _ => col
  end.

(** ** Editor state, effects and actions *)

Inductive SaveState := Idle | Saving | Saved | SaveError.

(** What the functions created by one render close over. *)
Record Closure := mkClosure {
  cl_user : option string;
  cl_activeNoteId : option string;
  cl_draftTitle : string;
  cl_draftClass : string;
  cl_draftBody : string
}.

(** A timer held by [saveDebounceRef]: the 900 ms autosave timer, which
    calls the [saveNote] of the render that armed it, or the 1200 ms timer
    that brings [saveState] back to idle. *)
Inductive Timer :=
| AutosaveTimer (cl : Closure)
| IdleTimer.

(** The state cells and refs of [App] that the editor uses, with the
    writes and alerts issued so far.  [user] is the uid of the signed-in
    user.  [saveDebounceRef] is the live timer the ref designates, if any
    (clearing a timer that has fired does nothing).  [autosaveCleanup]
    tells whether the last run of the autosave effect returned its cleanup;
    [ignoreResets] counts the zero-delay timeouts of the draft-load effect
    that have not fired yet; [inFlight] lists the [manual] flags of the
    calls of [saveNote] that await their write. *)
Record Editor := mkEditor {
  user : option string;
  notes : list Note;
  activeNoteId : option string;
  draftTitle : string;
  draftClass : string;
  draftBody : string;
  busy : string;
  saveState : SaveState;
  saveDebounceRef : option Timer;
  ignoreAutosaveRef : bool;
  autosaveCleanup : bool;
  ignoreResets : nat;
  inFlight : list bool;
  writes : list StoreOp;
  alerts : list string
}.

Definition set_notes (v : list Note) (s : Editor) : Editor :=
  let '(mkEditor u n a t c b bz ss tm ig cl ir fl w al) := s in
  mkEditor u v a t c b bz ss tm ig cl ir fl w al.
Definition set_activeNoteId (v : option string) (s : Editor) : Editor :=
  let '(mkEditor u n a t c b bz ss tm ig cl ir fl w al) := s in
  mkEditor u n v t c b bz ss tm ig cl ir fl w al.
Definition set_draftTitle (v : string) (s : Editor) : Editor :=
  let '(mkEditor u n a t c b bz ss tm ig cl ir fl w al) := s in
  mkEditor u n a v c b bz ss tm ig cl ir fl w al.
Definition set_draftClass (v : string) (s : Editor) : Editor :=
  let '(mkEditor u n a t c b bz ss tm ig cl ir fl w al) := s in
  mkEditor u n a t v b bz ss tm ig cl ir fl w al.
Definition set_draftBody (v : string) (s : Editor) : Editor :=
  let '(mkEditor u n a t c b bz ss tm ig cl ir fl w al) := s in
  mkEditor u n a t c v bz ss tm ig cl ir fl w al.
Definition set_busy (v : string) (s : Editor) : Editor :=
  let '(mkEditor u n a t c b bz ss tm ig cl ir fl w al) := s in
  mkEditor u n a t c b v ss tm ig cl ir fl w al.
Definition set_saveState (v : SaveState) (s : Editor) : Editor :=
  let '(mkEditor u n a t c b bz ss tm ig cl ir fl w al) := s in
  mkEditor u n a t c b bz v tm ig cl ir fl w al.
Definition set_saveDebounceRef (v : option Timer) (s : Editor) : Editor :=
  let '(mkEditor u n a t c b bz ss tm ig cl ir fl w al) := s in
  mkEditor u n a t c b bz ss v ig cl ir fl w al.
Definition set_ignoreAutosaveRef (v : bool) (s : Editor) : Editor :=
  let '(mkEditor u n a t c b bz ss tm ig cl ir fl w al) := s in
  mkEditor u n a t c b bz ss tm v cl ir fl w al.
Definition set_autosaveCleanup (v : bool) (s : Editor) : Editor :=
  let '(mkEditor u n a t c b bz ss tm ig cl ir fl w al) := s in
  mkEditor u n a t c b bz ss tm ig v ir fl w al.
Definition set_ignoreResets (v : nat) (s : Editor) : Editor :=
  let '(mkEditor u n a t c b bz ss tm ig cl ir fl w al) := s in
  mkEditor u n a t c b bz ss tm ig cl v fl w al.
Definition set_inFlight (v : list bool) (s : Editor) : Editor :=
  let '(mkEditor u n a t c b bz ss tm ig cl ir fl w al) := s in
  mkEditor u n a t c b bz ss tm ig cl ir v w al.
Definition issue (ops : list StoreOp) (s : Editor) : Editor :=
  let '(mkEditor u n a t c b bz ss tm ig cl ir fl w al) := s in
  mkEditor u n a t c b bz ss tm ig cl ir fl (w ++ ops) al.
Definition alert (msg : string) (s : Editor) : Editor :=
  let '(mkEditor u n a t c b bz ss tm ig cl ir fl w al) := s in
  mkEditor u n a t c b bz ss tm ig cl ir fl w (al ++ [msg]).

(** The state of [App] once mounted; [u] is the signed-in user, if any. *)
Definition initialEditor (u : option string) : Editor :=
  mkEditor u [] None "" "" "" "" Idle None false false 0 [] [] [].

Definition closure (s : Editor) : Closure :=
  mkClosure (user s) (activeNoteId s) (draftTitle s) (draftClass s) (draftBody s).

Definition drafts (s : Editor) : string * string * string :=
  (draftTitle s, draftClass s, draftBody s).

(** [notes.find((n) => n.id === activeNoteId) || null] *)
Definition activeNote (s : Editor) : option Note :=
  match activeNoteId s with
  | None => None
  | Some id => List.find (fun n => String.eqb (note_id n) id) (notes s)
  end.

(** The body of the effect "Load drafts when switching notes". *)
Definition draftLoadEffect (s : Editor) : Editor :=
  match activeNote s with
  | None => s
  | Some n =>
      set_ignoreResets (S (ignoreResets s))
        (set_saveState Idle
           (set_draftBody (orEmpty (note_body n))
              (set_draftClass (orEmpty (note_className n))
                 (set_draftTitle (orEmpty (note_title n))
                    (set_ignoreAutosaveRef true s)))))
  end.

(** The cleanup the autosave effect returns:
    [if (saveDebounceRef.current) clearTimeout(saveDebounceRef.current)]. *)
Definition autosaveCleanupFn (s : Editor) : Editor :=
  if autosaveCleanup s
  then set_autosaveCleanup false (set_saveDebounceRef None s)
  else s.

(** The body of the effect "Autosave debounce". *)
Definition autosaveEffect (s : Editor) : Editor :=
  if negb (bool_decide (is_Some (user s)) && truthyId (activeNoteId s)) then s
  else if ignoreAutosaveRef s then s
  else
    set_autosaveCleanup true
      (set_saveDebounceRef (Some (AutosaveTimer (closure s)))
         (set_saveState Saving s)).

(** The renders and effects that follow a state update from [prev] to [s]:
    the draft-load effect runs when [activeNoteId] changed, and when the
    drafts then differ from those of the previous render the autosave
    effect is cleaned up and runs again.  The zero-delay timeout that
    lowers the load guard fires once these renders have settled, which is
    what the source sets it for; it is an event of its own below. *)
Definition rerender (prev s : Editor) : Editor :=
  let s1 := if bool_decide (activeNoteId prev = activeNoteId s) then s
            else draftLoadEffect s in
  if bool_decide (drafts prev = drafts s1) then s1
  else autosaveEffect (autosaveCleanupFn s1).

(** [draftTitle.trim() || "Untitled"] *)
Definition savedTitle (draftTitle : string) : string :=
  Js.toString (Js.or (Js.Str (JsString.trim draftTitle)) (Js.Str "Untitled")).

(** [saveNote(manual)], as the render with closure [cl] defined it, up to
    the point where it awaits the write. *)
Definition saveNote (manual : bool) (cl : Closure) (s : Editor) : Editor :=
  match cl_user cl with
  | None => s
  | Some uid =>
      match cl_activeNoteId cl with
      | None => s
      | Some id =>
          if JsString.isEmpty id then s
          else
            let s1 := if manual then set_busy "Saving..." s else s in
            let s2 := set_saveState Saving s1 in
            set_inFlight (inFlight s2 ++ [manual])
              (issue [MergeNoteDoc uid id (savedTitle (cl_draftTitle cl))
                        (JsString.trim (cl_draftClass cl)) (cl_draftBody cl)]
                 s2)
      end
  end.

Inductive WriteResult := WriteOk | WriteFailed (message : string).

(** The rest of [saveNote], once the oldest awaited write settles. *)
Definition saveNote_settled (r : WriteResult) (s : Editor) : Editor :=
  match inFlight s with
  | [] => s
  | manual :: rest =>
      let s0 := set_inFlight rest s in
      match r with
      | WriteOk =>
          let s1 := set_saveState Saved s0 in
          let s2 := if manual then set_busy "" s1 else s1 in
          set_saveDebounceRef (Some IdleTimer) s2
      | WriteFailed message =>
          let s1 := set_saveState SaveError s0 in
          let s2 := if manual then set_busy "" s1 else s1 in
          alert ("Save failed: " ++ message) s2
      end
  end.

(** [createNote()], where [id] is what [uid()] returned. *)
Definition createNote (id : string) (s : Editor) : Editor :=
  match user s with
  | None => s
  | Some uid =>
      let s1 := issue [SetNoteDoc uid id "New Note" "" "" false] s in
      rerender s1 (set_activeNoteId (Some id) s1)
  end.

(** The callback of the notes subscription:
    [setNotes(list); setActiveNoteId((prev) => prev ?? list[0]?.id ?? null)]. *)
Definition onNotesSnapshot (list : list Note) (s : Editor) : Editor :=
  let next := match activeNoteId s with
              | Some prev => Some prev
              | None => match list with
                        | n :: _ => Some (note_id n)
                        | [] => None
                        end
              end in
  rerender s (set_activeNoteId next (set_notes list s)).

(** What happens to the editor. *)
Inductive Event :=
| TypeTitle (v : string)          (* onChange of the title input *)
| TypeClass (v : string)          (* onChange of the folder input *)
| TypeBody (v : string)           (* onChange of the body textarea *)
| OpenNote (id : string)          (* click on a note of the list *)
| NotesSnapshot (list : list Note)
| NewNote (id : string)           (* click on "New", [uid()] returning [id] *)
| SaveNow                         (* click on "Save now" *)
| IgnoreResetFires                (* a zero-delay timeout of the draft-load effect *)
| DebounceFires                   (* the timer held by [saveDebounceRef] *)
| WriteSettles (r : WriteResult). (* the oldest awaited write resolves or rejects *)

Definition step (e : Event) (s : Editor) : Editor :=
  match e with
  | TypeTitle v => rerender s (set_draftTitle v s)
  | TypeClass v => rerender s (set_draftClass v s)
  | TypeBody v => rerender s (set_draftBody v s)
  | OpenNote id => rerender s (set_activeNoteId (Some id) s)
  | NotesSnapshot list => onNotesSnapshot list s
  | NewNote id => createNote id s
  | SaveNow => saveNote true (closure s) s
  | IgnoreResetFires =>
      match ignoreResets s with
      | O => s
      | S k => set_ignoreResets k (set_ignoreAutosaveRef false s)
      end
  | DebounceFires =>
      match saveDebounceRef s with
      | None => s
      | Some (AutosaveTimer cl) => saveNote false cl (set_saveDebounceRef None s)
      | Some IdleTimer => set_saveState Idle (set_saveDebounceRef None s)
      end
  | WriteSettles r => saveNote_settled r s
  end.

Definition run (es : list Event) (s : Editor) : Editor :=
  fold_left (fun s e => step e s) es s.

(** ** Calls to the two endpoints *)

(** How [fetch] followed by [res.json()] ends: the request fails, the
    response is not [ok] (its text is thrown), its body is not JSON, or it
    parses to [data]. *)
Inductive Fetched (A : Type) :=
| NetworkError
| NotOk (text : string)
| NotJson
| Json (data : A).
Arguments NetworkError {A}.
Arguments NotOk {A} text.
Arguments NotJson {A}.
Arguments Json {A} data.

(** The parsed body of [/api/summarize], as [summarize] reads it: [null]
    (reading a property of it throws) or a value whose [summary] property
    is [summary]. *)
Inductive SummaryData :=
| SummaryNull
| SummaryOf (summary : Js.value).

(** The line feed of the template literals. *)
Definition nl : string := String "010" EmptyString.

Definition summarizeFailed : string :=
  "Summarize failed. (Check /api/summarize + OPENAI_API_KEY)".

(** [summarize()] from the point where the request settles: [s] is the
    state at that point, whose [draftBody] is the [prev] of the update. *)
Definition summarize (r : Fetched SummaryData) (s : Editor) : Editor :=
  let s0 := set_busy "Summarizing…" s in
  match r with
  | Json (SummaryOf summary) =>
      let body := (draftBody s0 ++ nl ++ nl ++ "=== AI SUMMARY ===" ++ nl
                   ++ Js.toString summary ++ nl ++ "=== /SUMMARY ===" ++ nl)%string in
      set_busy "" (rerender s0 (set_draftBody body s0))
  | _ => set_busy "" (alert summarizeFailed s0)
  end.

(** One element of [data.cards]. *)
Record CardJson := mkCardJson {
  cj_question : Js.value;
  cj_answer : Js.value
}.

(** The parsed body of [/api/flashcards], as [makeFlashcards] reads it:
    [null], or a value whose [cards] property is an array or is not. *)
Inductive CardsData :=
| CardsNull
| CardsNotArray
| CardsArray (cards : list CardJson).

Definition flashcardsFailed : string :=
  "Flashcards failed. (Check /api/flashcards + OPENAI_API_KEY)".

(** A count inside a template literal. *)
Definition decimal (n : nat) : string :=
  DecimalString.NilZero.string_of_uint (Nat.to_uint n).

(** [String(c.question || "")] and [String(c.answer || "")] *)
Definition questionText (c : CardJson) : string :=
  Js.toString (Js.or (cj_question c) (Js.Str "")).
Definition answerText (c : CardJson) : string :=
  Js.toString (Js.or (cj_answer c) (Js.Str "")).

(** The document written for one candidate, with the two length limits. *)
Definition cardDoc (qmax amax : nat) (uid noteId draftTitle : string)
    (id : string) (c : CardJson) : StoreOp :=
  SetCardDoc uid id (Some noteId)
    (Js.toString (Js.or (Js.Str draftTitle) (Js.Str "Untitled")))
    (JsString.slice0 qmax (questionText c))
    (JsString.slice0 amax (answerText c)).

(** The [for] loop over the candidates to save: turn [i] calls [uid()],
    which returns [uid i], and awaits the write of the candidate's
    document, which settles as [settles i]; a rejected write throws, and
    the loop is left.  The result is the writes issued and whether the loop
    reached its end. *)
Fixpoint saveCards (mk : nat -> CardJson -> StoreOp)
    (settles : nat -> WriteResult) (i : nat) (toSave : list CardJson)
  : list StoreOp * bool :=
  match toSave with
  | [] => ([], true)
  | c :: rest =>
      match settles i with
      | WriteOk =>
          let '(ops, reachedEnd) := saveCards mk settles (S i) rest in
          (mk i c :: ops, reachedEnd)
      | WriteFailed _ => ([mk i c], false)
      end
  end.

(** [makeFlashcards()], from the click to the end; the [i]-th call of
    [uid()] returns [uid i], and the [i]-th write settles as [settles i]. *)
Definition makeFlashcards (uid : nat -> string) (settles : nat -> WriteResult)
    (r : Fetched CardsData) (s : Editor) : Editor :=
  match user s, activeNoteId s with
  | Some u, Some noteId =>
      if JsString.isEmpty noteId then s
      else
        let s0 := set_busy "Generating flashcards…" s in
        match r with
        | Json CardsNull | NetworkError | NotOk _ | NotJson =>
            set_busy "" (alert flashcardsFailed s0)
        | Json data =>
            let arr := match data with CardsArray cards => cards | _ => [] end in
            if (length arr =? 0)%nat
            then set_busy "" (alert "No cards returned." s0)
            else
              let toSave := take 25 arr in
              let '(docs, reachedEnd) :=
                saveCards (fun i c =>
                             cardDoc 500 1500 u noteId (draftTitle s) (uid i) c)
                  settles 0 toSave in
              set_busy ""
                (alert (if reachedEnd
                        then "Saved " ++ decimal (length toSave) ++ " flashcards."
                        else flashcardsFailed)
                   (issue docs s0))
        end
  | _, _ => s
  end.

(** The older [makeFlashcards] kept in the source file: limits 400 and
    1200, no alert of its own for an empty array. *)
Definition makeFlashcards_older (uid : nat -> string)
    (settles : nat -> WriteResult) (r : Fetched CardsData) (s : Editor)
  : Editor :=
  match user s, activeNoteId s with
  | Some u, Some noteId =>
      if JsString.isEmpty noteId then s
      else
        let s0 := set_busy "Generating flashcards..." s in
        match r with
        | Json CardsNull | NetworkError | NotOk _ | NotJson =>
            set_busy "" (alert "Flashcards not set up yet." s0)
        | Json data =>
            let arr := match data with CardsArray cards => cards | _ => [] end in
            let '(docs, reachedEnd) :=
              saveCards (fun i c =>
                           cardDoc 400 1200 u noteId (draftTitle s) (uid i) c)
                settles 0 (take 25 arr) in
            set_busy ""
              (alert (if reachedEnd
                      then "Saved " ++ decimal (Nat.min (length arr) 25)
                           ++ " flashcards."
                      else "Flashcards not set up yet.")
                 (issue docs s0))
        end
  | _, _ => s
  end.

(** What a write does to the [flashcards] collection of user [u]: a
    [setDoc] without [merge] puts the document in place of any older one.
    A document is kept as the card the snapshot listener makes of it. *)
Definition applyCardOp (u : string) (op : StoreOp)
    (col : gmap string Flashcard) : gmap string Flashcard :=
  match op with
  | SetCardDoc uid id noteId noteTitle question answer =>
      if String.eqb uid u
      then <[id := mkFlashcard id noteId noteTitle question answer]> col
      else col
  | _ => col
  end.

(** The collection once the loop has ended, [ops] being the writes it
    issued from turn [i] on: the store holds those that were not
    rejected. *)
Fixpoint cardsStored (u : string) (settles : nat -> WriteResult) (i : nat)
    (ops : list StoreOp) (col : gmap string Flashcard)
  : gmap string Flashcard :=
  match ops with
  | [] => col
  | op :: ops' =>
      cardsStored u settles (S i) ops'
        match settles i with
        | WriteOk => applyCardOp u op col
        | WriteFailed _ => col
        end
  end.

(** The collection [col] with the flashcards of the candidates [cs], the
    first of which is written in turn [i]. *)
Fixpoint withCards (qmax amax : nat) (noteId title : string)
    (uid : nat -> string) (i : nat) (cs : list CardJson)
    (col : gmap string Flashcard) : gmap string Flashcard :=
  match cs with
  | [] => col
  | c :: cs' =>
      withCards qmax amax noteId title uid (S i) cs'
        (<[uid i := mkFlashcard (uid i) (Some noteId)
                      (Js.toString (Js.or (Js.Str title) (Js.Str "Untitled")))
                      (JsString.slice0 qmax (questionText c))
                      (JsString.slice0 amax (answerText c))]> col)
  end.

(** ** What is asked of the flashcards persisted *)

(** [stored] is [text] cut to its first [n] characters. *)
Definition truncated (n : nat) (text stored : string) : Prop :=
  (exists rest, text = (stored ++ rest)%string) /\
  String.length stored = Nat.min n (String.length text).

(** Beyond what [col] held, [col'] holds exactly [k] flashcards: one for
    each of the first [k] candidates, under the identifier generated for
    it, referring to note [noteId], with question and answer of at most
    [qmax] and [amax] characters, which are the candidate's question and
    answer cut to their first [qmax] and [amax] characters when these are
    strings. *)
Definition persistedFirst (qmax amax : nat) (uid : nat -> string)
    (noteId : string) (cards : list CardJson) (k : nat)
    (col col' : gmap string Flashcard) : Prop :=
  size col' = (size col + k)%nat /\
  (forall id card, col !! id = Some card -> col' !! id = Some card) /\
  (forall (i : nat) c,
      (i < k)%nat -> cards !! i = Some c ->
      exists card,
        col' !! uid i = Some card /\
        card_noteId card = Some noteId /\
        (String.length (card_question card) <= qmax)%nat /\
        (String.length (card_answer card) <= amax)%nat /\
        (forall text, cj_question c = Js.Str text ->
                      truncated qmax text (card_question card)) /\
        (forall text, cj_answer c = Js.Str text ->
                      truncated amax text (card_answer card))).

(** ** Study mode *)

Record Study := mkStudy {
  studyMode : bool;
  studyIndex : Z;
  studyFlipped : bool;
  studyAlerts : list string
}.

Definition initialStudy : Study := mkStudy false 0 false [].

Definition startStudy (deck : list Flashcard) (s : Study) : Study :=
  if (length deck =? 0)%nat
  then mkStudy (studyMode s) (studyIndex s) (studyFlipped s)
         (studyAlerts s ++ ["No flashcards to study yet."])
  else mkStudy true 0 false (studyAlerts s).

Definition stopStudy (s : Study) : Study :=
  mkStudy false 0 false (studyAlerts s).

Definition nextCard (deck : list Flashcard) (s : Study) : Study :=
  mkStudy (studyMode s)
    (Z.min (studyIndex s + 1) (Z.max 0 (Z.of_nat (length deck) - 1)))
    false (studyAlerts s).

Definition prevCard (s : Study) : Study :=
  mkStudy (studyMode s) (Z.max (studyIndex s - 1) 0) false (studyAlerts s).

Inductive StudyOp := StartStudy | StopStudy | NextCard | PrevCard.

Definition studyStep (deck : list Flashcard) (op : StudyOp) (s : Study) : Study :=
  match op with
  | StartStudy => startStudy deck s
  | StopStudy => stopStudy s
  | NextCard => nextCard deck s
  | PrevCard => prevCard s
  end.

Definition studyRun (deck : list Flashcard) (ops : list StudyOp) (s : Study)
  : Study :=
  fold_left (fun s op => studyStep deck op s) ops s.

(** The last position of a deck, and the indices that are positions. *)
Definition lastIndex (deck : list Flashcard) : Z :=
  Z.max 0 (Z.of_nat (length deck) - 1).

Definition indexValid (deck : list Flashcard) (s : Study) : Prop :=
  0 <= studyIndex s <= lastIndex deck.

(** ** The flashcard panel: the deck is derived at every render *)

(** What the panel reads: the mirrored cards, the "Only this note" box,
    the active note and the study state. *)
Record Panel := mkPanel {
  panelCards : list Flashcard;
  panelOnly : bool;
  panelActive : option string;
  panelStudy : Study
}.

Definition initialPanel : Panel := mkPanel [] false None initialStudy.

(** [studyDeck], as the render of state [p] computes it. *)
Definition panelDeck (p : Panel) : list Flashcard :=
  studyDeck (panelCards p) (panelOnly p) (panelActive p).

Inductive PanelEvent :=
| StudyAction (op : StudyOp)
    (* startStudy(), stopStudy(), nextCard() or prevCard() *)
| CardsSnapshot (cards : list Flashcard)
    (* setCards(snap.docs.map(...)) *)
| TickOnlyThisNote (checked : bool)
    (* setStudyOnlyThisNote(e.target.checked) *)
| ActiveNoteChanges (id : option string).
    (* setActiveNoteId(...) *)

(** The four functions read the deck of the current render; the three
    other events change what the deck is derived from and leave the study
    state alone. *)
Definition panelStep (e : PanelEvent) (p : Panel) : Panel :=
  match e with
  | StudyAction op =>
      mkPanel (panelCards p) (panelOnly p) (panelActive p)
        (studyStep (panelDeck p) op (panelStudy p))
  | CardsSnapshot cards =>
      mkPanel cards (panelOnly p) (panelActive p) (panelStudy p)
  | TickOnlyThisNote checked =>
      mkPanel (panelCards p) checked (panelActive p) (panelStudy p)
  | ActiveNoteChanges id =>
      mkPanel (panelCards p) (panelOnly p) id (panelStudy p)
  end.

Definition panelRun (es : list PanelEvent) (p : Panel) : Panel :=
  fold_left (fun p e => panelStep e p) es p.

(** ** The serverless handlers *)

Module Api.

(** [req]: the method and the parsed body, [None] when the request has no
    body (destructuring it throws), else the value of its [text]. *)
Record Request := mkRequest {
  method : string;
  body : option Js.value
}.

Inductive Payload :=
| ErrorBody (error : string)
| CardsBody (cards : option (list CardJson))
| SummaryBody (summary : Js.value).

Record Response := mkResponse {
  status : Z;
  json : Payload
}.

(** One call of [openai.chat.completions.create]. *)
Record Completion := mkCompletion {
  model : string;
  system : string;
  userText : Js.value;
  jsonObject : bool
}.

(** What the handler cannot decide by itself: whether [new OpenAI(...)]
    returns (it throws without an API key), and what a completion call
    yields: [None] when the call or the reading of
    [choices[0].message.content] throws. *)
Record Env := mkEnv {
  clientOk : bool;
  complete : Completion -> option Js.value
}.

(** [!text || text.length < 10]; [length] of a value that is no string is
    [undefined], which compares false. *)
Definition tooShort (text : Js.value) : bool :=
  negb (Js.truthy text) ||
  match text with
  | Js.Str s => (String.length s <? 10)%nat
  | _ => false
  end.

Definition aiError : Response := mkResponse 500 (ErrorBody "AI error").

Definition flashcardsPrompt : string :=
  "Return ONLY valid JSON in this format: {" ++ String "034" "cards"
  ++ String "034" ":[{" ++ String "034" "question" ++ String "034" ":"
  ++ String "034" (String "034" ",") ++ String "034" "answer"
  ++ String "034" ":" ++ String "034" (String "034" "}]}. Make 8 flashcards.").

Definition summarizePrompt : string :=
  "You are a powerful academic study assistant. Create a clear bullet summary with key concepts.".

(** The shared frame of the two handlers; [finish] is what follows the
    completion call.  The result is the response and the completion
    calls made. *)
Definition handle (call : Js.value -> Completion)
    (finish : Js.value -> option Response)
    (env : Env) (req : Request) : Response * list Completion :=
  if negb (String.eqb (method req) "POST")
  then (mkResponse 405 (ErrorBody "Method not allowed"), [])
  else if negb (clientOk env) then (aiError, [])
  else
    match body req with
    | None => (aiError, [])
    | Some text =>
        if tooShort text
        then (mkResponse 400 (ErrorBody "Text too short"), [])
        else
          match complete env (call text) with
          | None => (aiError, [call text])
          | Some content =>
              match finish content with
              | None => (aiError, [call text])
              | Some res => (res, [call text])
              end
          end
    end.

Section Handlers.
(** [JSON.parse(content)] followed by the reading of [.cards]: [None]
    when either throws. *)
Variable parseCards : Js.value -> option (option (list CardJson)).

(** [api/flashcards.js] *)
Definition flashcards : Env -> Request -> Response * list Completion :=
  handle (fun text => mkCompletion "gpt-4o-mini" flashcardsPrompt text true)
    (fun content =>
       match parseCards content with
       | None => None
       | Some cards => Some (mkResponse 200 (CardsBody cards))
       end).

(** [api/summarize.js] *)
Definition summarize : Env -> Request -> Response * list Completion :=
  handle (fun text => mkCompletion "gpt-4o-mini" summarizePrompt text false)
    (fun content => Some (mkResponse 200 (SummaryBody content))).
End Handlers.

End Api.

(** ** What is asked of a pending save *)

(** Some write to the record of note [A] carries [body]. *)
Definition bodyPersisted (A body : string) (s : Editor) : Prop :=
  exists uid title className,
    In (MergeNoteDoc uid A title className body) (writes s).

(** The user opens note [A], edits its body to [body] and opens note [B]
    before the autosave timer fires; then every timer fires.  The edit
    survives the switch when it has been written by then. *)
Definition switchEvents (A B body : string) : list Event :=
  [OpenNote A; IgnoreResetFires; TypeBody body; OpenNote B;
   IgnoreResetFires; DebounceFires].

Definition survivesSwitch (s : Editor) (A B body : string) : Prop :=
  bodyPersisted A body (run (switchEvents A B body) s).

(** The events that need no user: timers firing and writes settling. *)
Definition systemEvent (e : Event) : Prop :=
  match e with
  | IgnoreResetFires | DebounceFires | WriteSettles _ => True
  | _ => False
  end.

(** No autosave timer is live. *)
Definition noAutosaveTimer (s : Editor) : Prop :=
  match saveDebounceRef s with
  | Some (AutosaveTimer _) => False
  | _ => True
  end.

(** The drafts that loading note [n] puts in the editor. *)
Definition loadedDrafts (n : Note) : string * string * string :=
  (orEmpty (note_title n), orEmpty (note_className n), orEmpty (note_body n)).

(** ** What the note list expects of [filteredNotes] *)

(** The folder label of a note, absent meaning unfiled. *)
Definition folderLabel (n : Note) : string := default EmptyString (note_className n).

(** The folder filter lets the note through. *)
Definition folderMatches (F : string) (n : Note) : Prop :=
  F = "ALL"%string \/ JsString.trim (folderLabel n) = F.

(** The text of a field where the note is printed: the field itself, and
    the word "undefined" for a field the record does not have. *)
Definition fieldText (o : option string) : string :=
  match o with
  | Some text => text
  | None => "undefined"
  end.

(** Title, folder and body of a note, joined by single spaces. *)
Definition noteText (n : Note) : string :=
  (fieldText (note_title n) ++ " " ++ fieldText (note_className n) ++ " "
   ++ fieldText (note_body n))%string.

(** Lower case, letter by letter: a capital of the alphabet is replaced by
    the small letter at the same place, every other character is kept. *)
Fixpoint smallLetter (capitals smalls : string) (c : ascii) : ascii :=
  match capitals, smalls with
  | String C capitals', String l smalls' =>
      if Ascii.eqb c C then l else smallLetter capitals' smalls' c
  | _, _ => c
  end.

Fixpoint lowercased (s : string) : string :=
  match s with
  | EmptyString => EmptyString
  | String c s' =>
      String (smallLetter "ABCDEFGHIJKLMNOPQRSTUVWXYZ"
                "abcdefghijklmnopqrstuvwxyz" c)
        (lowercased s')
  end.

(** [q] occurs in [s]. *)
Definition substringOf (q s : string) : Prop :=
  exists pre suf, s = (pre ++ q ++ suf)%string.

(** The search string lets the note through: it is empty, or in lower case
    it occurs in the text of the note in lower case. *)
Definition searchMatches (S : string) (n : Note) : Prop :=
  S = EmptyString \/ substringOf (lowercased S) (lowercased (noteText n)).



(** ** What the calendar expects of [tasksByDate] *)

(** The tasks that the loop files under key [D]. *)
Definition keyed (D : string) (tasks : list Task) : list Task :=
  List.filter (fun t => bool_decide (taskDueKey t = Some D)) tasks.

(** The tasks whose [due] field is [D], in the order of the task list. *)
Definition tasksDue (D : string) (tasks : list Task) : list Task :=
  List.filter (fun t => bool_decide (task_due t = Some D)) tasks.

(** ** What the handlers are asked to reject *)

(** The [text] of a request body is missing, or is a string of fewer than
    10 characters. *)
Definition textMissingOrShort (text : Js.value) : Prop :=
  text = Js.Undefined \/ text = Js.Null \/
  exists s, text = Js.Str s /\ (String.length s < 10)%nat.

(** ** Sample states and inputs *)

(** Three cards, the first of note "A", and a study session over all of
    them during which "Only this note" is ticked on the third card. *)
Definition threeCards : list Flashcard :=
  [mkFlashcard "c1" (Some "A"%string) "Alpha" "q1" "a1";
   mkFlashcard "c2" (Some "B"%string) "Beta" "q2" "a2";
   mkFlashcard "c3" (Some "B"%string) "Beta" "q3" "a3"].

Definition tickWhileStudying : list PanelEvent :=
  [CardsSnapshot threeCards; ActiveNoteChanges (Some "A"%string);
   StudyAction StartStudy; StudyAction NextCard; StudyAction NextCard;
   TickOnlyThisNote true].


(** A draft with a blank title and a padded folder label. *)
Definition blankTitleEditor : Editor :=
  mkEditor (Some "u1"%string) [] (Some "n1"%string)
    "   " " Math " "E = mc^2 " "" Idle None false false 0 [] [] [].

Definition sampleUid (i : nat) : string := ("card" ++ decimal i)%string.

Fixpoint repeated (n : nat) (c : ascii) : string :=
  match n with
  | O => EmptyString
  | S n' => String c (repeated n' c)
  end.

(** A store that takes every write, and one that rejects the third. *)
Definition acceptAll (i : nat) : WriteResult := WriteOk.
Definition rejectThird (i : nat) : WriteResult :=
  if (i =? 2)%nat then WriteFailed "permission-denied" else WriteOk.

(** Thirty candidates, the first with a question of 600 characters. *)
Definition thirtyCards : list CardJson :=
  mkCardJson (Js.Str (repeated 600 "q")) (Js.Str "a long answer")
  :: repeat (mkCardJson (Js.Str "What is 2 + 2?") (Js.Num 4)) 29.

Definition noteA : Note :=
  mkNote "A" (Some "Alpha"%string) (Some "Math"%string)
    (Some "first body"%string) false (Some 100).
Definition noteB : Note :=
  mkNote "B" (Some "Beta"%string) (Some "Art"%string)
    (Some "second body"%string) true (Some 90).

(** A signed-in user whose first snapshot, with note B first, has settled. *)
Definition twoNotesEditor : Editor :=
  run [NotesSnapshot [noteB; noteA]; IgnoreResetFires]
    (initialEditor (Some "u1"%string)).

(** Note B stored with the very fields of the draft of note A after the
    edit of [switchEvents "A" "B" "edited"]. *)
Definition noteB_same : Note :=
  mkNote "B" (Some "Alpha"%string) (Some "Math"%string)
    (Some "edited"%string) false (Some 90).

Definition twoNotesEditor_same : Editor :=
  run [NotesSnapshot [noteB_same; noteA]; IgnoreResetFires]
    (initialEditor (Some "u1"%string)).

Definition sampleTasks : list Task :=
  [mkTask "t1" "essay" "Art" (Some "2024-03-01"%string) false;
   mkTask "t2" "someday" "" None false;
   mkTask "t3" "quiz" "Math" (Some "2024-03-01"%string) true;
   mkTask "t4" "blank" "" (Some ""%string) false;
   mkTask "t5" "lab" "Math" (Some "2024-03-08"%string) false].

Definition noteC : Note :=
  mkNote "C" (Some "Gamma"%string) None None false None.

(** An environment whose completion call always answers. *)
Definition sampleEnv : Api.Env :=
  Api.mkEnv true (fun _ => Some (Js.Str "{}")).

Definition noParse (content : Js.value) : option (option (list CardJson)) :=
  Some None.

(** A deployment without API key, whose client cannot be built. *)
Definition noKeyEnv : Api.Env :=
  Api.mkEnv false (fun _ => Some (Js.Str "{}")).

(** A POST with a text of nine characters, and a POST without a body. *)
Definition shortPost : Api.Request :=
  Api.mkRequest "POST" (Some (Js.Str "too short")).
Definition bodylessPost : Api.Request := Api.mkRequest "POST" None.

(* ===================================================================== *)
(** * Part I, continued: the rest of the helpers and actions              *)
(* ===================================================================== *)

(** ** Calendar keys and months *)

(** [s.padStart(n, c)] for a pad [c] of one character *)
Definition padStart (n : nat) (c : ascii) (s : string) : string :=
  (repeated (n - String.length s) c ++ s)%string.

(** [ymd(d)] *)
Definition ymd (d : JsDate.t) : string :=
  let dt := d in
  let y := JsDate.getFullYear dt in
  let m := padStart 2 "0" (Js.toString (Js.Num (JsDate.getMonth dt + 1))) in
  let day := padStart 2 "0" (Js.toString (Js.Num (JsDate.getDate dt))) in
  (Js.toString (Js.Num y) ++ "-" ++ m ++ "-" ++ day)%string.



(** What the calendar computes for the cell of day [d]: its key, the tasks
    due, whether it belongs to the month shown, whether it is the selected
    day, and the two flags of the dot. *)
Record Cell := mkCell {
  cell_key : string;
  cell_due : list Task;
  cell_isThisMonth : bool;
  cell_isSelected : bool;
  cell_hasUndone : bool;
  cell_hasAny : bool
}.

Definition calendarCell (calMonth : JsDate.t) (selectedDay : option string)
    (byDate : gmap string (list Task)) (d : JsDate.t) : Cell :=
  let key := ymd d in
  let due := default [] (byDate !! key) in
  let isThisMonth := JsDate.getMonth d =? JsDate.getMonth calMonth in
  let isSelected := bool_decide (selectedDay = Some key) in
  let hasUndone := existsb (fun t => negb (task_done t)) due in
  let hasAny := (0 <? length due)%nat in
  mkCell key due isThisMonth isSelected hasUndone hasAny.

(** The cells of the calendar, in grid order. *)
Definition calendarCells (calMonth : JsDate.t) (selectedDay : option string)
    (tasks : list Task) : list Cell :=
  map (calendarCell calMonth selectedDay (tasksByDate tasks))
    (buildMonthGrid calMonth).

(** The value of a string of two decimal digits. *)
Definition twoDigits (s : string) : option nat :=
  match s with
  | String a (String b EmptyString) =>
      Some ((nat_of_ascii a - 48) * 10 + (nat_of_ascii b - 48))%nat
  | _ => None
  end.

(** ** Theme *)

(** The initial value of [theme]: what [localStorage.getItem("theme")]
    returned, when it is "light" or "dark", else "dark". *)
Definition initialTheme (saved : option string) : string :=
  match saved with
  | Some v => if String.eqb v "light" || String.eqb v "dark" then v else "dark"
  | None => "dark"
  end.

(** The update of the theme button: [(t) => (t === "dark" ? "light" : "dark")] *)
Definition toggleTheme (t : string) : string :=
  if String.eqb t "dark" then "light" else "dark".

(** The theme effect on the storage: [localStorage.setItem("theme", theme)] *)
Definition persistTheme (theme : string) (storage : gmap string string)
  : gmap string string :=
  <["theme"%string := theme]> storage.

(** The theme after [n] clicks on the button, from what the storage held. *)
Definition themeAfter (saved : option string) (n : nat) : string :=
  Nat.iter n toggleTheme (initialTheme saved).

(** ** Folder list *)

(** [set.add(c)] on a [Set], as the list of its elements in insertion order *)
Definition setAdd (c : string) (set : list string) : list string :=
  if existsb (String.eqb c) set then set else set ++ [c].

(** The loop of [classFolders] *)
Definition folderSet (notes : list Note) : list string :=
  fold_left (fun set n =>
               let c := JsString.trim (orEmpty (note_className n)) in
               if JsString.isEmpty c then set else setAdd c set)
    notes [].

(** [classFolders]; [localeCompare] is the collation of the host. *)
Definition classFolders (localeCompare : string -> string -> Z)
    (notes : list Note) : list string :=
  "ALL"%string :: Js.sort localeCompare (folderSet notes).

(** ** Study mode buttons *)

(** [studyDeck[i]] *)
Definition cardAt (deck : list Flashcard) (i : Z) : option Flashcard :=
  if i <? 0 then None else deck !! Z.to_nat i.

(** The click handler of the "Next" button *)
Definition onNextClick (deck : list Flashcard) (s : Study) : Study :=
  if studyIndex s >=? Z.of_nat (length deck) - 1
  then stopStudy (mkStudy (studyMode s) (studyIndex s) (studyFlipped s)
                    (studyAlerts s ++ ["Done! 🎉"]))
  else nextCard deck s.

(** The buttons of the flashcard panel; "Prev" and "Next" exist in study
    mode only. *)
Inductive StudyClick := ClickStudy | ClickExit | ClickPrev | ClickNext | ClickFlip.

Definition studyClick (deck : list Flashcard) (c : StudyClick) (s : Study) : Study :=
  match c with
  | ClickStudy => startStudy deck s
  | ClickExit => stopStudy s
  | ClickPrev => if studyMode s then prevCard s else s
  | ClickNext => if studyMode s then onNextClick deck s else s
  | ClickFlip =>
      if studyMode s
      then mkStudy (studyMode s) (studyIndex s) (negb (studyFlipped s))
             (studyAlerts s)
      else s
  end.

Definition studyClicks (deck : list Flashcard) (cs : list StudyClick) (s : Study)
  : Study :=
  fold_left (fun s c => studyClick deck c s) cs s.

(** ** Notes: the mirror of a record, pinning and deleting *)

(** The note of the mirrored list made from a record: [{ id: d.id, ...d.data() }],
    [pinned] read through [!!]. *)
Definition noteOfDoc (id : string) (d : NoteDoc) : Note :=
  mkNote id (doc_title d) (doc_className d) (doc_body d)
    (default false (doc_pinned d)) (doc_updatedAt d).

(** The two other writes to the [notes] collection. *)
Inductive NoteAdminOp :=
| MergePinDoc (uid id : string) (pinned : bool)
    (* setDoc(notes/id, {pinned, updatedAt}, {merge: true}) *)
| DeleteNoteDoc (uid id : string).
    (* deleteDoc(notes/id) *)

Definition applyAdminOp (u : string) (now : Z) (op : NoteAdminOp)
    (col : gmap string NoteDoc) : gmap string NoteDoc :=
  match op with
  | MergePinDoc uid id pinned =>
      if String.eqb uid u
      then
        let old := default emptyNoteDoc (col !! id) in
        <[id := mkNoteDoc (doc_title old) (doc_className old) (doc_body old)
                  (Some pinned) (doc_createdAt old) (Some now)]> col
      else col
  | DeleteNoteDoc uid id =>
      if String.eqb uid u then delete id col else col
  end.

(** [togglePin(note)]: the write it issues, if any. *)
Definition togglePin (user : option string) (note : Note) : list NoteAdminOp :=
  match user with
  | None => []
  | Some uid => [MergePinDoc uid (note_id note) (negb (note_pinned note))]
  end.

(** [deleteNote()] up to its [await]; [ok] is the answer to the
    confirmation.  The result is the write issued, if any: no state is
    changed before the write settles. *)
Definition deleteNote (ok : bool) (s : Editor) : list NoteAdminOp :=
  match user s, activeNoteId s with
  | Some uid, Some id =>
      if JsString.isEmpty id then []
      else if negb ok then []
      else [DeleteNoteDoc uid id]
  | _, _ => []
  end.

(** What follows the [await] of [deleteNote()], in the state [s] in which
    the deletion settles: [setActiveNoteId(null)] when the store has
    acknowledged it, nothing when it is rejected.  While the deletion has
    not settled (the store is out of reach), nothing follows either. *)
Definition deleteNote_settled (r : WriteResult) (s : Editor) : Editor :=
  match r with
  | WriteOk => rerender s (set_activeNoteId None s)
  | WriteFailed _ => s
  end.

(** Edits of the three draft fields. *)
Definition typingEvent (e : Event) : Prop :=
  match e with
  | TypeTitle _ | TypeClass _ | TypeBody _ => True
  | _ => False
  end.

(** No two neighbours of the list are equal. *)
Fixpoint allChange (prev : string) (vs : list string) : Prop :=
  match vs with
  | [] => True
  | v :: vs' => v <> prev /\ allChange v vs'
  end.

(** A deck of two cards. *)
Definition twoCards : list Flashcard :=
  [mkFlashcard "c1" (Some "A"%string) "Alpha" "q1" "a1";
   mkFlashcard "c2" (Some "B"%string) "Beta" "q2" "a2"].

(** Note A open, the load guard down. *)
Definition editingA : Editor :=
  run [OpenNote "A"; IgnoreResetFires] twoNotesEditor.

(** A signed-in user edits note [A] and the load guard is down. *)
Definition editingNote (s : Editor) (uid A : string) : Prop :=
  user s = Some uid /\ activeNoteId s = Some A /\ A <> EmptyString /\
  ignoreAutosaveRef s = false.

(** Events that load notes: a click on a note, a snapshot. *)
Definition loadEvent (e : Event) : Prop :=
  match e with
  | OpenNote _ | NotesSnapshot _ => True
  | _ => False
  end.

(** The write that saves the drafts of [s] to note [A]. *)
Definition draftWrite (uid A : string) (s : Editor) : StoreOp :=
  MergeNoteDoc uid A (savedTitle (draftTitle s)) (JsString.trim (draftClass s))
    (draftBody s).

(** Note A edited and its autosave fired, then edited again while the
    write is awaited. *)
Definition editedDuringSave : Editor :=
  run [TypeBody "v1"; DebounceFires; TypeBody "v2"] editingA.

(** The record that saving [blankTitleEditor] leaves in an empty
    collection, and a later session that mirrors it. *)
Definition savedBlankDoc : NoteDoc :=
  mkNoteDoc (Some "Untitled"%string) (Some "Math"%string)
    (Some "E = mc^2 "%string) None None (Some 1700000000).

Definition reloadedEditor : Editor :=
  set_notes [noteOfDoc "n1" savedBlankDoc] (initialEditor (Some "u1"%string)).

(** Typing, timers and settling writes. *)
Definition passiveEvent (e : Event) : Prop := typingEvent e \/ systemEvent e.

(** Note A with an edit whose autosave timer is pending. *)
Definition pendingEditA : Editor := run [TypeBody "edited"] editingA.

(** ** Tasks *)

(** The three inputs of the task form. *)
Record TaskForm := mkTaskForm {
  taskTitle : string;
  taskClass : string;
  taskDue : string
}.

(** The writes to the [tasks] collection. *)
Inductive TaskOp :=
| SetTaskDoc (uid id title className due : string) (done : bool)
    (* setDoc(tasks/id, {title, className, due, done, createdAt}) *)
| MergeTaskDone (uid id : string) (done : bool)
    (* setDoc(tasks/id, {done}, {merge: true}) *)
| DeleteTaskDoc (uid id : string).
    (* deleteDoc(tasks/id) *)

(** The task form, the selected day, and the writes and alerts issued. *)
Record TaskPanel := mkTaskPanel {
  tp_form : TaskForm;
  tp_selectedDay : option string;
  tp_ops : list TaskOp;
  tp_alerts : list string
}.

(** The click on the calendar cell of day [d]:
    [setSelectedDay(key); setTaskDue(key)]. *)
Definition clickDay (d : JsDate.t) (p : TaskPanel) : TaskPanel :=
  let key := ymd d in
  mkTaskPanel (mkTaskForm (taskTitle (tp_form p)) (taskClass (tp_form p)) key)
    (Some key) (tp_ops p) (tp_alerts p).

(** [addTask()]; [id] is what [uid()] returned and [r] how the write ends. *)
Definition addTask (user : option string) (id : string) (r : WriteResult)
    (p : TaskPanel) : TaskPanel :=
  match user with
  | None => p
  | Some uid =>
      let f := tp_form p in
      if JsString.isEmpty (JsString.trim (taskTitle f))
         || JsString.isEmpty (taskDue f)
      then mkTaskPanel f (tp_selectedDay p) (tp_ops p)
             (tp_alerts p ++ ["Task title and due date required."])
      else
        let op := SetTaskDoc uid id (JsString.trim (taskTitle f))
                    (JsString.trim (taskClass f)) (taskDue f) false in
        match r with
        | WriteOk =>
            mkTaskPanel (mkTaskForm "" "" "") (tp_selectedDay p)
              (tp_ops p ++ [op]) (tp_alerts p)
        | WriteFailed message =>
            mkTaskPanel f (tp_selectedDay p) (tp_ops p ++ [op])
              (tp_alerts p ++ [("Task save failed: " ++ message)%string])
        end
  end.

(** [toggleTask(t)] and [deleteTask(t)]: the write issued, if any. *)
Definition toggleTask (user : option string) (t : Task) : list TaskOp :=
  match user with
  | None => []
  | Some uid => [MergeTaskDone uid (task_id t) (negb (task_done t))]
  end.

Definition deleteTask (user : option string) (t : Task) : list TaskOp :=
  match user with
  | None => []
  | Some uid => [DeleteTaskDoc uid (task_id t)]
  end.

(** A record of the [tasks] collection of one user. *)
Record TaskDoc := mkTaskDoc {
  td_title : option string;
  td_className : option string;
  td_due : option string;
  td_done : option bool
}.

Definition emptyTaskDoc : TaskDoc := mkTaskDoc None None None None.

Definition applyTaskOp (u : string) (op : TaskOp) (col : gmap string TaskDoc)
  : gmap string TaskDoc :=
  match op with
  | SetTaskDoc uid id title className due done =>
      if String.eqb uid u
      then <[id := mkTaskDoc (Some title) (Some className) (Some due) (Some done)]> col
      else col
  | MergeTaskDone uid id done =>
      if String.eqb uid u
      then
        let old := default emptyTaskDoc (col !! id) in
        <[id := mkTaskDoc (td_title old) (td_className old) (td_due old)
                  (Some done)]> col
      else col
  | DeleteTaskDoc uid id =>
      if String.eqb uid u then delete id col else col
  end.

(** The task of the mirrored list made from a record. *)
Definition taskOfDoc (id : string) (d : TaskDoc) : Task :=
  mkTask id (default EmptyString (td_title d))
    (default EmptyString (td_className d)) (td_due d)
    (default false (td_done d)).

(** An empty task panel with a title typed in. *)
Definition essayPanel : TaskPanel :=
  mkTaskPanel (mkTaskForm " Essay " "Art" "") None [] [].

(** ** Transcript *)

(** One entry of [event.results]: whether it is final, and the text of its
    first alternative. *)
Record SpeechResult := mkSpeechResult {
  isFinal : bool;
  alternative0 : string
}.

(** [rec.onresult]: the new value of [transcript]. *)
Definition onresult (resultIndex : nat) (results : list SpeechResult)
    (transcript : string) : string :=
  let finalText :=
    fold_left (fun acc r =>
                 if isFinal r then (acc ++ (alternative0 r ++ " "))%string else acc)
      (drop resultIndex results) EmptyString in
  if JsString.isEmpty finalText then transcript
  else (transcript ++ finalText)%string.

(** All the strings of a list, one after the other. *)
Definition joinAll (l : list string) : string :=
  fold_right String.append EmptyString l.

(** The final results of an event from its [resultIndex] on, each followed
    by a space. *)
Definition finalSegments (resultIndex : nat) (results : list SpeechResult)
  : list string :=
  map (fun r => (alternative0 r ++ " ")%string)
    (List.filter isFinal (drop resultIndex results)).

(** [insertTranscriptIntoNote()] *)
Definition insertTranscriptIntoNote (transcript : string) (s : Editor) : Editor :=
  if JsString.isEmpty (JsString.trim transcript) then s
  else
    let body := (draftBody s ++ nl ++ nl ++ "--- TRANSCRIPT ---" ++ nl
                 ++ JsString.trim transcript ++ nl ++ "--- /TRANSCRIPT ---"
                 ++ nl)%string in
    rerender s (set_draftBody body s).

(** ** PDF import *)

(** [items.map((i) => i.str).join(" ")] *)
Definition pageStrings (items : list string) : string := String.concat " " items.

(** The loop of [extractPdfText], page [p] having the strings [items]. *)
Definition pdfStep (out : string) (page : nat * list string) : string :=
  (out ++ nl ++ nl ++ "[Page " ++ decimal (fst page) ++ "]" ++ nl
   ++ pageStrings (snd page))%string.

(** [extractPdfText(file)] for a document whose pages hold these strings. *)
Definition extractPdfText (pages : list (list string)) : string :=
  JsString.trim
    (fold_left pdfStep (combine (seq 1 (length pages)) pages) EmptyString).

(** [importPdf(file)] for a file named [name]; [extracted] is the text
    [extractPdfText] returned, [None] when it threw. *)
Definition importPdf (name : string) (extracted : option string) (s : Editor)
  : Editor :=
  let s0 := set_busy "Extracting PDF…" s in
  match extracted with
  | Some text =>
      let header := ("--- PDF IMPORT: " ++ name ++ " ---")%string in
      let block := (nl ++ nl ++ header ++ nl ++ text ++ nl ++ "--- /PDF ---"
                    ++ nl)%string in
      let body := if JsString.isEmpty (draftBody s0)
                  then JsString.trimStart block
                  else (draftBody s0 ++ block)%string in
      set_busy "" (rerender s0 (set_draftBody body s0))
  | None => set_busy "" (alert "PDF import failed." s0)
  end.

(** ** Flashcard responses that give nothing to save *)

Definition usableCards (r : Fetched CardsData) : Prop :=
  match r with
  | Json (CardsArray (_ :: _)) => True
  | _ => False
  end.

(* ===================================================================== *)
(** * Part II: properties                                                 *)
(* ===================================================================== *)

Section DateFacts.
Import JsDate.

Lemma DayFromYear_succ y : DayFromYear (y + 1) = DayFromYear y + DaysInYear y.
Proof.
  unfold DayFromYear, DaysInYear.
  repeat match goal with
         | |- context [?a =? ?b] => destruct (Z.eqb_spec a b); simpl
         end;
    Z.div_mod_to_equations; lia.
Qed.

Lemma DaysInYear_cases y : DaysInYear y = 365 \/ DaysInYear y = 366.
Proof.
  unfold DaysInYear.
  repeat match goal with
         | |- context [?a =? ?b] => destruct (Z.eqb_spec a b); simpl
         end; auto.
Qed.

Lemma YearFromTime_bounds d :
  DayFromYear (YearFromTime d) <= d < DayFromYear (YearFromTime d + 1).
Proof.
  unfold YearFromTime.
  set (y := 1970 + 400 * d / 146097).
  destruct (Z.ltb_spec d (DayFromYear y)) as [Hlt|Hge].
  - replace (y - 1 + 1) with y by lia. split; [|exact Hlt].
    subst y. unfold DayFromYear in *. Z.div_mod_to_equations. lia.
  - destruct (Z.leb_spec (DayFromYear (y + 1)) d) as [Hle|Hgt].
    + split; [exact Hle|].
      subst y. unfold DayFromYear in *. Z.div_mod_to_equations. lia.
    + lia.
Qed.

Lemma DayFromYear_mono y1 y2 : y1 <= y2 -> DayFromYear y1 <= DayFromYear y2.
Proof. unfold DayFromYear. intros H. Z.div_mod_to_equations. lia. Qed.


(** [YearFromTime] is the year the standard asks for: the largest one that
    starts on or before the day. *)
Lemma YearFromTime_largest d :
  DayFromYear (YearFromTime d) <= d /\
  forall y, DayFromYear y <= d -> y <= YearFromTime d.
Proof.
  pose proof (YearFromTime_bounds d) as [Hlo Hhi].
  split; [exact Hlo|]. intros y Hy.
  destruct (Z.le_gt_cases y (YearFromTime d)) as [H|H]; [exact H|].
  pose proof (DayFromYear_mono (YearFromTime d + 1) y ltac:(lia)). lia.
Qed.

Lemma DayWithinYear_range d :
  0 <= DayWithinYear d < 365 + InLeapYear d.
Proof.
  unfold DayWithinYear, InLeapYear.
  pose proof (YearFromTime_bounds d) as [Hlo Hhi].
  rewrite DayFromYear_succ in Hhi.
  destruct (DaysInYear_cases (YearFromTime d)) as [E|E]; rewrite E in *; simpl; lia.
Qed.

Lemma MonthFromTime_range d : 0 <= MonthFromTime d < 12.
Proof.
  unfold MonthFromTime.
  repeat match goal with
         | |- context [?a <? ?b] => destruct (Z.ltb_spec a b)
         end; lia.
Qed.

(** The day number is recovered from its own calendar fields. *)
Lemma MakeDay_fields d n :
  MakeDay (YearFromTime d) (MonthFromTime d) n = d - DateFromTime d + n.
Proof.
  pose proof (DayWithinYear_range d) as Hw.
  pose proof (MonthFromTime_range d) as Hm.
  unfold MakeDay.
  rewrite (Z.div_small _ 12), (Z.mod_small _ 12), Z.add_0_r by lia.
  fold (InLeapYear d).
  unfold DateFromTime.
  unfold DayWithinYear in *.
  clear Hm. unfold MonthFromTime, DayWithinYear.
  set (L := InLeapYear d) in *.
  set (y0 := DayFromYear (YearFromTime d)) in *.
  repeat match goal with
         | |- context [?a <? ?b] => destruct (Z.ltb_spec a b)
         end; simpl; lia.
Qed.

Lemma setDate_spec d n : setDate d n = d - getDate d + n.
Proof. apply MakeDay_fields. Qed.


End DateFacts.

(** ** The calendar grid *)

Section MonthGrid.
Import JsDate.

Lemma buildMonthGrid_cells date :
  buildMonthGrid date =
  map (fun i => gridFirst date - getDay (gridFirst date) + i) (seqZ 0 42).
Proof.
  unfold buildMonthGrid, gridFirst.
  generalize (make (getFullYear date) (getMonth date) 1). intros first.
  apply map_ext. intros i.
  rewrite !setDate_spec. lia.
Qed.






End MonthGrid.

(** ** Study mode *)

Section StudyFacts.
Variable deck : list Flashcard.

Lemma studyStep_valid op s : indexValid deck s -> indexValid deck (studyStep deck op s).
Proof.
  unfold indexValid, lastIndex. intros H.
  destruct op; simpl; unfold startStudy; try lia.
  destruct (Nat.eqb_spec (length deck) 0); simpl; lia.
Qed.

Lemma studyRun_valid ops s : indexValid deck s -> indexValid deck (studyRun deck ops s).
Proof.
  revert s. induction ops as [|op ops IH]; intros s H; simpl; [exact H|].
  apply IH, studyStep_valid, H.
Qed.

Lemma studyStep_nonneg op s :
  0 <= studyIndex s -> 0 <= studyIndex (studyStep deck op s).
Proof.
  intros H. destruct op; simpl; unfold startStudy; try lia.
  destruct (length deck =? 0)%nat; simpl; lia.
Qed.

End StudyFacts.

Section PanelFacts.

Lemma panelRun_snoc es e p :
  panelRun (es ++ [e]) p = panelStep e (panelRun es p).
Proof. unfold panelRun. rewrite fold_left_app. reflexivity. Qed.

Lemma panelRun_nonneg es :
  0 <= studyIndex (panelStudy (panelRun es initialPanel)).
Proof.
  induction es as [|e es IH] using rev_ind; [simpl; lia|].
  rewrite panelRun_snoc. destruct e; simpl; try exact IH.
  apply studyStep_nonneg, IH.
Qed.

Lemma panelRun_actions ops p :
  panelDeck (panelRun (map StudyAction ops) p) = panelDeck p /\
  panelStudy (panelRun (map StudyAction ops) p)
  = studyRun (panelDeck p) ops (panelStudy p).
Proof.
  revert p. induction ops as [|op ops IH]; intros p; [split; reflexivity|].
  change (panelRun (map StudyAction (op :: ops)) p)
    with (panelRun (map StudyAction ops) (panelStep (StudyAction op) p)).
  destruct (IH (panelStep (StudyAction op) p)) as [Hd Hs].
  split; [rewrite Hd; reflexivity|]. rewrite Hs. reflexivity.
Qed.

(** C10.  The deck is derived again at every render, and the study index
    is kept when it changes.  In every state the application reaches,
    whatever was clicked, ticked or received, the index is not negative.
    [startStudy], [stopStudy], [nextCard] and [prevCard] do not change the
    deck, and from a state whose index is a position of the deck, in
    [0, max(0, deckLength - 1)], any sequence of them leads to such a state
    again.  [stopStudy], and [startStudy] on a deck that is not empty, set
    the index to 0, which is a position of the deck; [prevCard] at index 0
    stays at 0, and [nextCard] at the last index stays at the last
    index. *)
Theorem studyIndex_valid (es : list PanelEvent) (ops : list StudyOp) :
  let p := panelRun es initialPanel in
  let q := panelRun (map StudyAction ops) p in
  let deck := panelDeck p in
  let s := panelStudy p in
  0 <= studyIndex s /\
  panelDeck q = deck /\
  (indexValid deck s -> indexValid deck (panelStudy q)) /\
  (forall r, r = stopStudy s \/ (deck <> [] /\ r = startStudy deck s) ->
             studyIndex r = 0 /\ indexValid deck r) /\
  (studyIndex s = 0 -> studyIndex (prevCard s) = 0) /\
  (studyIndex s = Z.max 0 (Z.of_nat (length deck) - 1) ->
   studyIndex (nextCard deck s) = Z.max 0 (Z.of_nat (length deck) - 1)).
Proof.
  intros p q deck s.
  destruct (panelRun_actions ops p) as [Hd Hs]. fold q deck s in Hd, Hs.
  split; [apply panelRun_nonneg|].
  split; [exact Hd|]. split; [|split; [|split]].
  - intros Hv. rewrite Hs. apply studyRun_valid, Hv.
  - assert (H0 : forall r, studyIndex r = 0 -> indexValid deck r)
      by (intros r Hr; unfold indexValid, lastIndex; lia).
    intros r [->|[Hne ->]].
    + split; [reflexivity|]. apply H0. reflexivity.
    + unfold startStudy.
      destruct (Nat.eqb_spec (length deck) 0) as [E|E].
      * destruct deck; [congruence|discriminate E].
      * split; [reflexivity|]. apply H0. reflexivity.
  - intros H0. simpl. rewrite H0. reflexivity.
  - intros Hl. simpl. lia.
Qed.

(** The claim as first stated fails when the deck changes during study.
    With three cards, one of them of the active note, "Study" and two
    clicks on "Next" lead to index 2; ticking "Only this note" then leaves
    a deck of one card and the index at 2, past its only position, where
    the deck has no card; [prevCard] leads to index 1, still past it. *)
Lemma index_past_deck_after_tick :
  studyMode (panelStudy (panelRun tickWhileStudying initialPanel)) = true /\
  studyIndex (panelStudy (panelRun tickWhileStudying initialPanel)) = 2 /\
  length (panelDeck (panelRun tickWhileStudying initialPanel)) = 1%nat /\
  panelDeck (panelRun tickWhileStudying initialPanel) !! 2%nat = None /\
  ~ indexValid (panelDeck (panelRun tickWhileStudying initialPanel))
      (panelStudy (panelRun tickWhileStudying initialPanel)) /\
  ~ indexValid (panelDeck (panelRun tickWhileStudying initialPanel))
      (panelStudy (panelRun (tickWhileStudying ++ [StudyAction PrevCard])
                     initialPanel)).
Proof.
  repeat split; try reflexivity;
    vm_compute; intros [_ H]; apply H; reflexivity.
Qed.

End PanelFacts.

(** ** The editor: what renders and effects leave alone *)

Section EditorFrame.

Ltac crush_effects :=
  unfold rerender, draftLoadEffect, autosaveEffect, autosaveCleanupFn, activeNote;
  repeat (simpl; match goal with
                 | |- context [bool_decide ?P] => destruct (bool_decide P)
                 | |- context [match ?x with _ => _ end] => destruct x
                 end);
  simpl; try reflexivity.

Lemma rerender_activeNoteId prev s :
  activeNoteId (rerender prev s) = activeNoteId s.
Proof. destruct s. crush_effects. Qed.

Lemma rerender_notes prev s : notes (rerender prev s) = notes s.
Proof. destruct s. crush_effects. Qed.

Lemma rerender_user prev s : user (rerender prev s) = user s.
Proof. destruct s. crush_effects. Qed.

Lemma rerender_writes prev s : writes (rerender prev s) = writes s.
Proof. destruct s. crush_effects. Qed.

Lemma rerender_alerts prev s : alerts (rerender prev s) = alerts s.
Proof. destruct s. crush_effects. Qed.

Lemma rerender_draftBody prev s :
  activeNoteId prev = activeNoteId s ->
  draftBody (rerender prev s) = draftBody s.
Proof.
  intros H. unfold rerender.
  rewrite (bool_decide_eq_true_2 (activeNoteId prev = activeNoteId s) H).
  destruct s. crush_effects.
Qed.

End EditorFrame.

(** ** The notes subscription *)

(** C7.  On every snapshot of the notes subscription the local list is
    replaced by the snapshot; when no note is active the first note of the
    snapshot becomes active, or none when the snapshot is empty; when a note
    is active it stays the active one, wherever the snapshot has it (or
    not at all). *)
Theorem onNotesSnapshot_selection (list : list Note) (s : Editor) :
  let s' := onNotesSnapshot list s in
  notes s' = list /\
  (activeNoteId s = None -> activeNoteId s' = note_id <$> head list) /\
  (forall a, activeNoteId s = Some a -> activeNoteId s' = Some a).
Proof.
  intros s'. subst s'. unfold onNotesSnapshot.
  rewrite rerender_notes, rerender_activeNoteId.
  destruct s as [u n a t c b bz ss tm ig cl ir fl w al]; simpl.
  split; [reflexivity|]. split.
  - intros ->. destruct list; reflexivity.
  - intros a' ->. reflexivity.
Qed.

(** ** Strings *)

Section StringFacts.
Import JsString.

Lemma isEmpty_true s : isEmpty s = true <-> s = EmptyString.
Proof. destruct s; simpl; split; congruence. Qed.

Lemma slice0_length n s : (String.length (slice0 n s) <= n)%nat.
Proof.
  revert s. induction n as [|n IH]; intros [|c s]; simpl; try lia.
  specialize (IH s). lia.
Qed.

Lemma slice0_short n s : (String.length s <= n)%nat -> slice0 n s = s.
Proof.
  revert s. induction n as [|n IH]; intros [|c s]; simpl; intros H;
    try reflexivity; try lia.
  f_equal. apply IH. lia.
Qed.

Lemma savedTitle_spec t :
  savedTitle t = if isEmpty (trim t) then "Untitled"%string else trim t.
Proof. unfold savedTitle, Js.or. simpl. destruct (isEmpty (trim t)); reflexivity. Qed.

Lemma append_String c (a b : string) :
  (String c a ++ b)%string = String c (a ++ b)%string.
Proof. reflexivity. Qed.

Lemma append_Empty (b : string) : (EmptyString ++ b)%string = b.
Proof. reflexivity. Qed.

Lemma trimStart_spec s :
  exists pre, s = (pre ++ trimStart s)%string /\ allSpace pre = true /\
              match trimStart s with
              | EmptyString => True
              | String c _ => Ascii.is_space c = false
              end.
Proof.
  induction s as [|c s IH]; simpl.
  - exists EmptyString. rewrite append_Empty. auto.
  - destruct (Ascii.is_space c) eqn:E.
    + destruct IH as (pre & Hs & Hp & Hc).
      exists (String c pre). rewrite append_String. simpl. rewrite E, Hp.
      split; [congruence|auto].
    + exists EmptyString. rewrite append_Empty. simpl. auto.
Qed.

Lemma trimEnd_spec s :
  exists suf, s = (trimEnd s ++ suf)%string /\ allSpace suf = true.
Proof.
  induction s as [|c s IH]; simpl.
  - exists EmptyString. rewrite append_Empty. auto.
  - destruct IH as (suf & Hs & Hp).
    destruct (Ascii.is_space c && isEmpty (trimEnd s)) eqn:E.
    + apply andb_true_iff in E as [Ec Ee]. apply isEmpty_true in Ee.
      exists (String c suf). rewrite append_Empty. simpl. rewrite Ec, Hp.
      rewrite Ee, append_Empty in Hs. split; [congruence|reflexivity].
    + exists suf. rewrite append_String. split; [congruence|exact Hp].
Qed.

(** [trim] removes white space at both ends and nothing else. *)
Lemma trim_spec s :
  exists pre suf, s = (pre ++ trim s ++ suf)%string /\
                  allSpace pre = true /\ allSpace suf = true.
Proof.
  destruct (trimStart_spec s) as (pre & Hs & Hp & _).
  destruct (trimEnd_spec (trimStart s)) as (suf & Hs' & Hq).
  exists pre, suf. unfold trim. rewrite <- Hs'. auto.
Qed.

Lemma trimEnd_no_trailing s : endsWithSpace (trimEnd s) = false.
Proof.
  induction s as [|c s IH]; [reflexivity|]. simpl trimEnd.
  destruct (Ascii.is_space c) eqn:Ec; simpl andb.
  - destruct (trimEnd s) as [|c' r] eqn:Er; simpl isEmpty; cbv iota; [reflexivity|].
    simpl. simpl in IH. exact IH.
  - destruct (trimEnd s) as [|c' r] eqn:Er; simpl; [exact Ec|exact IH].
Qed.

Lemma trimEnd_first c s :
  Ascii.is_space c = false ->
  exists r, trimEnd (String c s) = String c r.
Proof. intros Hc. simpl. rewrite Hc. simpl. eauto. Qed.

(** The trimmed string neither starts nor ends with white space. *)
Lemma trim_ends s :
  startsWithSpace (trim s) = false /\ endsWithSpace (trim s) = false.
Proof.
  split; [|apply trimEnd_no_trailing].
  unfold trim. destruct (trimStart_spec s) as (pre & _ & _ & Hc).
  destruct (trimStart s) as [|c r]; [reflexivity|].
  destruct (trimEnd_first c r Hc) as (r' & ->). exact Hc.
Qed.

End StringFacts.

(** ** Saving and creating notes *)

Section SaveFacts.
Import JsString.

Lemma saveNote_writes manual cl s uid id :
  cl_user cl = Some uid ->
  cl_activeNoteId cl = Some id ->
  id <> EmptyString ->
  writes (saveNote manual cl s) =
  writes s ++ [MergeNoteDoc uid id (savedTitle (cl_draftTitle cl))
                 (trim (cl_draftClass cl)) (cl_draftBody cl)].
Proof.
  intros Hu Ha Hid. unfold saveNote. rewrite Hu, Ha.
  destruct id as [|c id]; [congruence|]. simpl.
  destruct s, manual; reflexivity.
Qed.

(** C5.  For a signed-in user with an active note, a save, manual or by
    autosave, of the drafts of a render writes to the note's record the
    draft title trimmed, or "Untitled" when the trimmed title is empty,
    the draft folder label trimmed, and the draft body as it is; once
    applied, the record holds these three fields.  A note just created
    is written with title "New Note", folder "" and body "", unpinned. *)
Theorem saveNote_persisted_fields (s : Editor) (uid id : string) :
  user s = Some uid ->
  activeNoteId s = Some id ->
  id <> EmptyString ->
  let title := if isEmpty (trim (draftTitle s)) then "Untitled"%string
               else trim (draftTitle s) in
  let op := MergeNoteDoc uid id title (trim (draftClass s)) (draftBody s) in
  (forall manual, writes (saveNote manual (closure s) s) = writes s ++ [op]) /\
  (forall now col,
      exists d, applyNoteOp uid now op col !! id = Some d /\
                doc_title d = Some title /\
                doc_className d = Some (trim (draftClass s)) /\
                doc_body d = Some (draftBody s)) /\
  (forall newId,
      writes (createNote newId s) =
      writes s ++ [SetNoteDoc uid newId "New Note" "" "" false] /\
      forall now col,
        applyNoteOp uid now (SetNoteDoc uid newId "New Note" "" "" false) col
          !! newId =
        Some (mkNoteDoc (Some "New Note"%string) (Some ""%string)
                (Some ""%string) (Some false) (Some now) (Some now))).
Proof.
  intros Hu Ha Hid title op.
  split; [|split].
  - intros manual. subst op title. rewrite <- savedTitle_spec.
    apply saveNote_writes; destruct s; simpl in *; assumption.
  - intros now col. subst op. simpl. rewrite String.eqb_refl.
    eexists. rewrite lookup_insert_eq. simpl. auto.
  - intros newId. split.
    + unfold createNote. rewrite Hu, rerender_writes.
      destruct s; reflexivity.
    + intros now col. simpl. rewrite String.eqb_refl.
      apply lookup_insert_eq.
Qed.

Lemma saveNote_persisted_fields_witness :
  writes (saveNote true (closure blankTitleEditor) blankTitleEditor) =
  [MergeNoteDoc "u1" "n1" "Untitled" "Math" "E = mc^2 "].
Proof.
  destruct (saveNote_persisted_fields blankTitleEditor "u1" "n1")
    as (Hw & _ & _); [reflexivity | reflexivity | discriminate |].
  exact (Hw true).
Defined.

End SaveFacts.

(** ** Summaries and flashcards *)

Section DelegateFacts.
Import JsString.

Lemma set_busy_draftBody v s : draftBody (set_busy v s) = draftBody s.
Proof. destruct s; reflexivity. Qed.

Lemma set_busy_alerts v s : alerts (set_busy v s) = alerts s.
Proof. destruct s; reflexivity. Qed.

Lemma set_busy_writes v s : writes (set_busy v s) = writes s.
Proof. destruct s; reflexivity. Qed.

(** C6.  When the request settles with a parsed body, [summarize] appends
    to the draft body a blank line, the marker [=== AI SUMMARY ===], the
    returned summary and the marker [=== /SUMMARY ===], each on its own
    line, and raises no alert.  When the response is not a success, the
    request fails or the body cannot be read, the draft body is unchanged
    and the failure is reported by one alert. *)
Theorem summarize_atomic (r : Fetched SummaryData) (s : Editor) :
  match r with
  | Json (SummaryOf summary) =>
      draftBody (summarize r s) =
      (draftBody s ++ nl ++ nl ++ "=== AI SUMMARY ===" ++ nl
       ++ Js.toString summary ++ nl ++ "=== /SUMMARY ===" ++ nl)%string /\
      alerts (summarize r s) = alerts s
  | _ =>
      draftBody (summarize r s) = draftBody s /\
      alerts (summarize r s) = alerts s ++ [summarizeFailed]
  end.
Proof.
  destruct r as [| text | | [|summary]];
    try (destruct s; split; reflexivity).
  unfold summarize. split.
  - rewrite set_busy_draftBody, rerender_draftBody by (destruct s; reflexivity).
    destruct s; reflexivity.
  - rewrite set_busy_alerts, rerender_alerts. destruct s; reflexivity.
Qed.

Lemma slice0_truncated n s : truncated n s (slice0 n s).
Proof.
  unfold truncated. revert s.
  induction n as [|n IH]; intros [|c s]; simpl.
  - split; [exists EmptyString; reflexivity|reflexivity].
  - split; [exists (String c s); reflexivity|reflexivity].
  - split; [exists EmptyString; reflexivity|reflexivity].
  - destruct (IH s) as [(rest & Hr) Hl].
    split; [|rewrite Hl; reflexivity].
    exists rest. rewrite append_String. f_equal. exact Hr.
Qed.

Lemma questionText_Str c text : cj_question c = Js.Str text -> questionText c = text.
Proof. unfold questionText. intros ->. destruct text; reflexivity. Qed.

Lemma answerText_Str c text : cj_answer c = Js.Str text -> answerText c = text.
Proof. unfold answerText. intros ->. destruct text; reflexivity. Qed.

Section CardLoop.
Variables (qmax amax : nat) (u noteId title : string) (uid : nat -> string).
Variable settles : nat -> WriteResult.

Lemma cardsStored_saveCards (toSave : list CardJson) :
  forall (i k : nat) col,
    (k <= length toSave)%nat ->
    (forall j, (j < k)%nat -> settles (i + j) = WriteOk) ->
    ((k < length toSave)%nat -> settles (i + k) <> WriteOk) ->
    let run := saveCards (fun i c => cardDoc qmax amax u noteId title (uid i) c)
                 settles i toSave in
    cardsStored u settles i (fst run) col
    = withCards qmax amax noteId title uid i (take k toSave) col /\
    snd run = bool_decide (k = length toSave) /\
    length (fst run) = (if bool_decide (k = length toSave) then k else S k).
Proof.
  induction toSave as [|c rest IH]; intros i k col Hk Hok Hbad.
  - simpl in Hk. assert (k = 0%nat) as -> by lia. simpl. auto.
  - destruct k as [|k].
    + simpl. specialize (Hbad ltac:(simpl; lia)). rewrite Nat.add_0_r in Hbad.
      destruct (settles i) as [|message] eqn:E; [congruence|].
      simpl. rewrite E. auto.
    + pose proof (Hok 0%nat ltac:(lia)) as H0. rewrite Nat.add_0_r in H0.
      simpl in Hk.
      destruct (IH (S i) k
                  (<[uid i := mkFlashcard (uid i) (Some noteId)
                                (Js.toString (Js.or (Js.Str title) (Js.Str "Untitled")))
                                (slice0 qmax (questionText c))
                                (slice0 amax (answerText c))]> col))
        as (Hs & Hd & Hl).
      * lia.
      * intros j Hj. replace (S i + j)%nat with (i + S j)%nat by lia.
        apply Hok. lia.
      * intros Hlt. replace (S i + k)%nat with (i + S k)%nat by lia.
        apply Hbad. simpl. lia.
      * cbn [saveCards take withCards]. rewrite H0.
        destruct (saveCards _ settles (S i) rest) as [ops reachedEnd] eqn:Er.
        cbn [fst snd length cardsStored] in *. rewrite H0.
        unfold cardDoc at 1. cbn [applyCardOp].
        rewrite String.eqb_refl. rewrite Hs, Hd, Hl.
        split; [reflexivity|].
        split; repeat case_bool_decide; try reflexivity; lia.
Qed.

Lemma withCards_spec (m : nat) (cs : list CardJson) :
  (forall a b : nat, (a < m)%nat -> (b < m)%nat -> uid a = uid b -> a = b) ->
  forall (i : nat) col,
    (i + length cs <= m)%nat ->
    (forall a, (i <= a < m)%nat -> col !! uid a = None) ->
    size (withCards qmax amax noteId title uid i cs col)
    = (size col + length cs)%nat /\
    (forall id card, col !! id = Some card ->
                     withCards qmax amax noteId title uid i cs col !! id
                     = Some card) /\
    (forall (j : nat) c,
        cs !! j = Some c ->
        withCards qmax amax noteId title uid i cs col !! uid (i + j)
        = Some (mkFlashcard (uid (i + j)) (Some noteId)
                  (Js.toString (Js.or (Js.Str title) (Js.Str "Untitled")))
                  (slice0 qmax (questionText c))
                  (slice0 amax (answerText c)))).
Proof.
  intros Hinj. induction cs as [|c cs IH]; intros i col Hm Hfresh.
  - simpl. split; [lia|]. split; [auto|]. intros j c' H. discriminate H.
  - simpl in Hm. simpl withCards.
    set (card := mkFlashcard (uid i) (Some noteId)
                   (Js.toString (Js.or (Js.Str title) (Js.Str "Untitled")))
                   (slice0 qmax (questionText c))
                   (slice0 amax (answerText c))).
    assert (Hnew : forall a, (S i <= a < m)%nat ->
                             <[uid i := card]> col !! uid a = None).
    { intros a Ha. rewrite lookup_insert_ne; [apply Hfresh; lia|].
      intros E. apply Hinj in E; lia. }
    destruct (IH (S i) (<[uid i := card]> col) ltac:(lia) Hnew)
      as (Hsize & Hold & Hget).
    split; [|split].
    + rewrite Hsize, map_size_insert_None by (apply Hfresh; lia). simpl. lia.
    + intros id card' Hc. apply Hold.
      rewrite lookup_insert_ne; [exact Hc|].
      intros <-. rewrite Hfresh in Hc by lia. discriminate Hc.
    + intros [|j] c' Hj.
      * simpl in Hj. inversion Hj; subst c'. rewrite Nat.add_0_r.
        apply Hold. rewrite lookup_insert_eq. reflexivity.
      * simpl in Hj. replace (i + S j)%nat with (S i + j)%nat by lia.
        apply Hget, Hj.
Qed.

End CardLoop.

(** What the loop leaves in the store, for either pair of limits. *)
Lemma saveCards_persisted qmax amax u noteId title uid settles
    (cards : list CardJson) (k : nat) (col : gmap string Flashcard) :
  (forall a b : nat,
      (a < Nat.min (length cards) 25)%nat -> (b < Nat.min (length cards) 25)%nat ->
      uid a = uid b -> a = b) ->
  (forall i, (i < Nat.min (length cards) 25)%nat -> col !! uid i = None) ->
  (k <= Nat.min (length cards) 25)%nat ->
  (forall i, (i < k)%nat -> settles i = WriteOk) ->
  ((k < Nat.min (length cards) 25)%nat -> settles k <> WriteOk) ->
  let run := saveCards (fun i c => cardDoc qmax amax u noteId title (uid i) c)
               settles 0 (take 25 cards) in
  persistedFirst qmax amax uid noteId cards k col
    (cardsStored u settles 0 (fst run) col) /\
  snd run = bool_decide (k = Nat.min (length cards) 25) /\
  length (fst run)
  = (if bool_decide (k = Nat.min (length cards) 25) then k else S k).
Proof.
  intros Hinj Hfresh Hk Hok Hbad run.
  assert (Hlen : length (take 25 cards) = Nat.min (length cards) 25)
    by (rewrite length_take; lia).
  destruct (cardsStored_saveCards qmax amax u noteId title uid settles
              (take 25 cards) 0 k col) as (Hs & Hd & Hl).
  { lia. }
  { intros j Hj. apply Hok, Hj. }
  { rewrite Hlen. exact Hbad. }
  fold run in Hs, Hd, Hl. rewrite Hlen in Hd, Hl.
  split; [|split; assumption].
  rewrite Hs.
  assert (Htk : length (take k (take 25 cards)) = k)
    by (rewrite length_take; lia).
  destruct (withCards_spec qmax amax noteId title uid
              (Nat.min (length cards) 25) (take k (take 25 cards)) Hinj 0 col)
    as (Hsize & Hold & Hget).
  { rewrite Htk. lia. }
  { intros a Ha. apply Hfresh. lia. }
  unfold persistedFirst. rewrite Hsize, Htk.
  split; [reflexivity|]. split; [exact Hold|].
  intros i c Hi Hc.
  assert (Hc' : take k (take 25 cards) !! i = Some c).
  { rewrite !lookup_take_lt by lia. exact Hc. }
  specialize (Hget i c Hc'). simpl in Hget.
  eexists. split; [exact Hget|]. simpl.
  split; [reflexivity|]. split; [apply slice0_length|].
  split; [apply slice0_length|]. split.
  - intros text E. rewrite (questionText_Str _ _ E). apply slice0_truncated.
  - intros text E. rewrite (answerText_Str _ _ E). apply slice0_truncated.
Qed.

Lemma persistedFirst_weaken q a q' a' uid noteId cards k col col' :
  (q <= q')%nat -> (a <= a')%nat ->
  persistedFirst q a uid noteId cards k col col' ->
  forall (i : nat) c,
    (i < k)%nat -> cards !! i = Some c ->
    exists card,
      col' !! uid i = Some card /\
      (String.length (card_question card) <= q')%nat /\
      (String.length (card_answer card) <= a')%nat.
Proof.
  intros Hq Ha (_ & _ & H) i c Hi Hc.
  destruct (H i c Hi Hc) as (card & Hl & _ & Hlq & Hla & _).
  exists card. split; [exact Hl|]. lia.
Qed.

(** C3.  For a signed-in user with an active note and a response whose
    [cards] array has N candidates, [makeFlashcards] writes the first
    min(N, 25) candidates one after the other, each under a new
    identifier, and stops at the first write that the store rejects.  When
    the first [k] writes are taken, and the next one, if there is one, is
    rejected, the store holds exactly [k] new flashcards, those of the
    first [k] candidates: each refers to the active note, its question is
    the candidate's question cut to its first 500 characters, its answer
    the candidate's answer cut to its first 1500.  So exactly min(N, 25)
    flashcards are persisted when no write is rejected, in which case the
    alert gives that number; otherwise the failure is alerted.  The older
    variant persists the same number of cards, cut to 400 and 1200
    characters, hence within the same bounds. *)
Theorem makeFlashcards_persists (uid : nat -> string)
    (settles : nat -> WriteResult) (cards : list CardJson) (s : Editor)
    (u noteId : string) (col : gmap string Flashcard) (k : nat) :
  user s = Some u ->
  activeNoteId s = Some noteId ->
  noteId <> EmptyString ->
  (forall a b : nat,
      (a < Nat.min (length cards) 25)%nat -> (b < Nat.min (length cards) 25)%nat ->
      uid a = uid b -> a = b) ->
  (forall i, (i < Nat.min (length cards) 25)%nat -> col !! uid i = None) ->
  (k <= Nat.min (length cards) 25)%nat ->
  (forall i, (i < k)%nat -> settles i = WriteOk) ->
  ((k < Nat.min (length cards) 25)%nat -> settles k <> WriteOk) ->
  (exists docs,
      writes (makeFlashcards uid settles (Json (CardsArray cards)) s)
      = writes s ++ docs /\
      persistedFirst 500 1500 uid noteId cards k col
        (cardsStored u settles 0 docs col) /\
      (cards <> [] ->
       alerts (makeFlashcards uid settles (Json (CardsArray cards)) s)
       = alerts s ++
         [if bool_decide (k = Nat.min (length cards) 25)
          then ("Saved " ++ decimal (Nat.min (length cards) 25)
                ++ " flashcards.")%string
          else flashcardsFailed])) /\
  (exists docs,
      writes (makeFlashcards_older uid settles (Json (CardsArray cards)) s)
      = writes s ++ docs /\
      persistedFirst 400 1200 uid noteId cards k col
        (cardsStored u settles 0 docs col) /\
      (forall (i : nat) c,
          (i < k)%nat -> cards !! i = Some c ->
          exists card,
            cardsStored u settles 0 docs col !! uid i = Some card /\
            (String.length (card_question card) <= 500)%nat /\
            (String.length (card_answer card) <= 1500)%nat)).
Proof.
  intros Hu Ha Hid Hinj Hfresh Hk Hok Hbad.
  destruct noteId as [|ch noteId]; [congruence|].
  split.
  - destruct (saveCards_persisted 500 1500 u (String ch noteId) (draftTitle s)
                uid settles cards k col Hinj Hfresh Hk Hok Hbad)
      as (Hp & Hd & _).
    unfold makeFlashcards. rewrite Hu, Ha. simpl isEmpty. cbv iota.
    destruct (Nat.eqb_spec (length cards) 0) as [E|E].
    + destruct cards; [|discriminate E].
      exists []. rewrite set_busy_writes.
      split; [destruct s; simpl; rewrite app_nil_r; reflexivity|].
      split; [exact Hp|]. intros H. congruence.
    + destruct (saveCards _ settles 0 (take 25 cards)) as [docs reachedEnd].
      simpl in Hp, Hd. exists docs.
      split; [rewrite set_busy_writes; destruct s; reflexivity|].
      split; [exact Hp|]. intros _.
      rewrite set_busy_alerts, Hd, length_take.
      replace (Nat.min 25 (length cards)) with (Nat.min (length cards) 25) by lia.
      destruct s; reflexivity.
  - destruct (saveCards_persisted 400 1200 u (String ch noteId) (draftTitle s)
                uid settles cards k col Hinj Hfresh Hk Hok Hbad)
      as (Hp & _ & _).
    unfold makeFlashcards_older. rewrite Hu, Ha. simpl isEmpty. cbv iota.
    destruct (saveCards _ settles 0 (take 25 cards)) as [docs reachedEnd].
    simpl in Hp. exists docs.
    split; [rewrite set_busy_writes; destruct s; reflexivity|].
    split; [exact Hp|].
    apply (persistedFirst_weaken 400 1200 500 1500 uid (String ch noteId) cards k
             col _ ltac:(lia) ltac:(lia) Hp).
Qed.

Lemma sampleUid_distinct (a b : nat) :
  (a < 25)%nat -> (b < 25)%nat -> sampleUid a = sampleUid b -> a = b.
Proof.
  intros Ha Hb E.
  assert (Hall : forallb (fun i => forallb (fun j =>
                   implb (String.eqb (sampleUid i) (sampleUid j)) (i =? j)%nat)
                   (seq 0 25)) (seq 0 25) = true) by (vm_compute; reflexivity).
  rewrite forallb_forall in Hall.
  specialize (Hall a ltac:(apply in_seq; lia)).
  rewrite forallb_forall in Hall.
  specialize (Hall b ltac:(apply in_seq; lia)).
  apply String.eqb_eq in E. rewrite E in Hall. simpl in Hall.
  apply Nat.eqb_eq, Hall.
Qed.

(** Thirty candidates and a store that takes every write: twenty-five
    flashcards are persisted, and the question of 600 characters is stored
    with its first 500. *)
Lemma makeFlashcards_persists_witness :
  exists docs,
    writes (makeFlashcards sampleUid acceptAll (Json (CardsArray thirtyCards))
              blankTitleEditor) = docs /\
    length docs = 25%nat /\
    size (cardsStored "u1" acceptAll 0 docs ∅) = 25%nat /\
    exists card,
      cardsStored "u1" acceptAll 0 docs ∅ !! "card0"%string = Some card /\
      truncated 500 (repeated 600 "q") (card_question card) /\
      card_question card = repeated 500 "q".
Proof.
  destruct (makeFlashcards_persists sampleUid acceptAll thirtyCards
              blankTitleEditor "u1" "n1" ∅ 25)
    as [(docs & Hw & (Hsize & _ & Hcards) & _) _];
    [reflexivity | reflexivity | discriminate | apply sampleUid_distinct
    | intros i _; apply lookup_empty | simpl; lia | reflexivity
    | simpl; lia |].
  exists docs. split; [exact Hw|].
  split; [simpl in Hw; subst docs; vm_compute; reflexivity|].
  split; [rewrite Hsize, map_size_empty; reflexivity|].
  destruct (Hcards 0%nat _ ltac:(lia) eq_refl)
    as (card & Hl & _ & _ & _ & Hq & _).
  exists card. split; [exact Hl|].
  split; [apply Hq; reflexivity|].
  simpl in Hw. subst docs. vm_compute in Hl.
  inversion Hl. reflexivity.
Defined.

(** The claim as first stated fails when the store rejects a write.  Of
    thirty candidates the third write is rejected: three writes have been
    issued, the store holds two flashcards, not twenty-five, and the
    failure is alerted. *)
Lemma rejected_write_ends_saving :
  length thirtyCards = 30%nat /\
  length (writes (makeFlashcards sampleUid rejectThird
                    (Json (CardsArray thirtyCards)) blankTitleEditor)) = 3%nat /\
  size (cardsStored "u1" rejectThird 0
          (writes (makeFlashcards sampleUid rejectThird
                     (Json (CardsArray thirtyCards)) blankTitleEditor)) ∅)
  = 2%nat /\
  alerts (makeFlashcards sampleUid rejectThird
            (Json (CardsArray thirtyCards)) blankTitleEditor)
  = [flashcardsFailed].
Proof. repeat split; vm_compute; reflexivity. Qed.

End DelegateFacts.

(** ** The serverless handlers *)

Section ApiFacts.
Import Api.
Variable parseCards : Js.value -> option (option (list CardJson)).

Lemma tooShort_spec text : textMissingOrShort text -> tooShort text = true.
Proof.
  intros [->|[->|(s & -> & Hs)]]; try reflexivity.
  unfold tooShort. apply orb_true_iff. right.
  apply Nat.ltb_lt. exact Hs.
Qed.

Lemma handle_not_post call finish env req :
  method req <> "POST"%string ->
  handle call finish env req =
  (mkResponse 405 (ErrorBody "Method not allowed"), []).
Proof.
  intros H. unfold handle.
  destruct (String.eqb_spec (method req) "POST"); [contradiction|reflexivity].
Qed.

Lemma handle_short call finish env req text :
  method req = "POST"%string ->
  clientOk env = true ->
  body req = Some text ->
  textMissingOrShort text ->
  handle call finish env req =
  (mkResponse 400 (ErrorBody "Text too short"), []).
Proof.
  intros Hm Hc Hb Ht. unfold handle.
  rewrite Hm, Hc, Hb, (tooShort_spec _ Ht). reflexivity.
Qed.

Lemma handle_invalid_quiet call finish env req :
  method req <> "POST"%string \/ body req = None \/
  (exists text, body req = Some text /\ textMissingOrShort text) ->
  snd (handle call finish env req) = [] /\
  status (fst (handle call finish env req)) <> 200.
Proof.
  unfold handle. intros H.
  destruct (String.eqb_spec (method req) "POST") as [Hm|Hm]; simpl;
    [|split; [reflexivity|discriminate]].
  destruct (clientOk env); simpl; [|split; [reflexivity|discriminate]].
  destruct H as [H|[H|(text & Hb & Ht)]]; [contradiction| |].
  - rewrite H. split; [reflexivity|discriminate].
  - rewrite Hb, (tooShort_spec _ Ht). split; [reflexivity|discriminate].
Qed.

Lemma handle_no_client call finish env req :
  method req = "POST"%string ->
  clientOk env = false \/ body req = None ->
  handle call finish env req = (aiError, []).
Proof.
  intros Hm H. unfold handle. rewrite Hm. simpl.
  destruct (clientOk env); simpl; [|reflexivity].
  destruct H as [H|H]; [discriminate H|]. rewrite H. reflexivity.
Qed.

(** C9.  Both handlers answer a request whose method is not POST with
    status 405.  A POST reaches the check of its text only after the
    client object has been built and the body has been read: when both
    succeed, a [text] that is missing or shorter than 10 characters is
    answered with status 400; when the client cannot be built or the
    request has no body, the answer is status 500, whatever the text.  For
    every such request, whatever the environment, no completion call is
    made and the status is not 200. *)
Theorem handlers_validate_first (env : Env) (req : Request) :
  (method req <> "POST"%string ->
   flashcards parseCards env req =
     (mkResponse 405 (ErrorBody "Method not allowed"), []) /\
   summarize env req =
     (mkResponse 405 (ErrorBody "Method not allowed"), [])) /\
  (forall text,
      method req = "POST"%string ->
      clientOk env = true ->
      body req = Some text ->
      textMissingOrShort text ->
      flashcards parseCards env req =
        (mkResponse 400 (ErrorBody "Text too short"), []) /\
      summarize env req =
        (mkResponse 400 (ErrorBody "Text too short"), [])) /\
  (method req = "POST"%string ->
   clientOk env = false \/ body req = None ->
   flashcards parseCards env req = (mkResponse 500 (ErrorBody "AI error"), []) /\
   summarize env req = (mkResponse 500 (ErrorBody "AI error"), [])) /\
  (method req <> "POST"%string \/ body req = None \/
   (exists text, body req = Some text /\ textMissingOrShort text) ->
   (snd (flashcards parseCards env req) = [] /\
    status (fst (flashcards parseCards env req)) <> 200) /\
   (snd (summarize env req) = [] /\
    status (fst (summarize env req)) <> 200)).
Proof.
  unfold flashcards, summarize. split; [|split; [|split]].
  - intros H. split; apply handle_not_post, H.
  - intros text Hm Hc Hb Ht. split; eapply handle_short; eassumption.
  - intros Hm H. split; apply handle_no_client; assumption.
  - intros H. split; apply handle_invalid_quiet, H.
Qed.

End ApiFacts.

(** The claim as first stated fails where the text is never looked at.
    Without an API key the construction of the client throws before the
    check, and a POST with a text of nine characters is answered with
    status 500 by both handlers; so is a POST without a body, whose text
    is missing. *)
Lemma short_text_answered_500 :
  Api.method shortPost = "POST"%string /\
  Api.body shortPost = Some (Js.Str "too short") /\
  textMissingOrShort (Js.Str "too short") /\
  Api.status (fst (Api.flashcards noParse noKeyEnv shortPost)) = 500 /\
  Api.status (fst (Api.summarize noKeyEnv shortPost)) = 500 /\
  Api.method bodylessPost = "POST"%string /\
  Api.body bodylessPost = None /\
  Api.status (fst (Api.flashcards noParse sampleEnv bodylessPost)) = 500 /\
  Api.status (fst (Api.summarize sampleEnv bodylessPost)) = 500.
Proof.
  repeat split; try reflexivity.
  right. right. exists "too short"%string. split; [reflexivity|].
  simpl. lia.
Qed.


(** ** Tasks by date *)

Section TasksByDateFacts.

Lemma tasksByDate_snoc tasks t :
  tasksByDate (tasks ++ [t]) = tasksByDate_step (tasksByDate tasks) t.
Proof. unfold tasksByDate. rewrite fold_left_app. reflexivity. Qed.

Lemma tasksByDate_step_lookup (m : gmap string (list Task)) t D :
  tasksByDate_step m t !! D =
  if bool_decide (taskDueKey t = Some D)
  then Some (default [] (m !! D) ++ [t])
  else m !! D.
Proof.
  unfold tasksByDate_step.
  destruct (taskDueKey t) as [due|] eqn:Ek.
  - case_bool_decide as Hd.
    + inversion Hd; subst due. rewrite lookup_alter_eq.
      destruct (m !! D) eqn:Em; simpl.
      * rewrite Em. reflexivity.
      * rewrite lookup_insert_eq. reflexivity.
    + assert (due <> D) by congruence.
      rewrite lookup_alter_ne by assumption.
      destruct (m !! due); [reflexivity|].
      rewrite lookup_insert_ne by assumption. reflexivity.
  - rewrite bool_decide_eq_false_2 by discriminate. reflexivity.
Qed.

Lemma tasksByDate_lookup tasks D :
  tasksByDate tasks !! D =
  match keyed D tasks with
  | [] => None
  | l => Some l
  end.
Proof.
  induction tasks as [|t tasks IH] using rev_ind.
  - reflexivity.
  - rewrite tasksByDate_snoc, tasksByDate_step_lookup, IH.
    unfold keyed. rewrite List.filter_app. simpl.
    destruct (bool_decide (taskDueKey t = Some D)).
    + destruct (List.filter _ tasks); reflexivity.
    + rewrite app_nil_r. reflexivity.
Qed.

Lemma taskDueKey_Some t D :
  taskDueKey t = Some D <-> task_due t = Some D /\ D <> EmptyString.
Proof.
  unfold taskDueKey. destruct (task_due t) as [[|c d]|]; simpl.
  - split; [discriminate|]. intros [H Hne]. congruence.
  - split; [intros H; split; congruence|]. intros [H _]. exact H.
  - split; [discriminate|]. intros [H _]. discriminate.
Qed.

Lemma keyed_tasksDue D tasks : D <> EmptyString -> keyed D tasks = tasksDue D tasks.
Proof.
  intros HD. unfold keyed, tasksDue.
  induction tasks as [|t tasks IH]; simpl; [reflexivity|].
  rewrite IH.
  assert (E : bool_decide (taskDueKey t = Some D)
              = bool_decide (task_due t = Some D)).
  { apply bool_decide_ext. rewrite taskDueKey_Some. tauto. }
  rewrite E. reflexivity.
Qed.

(** C8.  For every task list and every due-date string D, the value of
    [tasksByDate] at key D is the list of the tasks whose [due] field
    equals D, in the order of the task list, and the key is absent exactly
    when there is no such task; under any key there are only tasks of the
    list whose [due] is that key, so a task without due date (no [due], or
    an empty one) is under no key, and the empty string is no key. *)
Theorem tasksByDate_spec (tasks : list Task) (D : string) :
  (D <> EmptyString ->
   default [] (tasksByDate tasks !! D) = tasksDue D tasks /\
   (tasksByDate tasks !! D = None <-> tasksDue D tasks = [])) /\
  tasksByDate tasks !! EmptyString = None /\
  (forall l t,
      tasksByDate tasks !! D = Some l -> In t l ->
      In t tasks /\ task_due t = Some D /\ D <> EmptyString).
Proof.
  split; [|split].
  - intros HD. rewrite tasksByDate_lookup, keyed_tasksDue by exact HD.
    destruct (tasksDue D tasks); simpl; split; try reflexivity;
      split; congruence.
  - rewrite tasksByDate_lookup.
    assert (E : keyed EmptyString tasks = []).
    { unfold keyed. induction tasks as [|t tasks IH]; simpl; [reflexivity|].
      rewrite bool_decide_eq_false_2; [exact IH|].
      rewrite taskDueKey_Some. tauto. }
    rewrite E. reflexivity.
  - intros l t Hl Ht. rewrite tasksByDate_lookup in Hl.
    assert (Hk : l = keyed D tasks)
      by (destruct (keyed D tasks); congruence).
    subst l. unfold keyed in Ht. apply List.filter_In in Ht as [Hin Hb].
    apply bool_decide_eq_true in Hb. apply taskDueKey_Some in Hb.
    tauto.
Qed.

End TasksByDateFacts.

(** ** Searching and sorting the notes *)

Section IncludesFacts.
Import JsString.

Lemma prefix_spec q s :
  String.prefix q s = true <-> exists suf, s = (q ++ suf)%string.
Proof.
  revert s. induction q as [|c q IH]; intros s.
  - split; [|destruct s; reflexivity].
    intros _. exists s. reflexivity.
  - destruct s as [|c' s]; simpl.
    + split; [discriminate|]. intros (suf & H). discriminate H.
    + destruct (ascii_dec c c') as [->|Hne].
      * rewrite IH. split; intros (suf & H); exists suf.
        -- rewrite append_String. congruence.
        -- rewrite append_String in H. congruence.
      * split; [discriminate|]. intros (suf & H).
        rewrite append_String in H. congruence.
Qed.

Lemma includes_spec s q : includes s q = true <-> substringOf q s.
Proof.
  unfold substringOf. induction s as [|c s IH].
  - change (includes EmptyString q) with (String.prefix q EmptyString || false).
    rewrite orb_false_r, prefix_spec. split.
    + intros (suf & H). exists EmptyString, suf. exact H.
    + intros ([|c pre] & suf & H); [exists suf; exact H|].
      rewrite append_String in H. discriminate H.
  - change (includes (String c s) q)
      with (String.prefix q (String c s) || includes s q).
    rewrite orb_true_iff, prefix_spec, IH. split.
    + intros [(suf & H)|(pre & suf & H)].
      * exists EmptyString, suf. exact H.
      * exists (String c pre), suf. rewrite append_String. congruence.
    + intros ([|c' pre] & suf & H).
      * left. exists suf. exact H.
      * right. exists pre, suf. rewrite append_String in H. congruence.
Qed.

Lemma toLowerCase_empty s : isEmpty (toLowerCase s) = isEmpty s.
Proof. destruct s; reflexivity. Qed.

End IncludesFacts.

Section SortFacts.
Context {A : Type} (cmp : A -> A -> Z).

Hypothesis cmp_total : forall x y, 0 < cmp x y -> cmp y x <= 0.
Hypothesis cmp_trans : forall x y z, cmp x y <= 0 -> cmp y z <= 0 -> cmp x z <= 0.

Lemma insert_Permutation x l : Permutation (Js.insert cmp x l) (x :: l).
Proof.
  induction l as [|y l IH]; simpl; [reflexivity|].
  destruct (cmp x y <=? 0); [reflexivity|].
  rewrite IH. apply perm_swap.
Qed.

Lemma sort_Permutation l : Permutation (Js.sort cmp l) l.
Proof.
  induction l as [|x l IH]; simpl; [reflexivity|].
  rewrite insert_Permutation, IH. reflexivity.
Qed.



End SortFacts.



Section FilteredNotesFacts.
Import JsString.





Lemma orEmpty_folderLabel n : orEmpty (note_className n) = folderLabel n.
Proof.
  unfold orEmpty, folderLabel.
  destruct (note_className n) as [[|c s]|]; reflexivity.
Qed.

Lemma tpl_fieldText o : tpl o = fieldText o.
Proof. destruct o; reflexivity. Qed.

Lemma lowerChar_smallLetter c :
  lowerChar c
  = smallLetter "ABCDEFGHIJKLMNOPQRSTUVWXYZ" "abcdefghijklmnopqrstuvwxyz" c.
Proof. destruct c as [[] [] [] [] [] [] [] []]; reflexivity. Qed.

Lemma toLowerCase_lowercased s : toLowerCase s = lowercased s.
Proof.
  induction s as [|c s IH]; simpl; [reflexivity|].
  rewrite IH, lowerChar_smallLetter. reflexivity.
Qed.

Lemma noteMatches_spec S F n :
  noteMatches (normalize (Js.Str S)) F n = true <->
  folderMatches F n /\ searchMatches S n.
Proof.
  assert (Hq : normalize (Js.Str S) = toLowerCase S)
    by (destruct S; reflexivity).
  assert (Hhay : noteHay n = toLowerCase (noteText n)).
  { unfold noteHay, noteText, normalize, Js.or. rewrite !tpl_fieldText. simpl.
    destruct (isEmpty _) eqn:E; [|reflexivity].
    apply isEmpty_true in E. rewrite E. reflexivity. }
  assert (Hf : (if String.eqb F "ALL" then true
                else String.eqb (trim (orEmpty (note_className n))) F) = true
               <-> folderMatches F n).
  { unfold folderMatches. rewrite orEmpty_folderLabel.
    destruct (String.eqb_spec F "ALL") as [->|Hne].
    - split; auto.
    - rewrite String.eqb_eq. split; [auto|]. intros [H|H]; congruence. }
  unfold noteMatches, searchMatches.
  rewrite Hq, toLowerCase_empty, Hhay, <- !toLowerCase_lowercased.
  destruct S as [|c S]; simpl isEmpty; cbv iota.
  - rewrite Hf. split; [intros H; split; auto|tauto].
  - rewrite andb_true_iff, Hf, includes_spec.
    split; [intros [H1 H2]; split; auto|].
    intros [H1 [H2|H2]]; [discriminate|auto].
Qed.


End FilteredNotesFacts.

(** ** Switching notes while a save is pending *)

Section SwitchFacts.
Import JsString.

Lemma systemEvent_quiet e s :
  systemEvent e -> noAutosaveTimer s ->
  noAutosaveTimer (step e s) /\ writes (step e s) = writes s.
Proof.
  unfold noAutosaveTimer.
  destruct s as [u n a t c b bz ss tm ig cl ir fl w al].
  destruct e as [| | | | | | | | |r]; simpl; try contradiction; intros _ H.
  - destruct ir; simpl; auto.
  - destruct tm as [[cl'|]|]; simpl; try contradiction; auto.
  - unfold saveNote_settled. simpl.
    destruct fl as [|[|] fl]; simpl; [auto|destruct r; simpl; auto..].
Qed.

Lemma systemEvents_quiet es s :
  Forall systemEvent es -> noAutosaveTimer s ->
  writes (run es s) = writes s.
Proof.
  intros Hes. revert s. induction Hes as [|e es He Hes IH]; intros s Hs.
  - reflexivity.
  - simpl. destruct (systemEvent_quiet e s He Hs) as [Hs' Hw].
    change (writes (run es (step e s)) = writes s).
    rewrite (IH _ Hs'). exact Hw.
Qed.

Lemma rerender_same_active prev s :
  activeNoteId prev = activeNoteId s ->
  rerender prev s =
  if bool_decide (drafts prev = drafts s) then s
  else autosaveEffect (autosaveCleanupFn s).
Proof.
  intros H. unfold rerender.
  rewrite (bool_decide_eq_true_2 (activeNoteId prev = activeNoteId s) H).
  reflexivity.
Qed.

Lemma rerender_new_active prev s :
  activeNoteId prev <> activeNoteId s ->
  rerender prev s =
  if bool_decide (drafts prev = drafts (draftLoadEffect s))
  then draftLoadEffect s
  else autosaveEffect (autosaveCleanupFn (draftLoadEffect s)).
Proof.
  intros H. unfold rerender.
  rewrite (bool_decide_eq_false_2 (activeNoteId prev = activeNoteId s) H).
  reflexivity.
Qed.

Lemma truthyId_nonempty id : id <> EmptyString -> truthyId (Some id) = true.
Proof. destruct id; [congruence|reflexivity]. Qed.

(** C1, as the code has it.  Take a signed-in user with note [A] active
    and the load guard down, who edits the body to [body], and a note [B]
    of the list whose stored fields differ from the drafts.  The edit arms
    the autosave timer with A's identity and the edited drafts.  Opening
    [B] before the timer fires clears it (the cleanup of the autosave
    effect) and arms no other (the load guard is up): no write is issued
    by the switch, nor by any timer or settling write afterwards.  Had the
    timer fired before the switch, A's edited body is written to A's
    record, under A's trimmed title and folder, and the switch leaves that
    write alone. *)
Theorem switch_cancels_pending_save (s : Editor) (uid A B body : string)
    (nb : Note) :
  user s = Some uid ->
  activeNoteId s = Some A ->
  A <> EmptyString ->
  ignoreAutosaveRef s = false ->
  body <> draftBody s ->
  A <> B ->
  List.find (fun n => String.eqb (note_id n) B) (notes s) = Some nb ->
  loadedDrafts nb <> (draftTitle s, draftClass s, body) ->
  let s1 := step (TypeBody body) s in
  let s2 := step (OpenNote B) s1 in
  saveDebounceRef s1 =
    Some (AutosaveTimer
            (mkClosure (Some uid) (Some A) (draftTitle s) (draftClass s) body)) /\
  saveDebounceRef s2 = None /\
  (forall later, Forall systemEvent later ->
                 writes (run later s2) = writes s) /\
  writes (step (OpenNote B) (step DebounceFires s1)) =
    writes s ++ [MergeNoteDoc uid A (savedTitle (draftTitle s))
                   (trim (draftClass s)) body].
Proof.
  intros Hu Ha HA Hig Hbody HAB Hfind Hload.
  destruct s as [u n a t c b bz ss tm ig cl ir fl w al].
  simpl in Hu, Ha, Hig, Hbody, Hfind, Hload. subst u a ig.
  intros s1 s2.
  assert (Hs1 : s1 = mkEditor (Some uid) n (Some A) t c body bz Saving
                       (Some (AutosaveTimer
                                (mkClosure (Some uid) (Some A) t c body)))
                       false true ir fl w al).
  { subst s1. unfold step.
    rewrite rerender_same_active by reflexivity.
    rewrite bool_decide_eq_false_2 by (unfold drafts; simpl; congruence).
    unfold autosaveCleanupFn, autosaveEffect.
    destruct cl; simpl; rewrite (truthyId_nonempty A HA); reflexivity. }
  assert (Hs2 : s2 = mkEditor (Some uid) n (Some B)
                       (orEmpty (note_title nb)) (orEmpty (note_className nb))
                       (orEmpty (note_body nb)) bz Idle None true false (S ir)
                       fl w al).
  { subst s2. rewrite Hs1. unfold step.
    rewrite rerender_new_active by (simpl; congruence).
    unfold draftLoadEffect, activeNote. simpl. rewrite Hfind. simpl.
    rewrite bool_decide_eq_false_2
      by (unfold drafts, loadedDrafts in *; simpl; congruence).
    unfold autosaveCleanupFn, autosaveEffect. simpl.
    destruct (truthyId (Some B)); reflexivity. }
  split; [rewrite Hs1; reflexivity|].
  split; [rewrite Hs2; reflexivity|].
  split.
  - intros later Hlater.
    rewrite (systemEvents_quiet later s2 Hlater) by (rewrite Hs2; exact I).
    rewrite Hs2. reflexivity.
  - rewrite Hs1. unfold step. rewrite rerender_writes.
    destruct A as [|ch A]; [congruence|]. reflexivity.
Qed.

(** Note A open after B, its body edited, note B opened again within the
    quiet period. *)
Lemma switch_cancels_pending_save_witness :
  let s := run [OpenNote "A"; IgnoreResetFires] twoNotesEditor in
  saveDebounceRef (run [TypeBody "edited"; OpenNote "B"] s) = None /\
  writes (run [TypeBody "edited"; OpenNote "B"; IgnoreResetFires;
               DebounceFires] s) = [].
Proof.
  intros s.
  destruct (switch_cancels_pending_save s "u1" "A" "B" "edited" noteB)
    as (_ & Hclear & Hquiet & _);
    [reflexivity | reflexivity | discriminate | reflexivity | discriminate
    | discriminate | reflexivity | discriminate |].
  split; [exact Hclear|].
  apply (Hquiet [IgnoreResetFires; DebounceFires]).
  repeat constructor.
Defined.

(** The claim fails: with notes A and B in the list, the user opens A,
    edits its body, opens B before the timer fires, and A's edited body is
    never written. *)
Lemma pending_save_dropped_on_switch :
  ~ survivesSwitch twoNotesEditor "A" "B" "edited".
Proof.
  unfold survivesSwitch, bodyPersisted.
  intros (uid & title & className & Hin).
  vm_compute in Hin. exact Hin.
Qed.

End SwitchFacts.

(** ** Checks on concrete inputs *)

Section Checks.
Import JsString.

Example trim_inner_space : trim "  a b  " = "a b"%string.
Proof. reflexivity. Qed.

Example savedTitle_blank : savedTitle "   " = "Untitled"%string.
Proof. reflexivity. Qed.

Example includes_inside : includes "alpha math first body" "math f" = true.
Proof. reflexivity. Qed.

Example includes_absent : includes "alpha" "beta" = false.
Proof. reflexivity. Qed.

(** 29 February 2024 is a Thursday; 1900 was no leap year. *)
Example leap_day_2024 :
  JsDate.getDay (JsDate.make 2024 1 29) = 4 /\
  JsDate.getMonth (JsDate.make 2024 1 29) = 1 /\
  JsDate.getMonth (JsDate.make 1900 1 29) = 2.
Proof. repeat split; reflexivity. Qed.

(** February 2026 starts on a Sunday: the grid starts on the 1st itself. *)
Example grid_february_2026 :
  buildMonthGrid (JsDate.make 2026 1 14) !! 0%nat = Some (JsDate.make 2026 1 1) /\
  JsDate.getDay (JsDate.make 2026 1 1) = 0.
Proof. split; reflexivity. Qed.

(** Pinned first, then the most recently updated; a note without update
    time last. *)
Example filteredNotes_order :
  note_id <$> filteredNotes [noteC; noteA; noteB] "" "ALL" = ["B"; "A"; "C"]%string.
Proof. reflexivity. Qed.

Example filteredNotes_folder :
  note_id <$> filteredNotes [noteC; noteA; noteB] "" "Math" = ["A"]%string.
Proof. reflexivity. Qed.

Example filteredNotes_search :
  note_id <$> filteredNotes [noteC; noteA; noteB] "BODY" "ALL" = ["B"; "A"]%string.
Proof. reflexivity. Qed.

(** A missing field reads as the text "undefined" in the template literal. *)
Example filteredNotes_missing_field :
  note_id <$> filteredNotes [noteC; noteA; noteB] "undef" "ALL" = ["C"]%string.
Proof. reflexivity. Qed.

Example tasksByDate_sample :
  task_id <$> default [] (tasksByDate sampleTasks !! "2024-03-01"%string)
  = ["t1"; "t3"]%string /\
  tasksByDate sampleTasks !! ""%string = None /\
  dom (tasksByDate sampleTasks) = {["2024-03-01"%string; "2024-03-08"%string]}.
Proof. repeat split; vm_compute; reflexivity. Qed.

(** When note B happens to hold the very drafts being edited, loading it
    changes no draft, the autosave effect is not cleaned up, and the timer
    armed for A fires after the switch and writes A's edit. *)
Example pending_save_kept_when_drafts_coincide :
  writes (run (switchEvents "A" "B" "edited") twoNotesEditor_same)
  = [MergeNoteDoc "u1" "A" "Alpha" "Math" "edited"].
Proof. reflexivity. Qed.

(** An edit whose timer fires before the switch is written. *)
Example save_issued_before_switch :
  writes (run [OpenNote "A"; IgnoreResetFires; TypeBody "edited";
               DebounceFires; OpenNote "B"] twoNotesEditor)
  = [MergeNoteDoc "u1" "A" "Alpha" "Math" "edited"].
Proof. reflexivity. Qed.

(** Loading a note arms no timer and writes nothing. *)
Example load_writes_nothing :
  saveDebounceRef twoNotesEditor = None /\ writes twoNotesEditor = [].
Proof. split; reflexivity. Qed.

Example handler_get :
  Api.flashcards noParse sampleEnv (Api.mkRequest "GET" (Some (Js.Str "long enough text")))
  = (Api.mkResponse 405 (Api.ErrorBody "Method not allowed"), []).
Proof. reflexivity. Qed.

Example handler_short :
  Api.summarize sampleEnv (Api.mkRequest "POST" (Some (Js.Str "too short")))
  = (Api.mkResponse 400 (Api.ErrorBody "Text too short"), []).
Proof. reflexivity. Qed.

(** Without a request body, or without a client, the catch answers 500. *)
Example handler_no_body :
  Api.summarize sampleEnv (Api.mkRequest "POST" None)
  = (Api.mkResponse 500 (Api.ErrorBody "AI error"), []) /\
  Api.summarize (Api.mkEnv false (fun _ => None))
    (Api.mkRequest "POST" (Some (Js.Str "short")))
  = (Api.mkResponse 500 (Api.ErrorBody "AI error"), []).
Proof. split; reflexivity. Qed.

Example handler_success :
  fst (Api.summarize sampleEnv (Api.mkRequest "POST" (Some (Js.Str "ten chars!"))))
  = Api.mkResponse 200 (Api.SummaryBody (Js.Str "{}")).
Proof. reflexivity. Qed.

Example study_walk :
  studyIndex (studyRun [mkFlashcard "c1" None "" "q" "a"; mkFlashcard "c2" None "" "q" "a"]
                [StartStudy; PrevCard; NextCard; NextCard; NextCard] initialStudy) = 1.
Proof. reflexivity. Qed.

End Checks.

(* ===================================================================== *)
(** * Part II, continued: further properties                              *)
(* ===================================================================== *)

(** ** Calendar keys *)

Section YmdFacts.
Import JsDate.

Lemma DateFromTime_range d : 1 <= DateFromTime d <= 31.
Proof.
  pose proof (DayWithinYear_range d) as Hw.
  assert (HL : InLeapYear d = 0 \/ InLeapYear d = 1).
  { unfold InLeapYear. destruct (DaysInYear _ =? 366); auto. }
  unfold DateFromTime, MonthFromTime.
  set (L := InLeapYear d) in *. set (w := DayWithinYear d) in *.
  repeat match goal with
         | |- context [?a <? ?b] => destruct (Z.ltb_spec a b)
         end; simpl; lia.
Qed.

Lemma MakeDay_own_fields d :
  MakeDay (YearFromTime d) (MonthFromTime d) (DateFromTime d) = d.
Proof. rewrite MakeDay_fields. lia. Qed.

Lemma fields_inj d d' :
  getFullYear d = getFullYear d' ->
  getMonth d = getMonth d' ->
  getDate d = getDate d' ->
  d = d'.
Proof.
  unfold getFullYear, getMonth, getDate. intros Hy Hm Hd.
  rewrite <- (MakeDay_own_fields d), <- (MakeDay_own_fields d').
  rewrite Hy, Hm, Hd. reflexivity.
Qed.

Lemma append_length (a b : string) :
  String.length (a ++ b) = (String.length a + String.length b)%nat.
Proof. induction a as [|c a IH]; simpl; [reflexivity|]. rewrite IH. reflexivity. Qed.

Lemma append_inj_suffix (a b a' b' : string) :
  (a ++ b)%string = (a' ++ b')%string ->
  String.length b = String.length b' ->
  a = a' /\ b = b'.
Proof.
  revert a'. induction a as [|c a IH]; intros [|c' a'] H Hl.
  - rewrite !append_Empty in H. auto.
  - rewrite append_Empty in H. apply (f_equal String.length) in H.
    rewrite append_length in H. simpl in H. lia.
  - rewrite append_Empty in H. apply (f_equal String.length) in H.
    rewrite append_length in H. simpl in H. lia.
  - rewrite !append_String in H. inversion H; subst c'.
    destruct (IH a') as [-> ->]; auto.
Qed.

Lemma to_int_not_nil n : Z.to_int n <> Decimal.Pos Decimal.Nil /\
                         Z.to_int n <> Decimal.Neg Decimal.Nil.
Proof.
  destruct n as [|p|p]; simpl; split; try discriminate;
    intros H; inversion H as [H1];
    pose proof (DecimalPos.Unsigned.of_to p) as Hp; rewrite H1 in Hp;
    discriminate Hp.
Qed.

(** The decimal text of a number determines the number. *)
Lemma toString_Num_inj n n' :
  Js.toString (Js.Num n) = Js.toString (Js.Num n') -> n = n'.
Proof.
  simpl. intros H.
  destruct (to_int_not_nil n) as [Hn1 Hn2].
  destruct (to_int_not_nil n') as [Hn1' Hn2'].
  pose proof (NilZero.isi _ Hn1 Hn2) as E.
  pose proof (NilZero.isi _ Hn1' Hn2') as E'.
  rewrite H in E. rewrite E in E'. inversion E' as [E0].
  rewrite <- (DecimalZ.of_to n), <- (DecimalZ.of_to n'), E0. reflexivity.
Qed.

(** A number from 1 to 31 is written with two digits that read back. *)
Lemma padStart_two k :
  1 <= k <= 31 ->
  exists a b,
    padStart 2 "0" (Js.toString (Js.Num k)) = String a (String b EmptyString) /\
    twoDigits (String a (String b EmptyString)) = Some (Z.to_nat k).
Proof.
  intros Hk. rewrite <- (Z2Nat.id k) by lia.
  assert (Hn : (Z.to_nat k <= 31)%nat) by lia.
  assert (H0 : (1 <= Z.to_nat k)%nat) by lia.
  generalize dependent (Z.to_nat k). clear k Hk. intros n Hn H0.
  do 32 (destruct n as [|n];
         [try lia; rewrite Nat2Z.id; eexists _, _; split; vm_compute; reflexivity|]).
  lia.
Qed.

(** The shape of a key: the decimal year, then [-mm-dd]. *)
Lemma ymd_shape d :
  exists a b c e,
    ymd d = (Js.toString (Js.Num (getFullYear d))
             ++ String "-" (String a (String b (String "-" (String c (String e EmptyString))))))%string /\
    twoDigits (String a (String b EmptyString)) = Some (Z.to_nat (getMonth d + 1)) /\
    twoDigits (String c (String e EmptyString)) = Some (Z.to_nat (getDate d)).
Proof.
  pose proof (MonthFromTime_range d) as Hm.
  pose proof (DateFromTime_range d) as Hd.
  destruct (padStart_two (getMonth d + 1)) as (a & b & Eab & Vab);
    [unfold getMonth; lia|].
  destruct (padStart_two (getDate d)) as (c & e & Ece & Vce);
    [unfold getDate; lia|].
  exists a, b, c, e. split; [|split; assumption].
  unfold ymd. cbv zeta. rewrite Eab, Ece. reflexivity.
Qed.

Lemma ymd_nonempty d : ymd d <> EmptyString.
Proof.
  destruct (ymd_shape d) as (a & b & c & e & E & _). rewrite E.
  intros H. apply (f_equal String.length) in H.
  rewrite append_length in H. simpl in H. lia.
Qed.

Lemma ymd_inj d d' : ymd d = ymd d' -> d = d'.
Proof.
  intros H.
  destruct (ymd_shape d) as (a & b & c & e & E & Vm & Vd).
  destruct (ymd_shape d') as (a' & b' & c' & e' & E' & Vm' & Vd').
  rewrite E, E' in H.
  apply append_inj_suffix in H as [Hy Hs]; [|reflexivity].
  inversion Hs; subst a' b' c' e'.
  apply toString_Num_inj in Hy.
  pose proof (MonthFromTime_range d). pose proof (MonthFromTime_range d').
  pose proof (DateFromTime_range d). pose proof (DateFromTime_range d').
  apply fields_inj; [exact Hy| |]; unfold getMonth, getDate in *.
  - assert (Z.to_nat (MonthFromTime d + 1) = Z.to_nat (MonthFromTime d' + 1))
      by congruence. lia.
  - assert (Z.to_nat (DateFromTime d) = Z.to_nat (DateFromTime d'))
      by congruence. lia.
Qed.

End YmdFacts.

Section CalendarFacts.
Import JsDate.


Lemma MakeDay_in_year y m :
  0 <= m < 12 ->
  MakeDay y m 1 =
  DayFromYear y + DaysBeforeMonth (if DaysInYear y =? 366 then 1 else 0) m.
Proof.
  intros Hm. unfold MakeDay.
  rewrite (Z.div_small _ 12), (Z.mod_small _ 12), Z.add_0_r by lia. lia.
Qed.

Lemma DaysBeforeMonth_leap l m :
  0 <= m < 12 -> (l = 0 \/ l = 1) ->
  DaysBeforeMonth 0 m <= DaysBeforeMonth l m <= DaysBeforeMonth 0 m + 1.
Proof.
  intros Hm Hl.
  assert (m = 0 \/ m = 1 \/ m = 2 \/ m = 3 \/ m = 4 \/ m = 5 \/ m = 6 \/
          m = 7 \/ m = 8 \/ m = 9 \/ m = 10 \/ m = 11) as Hc by lia.
  repeat (destruct Hc as [->|Hc]); try subst m; simpl; lia.
Qed.

(** The firsts of one month in two different years are far apart. *)
Lemma first_of_month_gap y y' m :
  0 <= m < 12 -> y < y' -> 364 <= MakeDay y' m 1 - MakeDay y m 1.
Proof.
  intros Hm Hy. rewrite !MakeDay_in_year by exact Hm.
  pose proof (DayFromYear_mono (y + 1) y' ltac:(lia)) as Hmono.
  rewrite DayFromYear_succ in Hmono.
  assert (Hl : forall z, (if DaysInYear z =? 366 then 1 else 0) = 0 \/
                         (if DaysInYear z =? 366 then 1 else 0) = 1)
    by (intros z; destruct (DaysInYear z =? 366); auto).
  pose proof (DaysBeforeMonth_leap _ m Hm (Hl y)).
  pose proof (DaysBeforeMonth_leap _ m Hm (Hl y')).
  destruct (DaysInYear_cases y) as [E|E]; rewrite E in Hmono; lia.
Qed.

Lemma gridFirst_MakeDay date :
  ~ (0 <= getFullYear date <= 99) ->
  gridFirst date = MakeDay (getFullYear date) (getMonth date) 1.
Proof.
  intros Hy. unfold gridFirst, make.
  destruct (Z.leb_spec 0 (getFullYear date)), (Z.leb_spec (getFullYear date) 99);
    simpl; try lia; reflexivity.
Qed.

Lemma buildMonthGrid_In date d :
  In d (buildMonthGrid date) <->
  0 <= d - (gridFirst date - getDay (gridFirst date)) < 42.
Proof.
  rewrite buildMonthGrid_cells, in_map_iff. split.
  - intros (i & <- & Hi). apply list_elem_of_In, elem_of_seqZ in Hi. lia.
  - intros H. exists (d - (gridFirst date - getDay (gridFirst date))).
    split; [lia|]. apply list_elem_of_In, elem_of_seqZ. lia.
Qed.

(** X2.  For a reference date of a year written with more than two digits,
    the grid holds every day of the reference month, and a cell has the
    month number of the reference date (the test behind [isThisMonth]) only
    when it is a day of that month of that year. *)
Theorem buildMonthGrid_covers_month (date d : JsDate.t) :
  ~ (0 <= getFullYear date <= 99) ->
  (In d (buildMonthGrid date) /\ getMonth d = getMonth date) <->
  (getFullYear d = getFullYear date /\ getMonth d = getMonth date).
Proof.
  intros Hy. rewrite buildMonthGrid_In, (gridFirst_MakeDay date Hy).
  set (y := getFullYear date). set (m := getMonth date).
  assert (Hm : 0 <= m < 12) by apply MonthFromTime_range.
  assert (Hdow : 0 <= getDay (MakeDay y m 1) < 7)
    by (unfold getDay, WeekDay; apply Z.mod_pos_bound; lia).
  pose proof (DateFromTime_range d) as Hd.
  pose proof (MakeDay_fields d 1) as Hown.
  unfold getFullYear, getMonth in *.
  split.
  - intros [Hin Hmd]. split; [|exact Hmd].
    rewrite Hmd in Hown. fold m in Hown.
    destruct (Z.lt_trichotomy (YearFromTime d) y) as [Hlt|[Heq|Hgt]];
      [|exact Heq|].
    + pose proof (first_of_month_gap (YearFromTime d) y m Hm Hlt). lia.
    + pose proof (first_of_month_gap y (YearFromTime d) m Hm Hgt). lia.
  - intros [Hyd Hmd]. split; [|exact Hmd].
    rewrite Hyd, Hmd in Hown. fold y m in Hown. lia.
Qed.

(** 1 March 2024 (day 19783) is a cell of the grid of 15 March 2024. *)
Lemma buildMonthGrid_covers_month_witness :
  In 19783 (buildMonthGrid 19797) /\ getMonth 19783 = getMonth 19797.
Proof.
  apply (buildMonthGrid_covers_month 19797 19783).
  - vm_compute. intros [_ Hle]. apply Hle. reflexivity.
  - split; reflexivity.
Defined.






End CalendarFacts.

Section CalendarCellFacts.

Lemma cell_due_tasksDue calMonth selectedDay tasks d :
  cell_due (calendarCell calMonth selectedDay (tasksByDate tasks) d)
  = tasksDue (ymd d) tasks.
Proof.
  unfold calendarCell. simpl.
  rewrite tasksByDate_lookup, (keyed_tasksDue _ _ (ymd_nonempty d)).
  destruct (tasksDue (ymd d) tasks); reflexivity.
Qed.

Lemma tasksDue_In D tasks t :
  In t (tasksDue D tasks) <-> In t tasks /\ task_due t = Some D.
Proof.
  unfold tasksDue. rewrite List.filter_In, bool_decide_eq_true. reflexivity.
Qed.

(** X4.  The calendar cell of a day lists exactly the tasks whose due date
    is the key of that day, in the order of the task list; it has a dot
    when there is such a task, the warning dot when one of them is not
    done; and a task listed in the cell of one day is in the cell of no
    other day. *)
Theorem calendarCell_tasks (calMonth : JsDate.t) (selectedDay : option string)
    (tasks : list Task) (d : JsDate.t) :
  let c := calendarCell calMonth selectedDay (tasksByDate tasks) d in
  cell_due c = tasksDue (ymd d) tasks /\
  (cell_hasAny c = true <->
   exists t, In t tasks /\ task_due t = Some (ymd d)) /\
  (cell_hasUndone c = true <->
   exists t, In t tasks /\ task_due t = Some (ymd d) /\ task_done t = false) /\
  (forall d' t,
      In t (cell_due c) ->
      In t (cell_due (calendarCell calMonth selectedDay (tasksByDate tasks) d')) ->
      d' = d).
Proof.
  intros c.
  assert (Hdue : cell_due c = tasksDue (ymd d) tasks)
    by apply cell_due_tasksDue.
  split; [exact Hdue|]. split; [|split].
  - change (cell_hasAny c) with (0 <? length (cell_due c))%nat.
    rewrite Hdue, Nat.ltb_lt. split.
    + intros Hl. destruct (tasksDue (ymd d) tasks) as [|t l] eqn:E;
        [simpl in Hl; lia|].
      exists t. apply tasksDue_In. rewrite E. left. reflexivity.
    + intros (t & Ht). apply tasksDue_In in Ht.
      destruct (tasksDue (ymd d) tasks); [contradiction|simpl; lia].
  - change (cell_hasUndone c)
      with (existsb (fun t => negb (task_done t)) (cell_due c)).
    rewrite Hdue, existsb_exists. split.
    + intros (t & Hin & Hn). apply tasksDue_In in Hin as [Hin Hd].
      exists t. apply negb_true_iff in Hn. auto.
    + intros (t & Hin & Hd & Hn). exists t. split.
      * apply tasksDue_In. auto.
      * rewrite Hn. reflexivity.
  - intros d' t Hin Hin'. rewrite Hdue in Hin.
    rewrite cell_due_tasksDue in Hin'.
    apply tasksDue_In in Hin as [_ E]. apply tasksDue_In in Hin' as [_ E'].
    apply ymd_inj. congruence.
Qed.

End CalendarCellFacts.

(** ** Theme *)

Section ThemeFacts.

Lemma initialTheme_valid saved :
  initialTheme saved = "light"%string \/ initialTheme saved = "dark"%string.
Proof.
  destruct saved as [v|]; simpl; [|auto].
  destruct (String.eqb_spec v "light") as [->|Hl]; simpl; [auto|].
  destruct (String.eqb_spec v "dark") as [->|Hd]; auto.
Qed.

Lemma toggleTheme_valid t :
  toggleTheme t = "light"%string \/ toggleTheme t = "dark"%string.
Proof. unfold toggleTheme. destruct (String.eqb t "dark"); auto. Qed.

Lemma themeAfter_valid saved n :
  themeAfter saved n = "light"%string \/ themeAfter saved n = "dark"%string.
Proof.
  unfold themeAfter. destruct n as [|n]; simpl.
  - apply initialTheme_valid.
  - apply toggleTheme_valid.
Qed.

(** X5.  Whatever the storage held and however often the button was
    clicked, the theme is "light" or "dark"; the value the effect stores is
    read back as the same theme on the next start; and two clicks bring the
    theme back. *)
Theorem theme_round_trip (storage : gmap string string) (n : nat) :
  let t := themeAfter (storage !! "theme"%string) n in
  (t = "light"%string \/ t = "dark"%string) /\
  initialTheme (persistTheme t storage !! "theme"%string) = t /\
  toggleTheme (toggleTheme t) = t.
Proof.
  intros t. pose proof (themeAfter_valid (storage !! "theme"%string) n) as Hv.
  fold t in Hv. split; [exact Hv|]. split.
  - unfold persistTheme. rewrite lookup_insert_eq.
    destruct Hv as [-> | ->]; reflexivity.
  - destruct Hv as [-> | ->]; reflexivity.
Qed.

End ThemeFacts.

(** ** Folder list *)

Section FolderFacts.
Import JsString.
Variable localeCompare : string -> string -> Z.

Lemma setAdd_In c c' set : In c' (setAdd c set) <-> c' = c \/ In c' set.
Proof.
  unfold setAdd. destruct (existsb (String.eqb c) set) eqn:E.
  - split; [auto|]. intros [->|H]; [|exact H].
    apply existsb_exists in E as (x & Hx & Heq).
    apply String.eqb_eq in Heq. subst x. exact Hx.
  - rewrite in_app_iff. simpl. split; [intros [H|[H|[]]]; auto|].
    intros [->|H]; auto.
Qed.

Lemma setAdd_NoDup c set : NoDup set -> NoDup (setAdd c set).
Proof.
  intros Hnd. unfold setAdd. destruct (existsb (String.eqb c) set) eqn:E;
    [exact Hnd|].
  apply NoDup_app. split; [exact Hnd|]. split; [|apply NoDup_singleton].
  intros x Hx Hc. apply list_elem_of_singleton in Hc. subst x.
  assert (Ht : existsb (String.eqb c) set = true).
  { apply existsb_exists. exists c. split; [apply list_elem_of_In, Hx|].
    apply String.eqb_refl. }
  congruence.
Qed.

Lemma folderSet_from acc notes :
  let set := fold_left (fun set n =>
                          let c := trim (orEmpty (note_className n)) in
                          if isEmpty c then set else setAdd c set)
               notes acc in
  (NoDup acc -> NoDup set) /\
  (forall c, In c set <->
             In c acc \/
             (c <> EmptyString /\
              exists n, In n notes /\ trim (folderLabel n) = c)).
Proof.
  revert acc. induction notes as [|n notes IH]; intros acc; simpl.
  - split; [auto|]. intros c. split; [auto|].
    intros [H|(_ & n & [] & _)]. exact H.
  - rewrite orEmpty_folderLabel.
    destruct (isEmpty (trim (folderLabel n))) eqn:E.
    + destruct (IH acc) as [Hnd Hin]. split; [exact Hnd|].
      intros c. rewrite Hin. apply isEmpty_true in E. split.
      * intros [H|(Hne & n' & Hn' & Hc)]; [auto|]. right. split; [exact Hne|].
        exists n'. auto.
      * intros [H|(Hne & n' & [->|Hn'] & Hc)]; [auto|congruence|].
        right. split; [exact Hne|]. exists n'. auto.
    + destruct (IH (setAdd (trim (folderLabel n)) acc)) as [Hnd Hin].
      split; [intros H; apply Hnd, setAdd_NoDup, H|].
      intros c. rewrite Hin, setAdd_In. split.
      * intros [[->|H]|(Hne & n' & Hn' & Hc)]; [|auto|].
        -- right. split; [intros H; rewrite H in E; discriminate E|].
           exists n. auto.
        -- right. split; [exact Hne|]. exists n'. auto.
      * intros [H|(Hne & n' & [->|Hn'] & Hc)]; [auto|auto|].
        right. split; [exact Hne|]. exists n'. auto.
Qed.

Lemma folderSet_spec notes :
  NoDup (folderSet notes) /\
  forall c, In c (folderSet notes) <->
            (c <> EmptyString /\
             exists n, In n notes /\ trim (folderLabel n) = c).
Proof.
  destruct (folderSet_from [] notes) as [Hnd Hin]. split.
  - apply Hnd. constructor.
  - intros c. unfold folderSet. rewrite Hin. simpl. tauto.
Qed.

(** X6.  The folder list starts with "ALL"; after it come, each once, the
    trimmed folder labels of the notes that are not empty, and nothing
    else, whatever the collation orders them. *)
Theorem classFolders_spec (notes : list Note) :
  exists rest,
    classFolders localeCompare notes = "ALL"%string :: rest /\
    NoDup rest /\
    forall c, In c rest <->
              (c <> EmptyString /\
               exists n, In n notes /\ trim (folderLabel n) = c).
Proof.
  destruct (folderSet_spec notes) as [Hnd Hin].
  pose proof (sort_Permutation localeCompare (folderSet notes)) as Hp.
  exists (Js.sort localeCompare (folderSet notes)).
  split; [reflexivity|]. split.
  - rewrite Hp. exact Hnd.
  - intros c. rewrite <- Hin. split; apply Permutation_in;
      [exact Hp|symmetry; exact Hp].
Qed.

Lemma filteredNotes_In notes S F n :
  In n (filteredNotes notes S F) <->
  In n notes /\ folderMatches F n /\ searchMatches S n.
Proof.
  unfold filteredNotes.
  pose proof (sort_Permutation noteCompare
                (List.filter (noteMatches (normalize (Js.Str S)) F) notes)) as Hp.
  split.
  - intros Hin. eapply Permutation_in in Hin; [|exact Hp].
    apply List.filter_In in Hin as [Hin Hm].
    apply noteMatches_spec in Hm. tauto.
  - intros (Hin & Hf & Hs). eapply Permutation_in; [symmetry; exact Hp|].
    apply List.filter_In. split; [exact Hin|]. apply noteMatches_spec. tauto.
Qed.

Lemma filter_all {A} (f : A -> bool) l :
  (forall x, f x = true) -> List.filter f l = l.
Proof.
  intros H. induction l as [|x l IH]; simpl; [reflexivity|].
  rewrite H, IH. reflexivity.
Qed.

(** X7.  With no search string, every entry of the folder list other than
    "ALL" selects at least one note; "ALL" selects every note, each once;
    and every note with a non-empty trimmed folder label finds that label
    in the folder list and itself among the notes the label selects. *)
Theorem classFolders_select (notes : list Note) :
  (forall c, In c (classFolders localeCompare notes) ->
             c = "ALL"%string \/ exists n, In n (filteredNotes notes "" c)) /\
  Permutation (filteredNotes notes "" "ALL") notes /\
  (forall n, In n notes -> trim (folderLabel n) <> EmptyString ->
             In (trim (folderLabel n)) (classFolders localeCompare notes) /\
             In n (filteredNotes notes "" (trim (folderLabel n)))).
Proof.
  destruct (folderSet_spec notes) as [_ Hin].
  pose proof (sort_Permutation localeCompare (folderSet notes)) as Hp.
  split; [|split].
  - intros c [Hc|Hc]; [left; symmetry; exact Hc|]. right.
    eapply Permutation_in in Hc; [|exact Hp].
    apply Hin in Hc as (_ & n & Hn & Hl). exists n.
    apply filteredNotes_In. split; [exact Hn|].
    split; [right; exact Hl|left; reflexivity].
  - unfold filteredNotes.
    rewrite (sort_Permutation noteCompare), filter_all; [reflexivity|].
    intros n. reflexivity.
  - intros n Hn Hne. split.
    + right. eapply Permutation_in; [symmetry; exact Hp|].
      apply Hin. split; [exact Hne|]. exists n. auto.
    + apply filteredNotes_In. split; [exact Hn|].
      split; [right; reflexivity|left; reflexivity].
Qed.

End FolderFacts.

(** ** Study mode buttons *)

Section StudyClickFacts.
Variable deck : list Flashcard.

Lemma studyClick_inRange c s :
  (studyMode s = true -> 0 <= studyIndex s < Z.of_nat (length deck)) ->
  (studyMode s = false -> studyIndex s = 0) ->
  (studyMode (studyClick deck c s) = true ->
   0 <= studyIndex (studyClick deck c s) < Z.of_nat (length deck)) /\
  (studyMode (studyClick deck c s) = false -> studyIndex (studyClick deck c s) = 0).
Proof.
  intros Hon Hoff.
  destruct c; simpl.
  - unfold startStudy. destruct (Nat.eqb_spec (length deck) 0) as [E|E]; simpl.
    + auto.
    + split; [intros _; lia|discriminate].
  - split; [discriminate|reflexivity].
  - destruct (studyMode s) eqn:Em; [|simpl; split; [intros H; congruence|intros _; apply Hoff; reflexivity]]. simpl. rewrite Em.
    split; [intros _; specialize (Hon eq_refl); lia|discriminate].
  - destruct (studyMode s) eqn:Em; [|simpl; split; [intros H; congruence|intros _; apply Hoff; reflexivity]]. unfold onNextClick.
    specialize (Hon eq_refl).
    destruct (Z.geb_spec (studyIndex s) (Z.of_nat (length deck) - 1)); simpl.
    + split; [discriminate|reflexivity].
    + rewrite Em. split; [intros _; lia|discriminate].
  - destruct (studyMode s) eqn:Em; [|simpl; split; [intros H; congruence|intros _; apply Hoff; reflexivity]]. simpl.
    split; [auto|discriminate].
Qed.

Lemma studyClicks_inRange cs s :
  (studyMode s = true -> 0 <= studyIndex s < Z.of_nat (length deck)) ->
  (studyMode s = false -> studyIndex s = 0) ->
  (studyMode (studyClicks deck cs s) = true ->
   0 <= studyIndex (studyClicks deck cs s) < Z.of_nat (length deck)) /\
  (studyMode (studyClicks deck cs s) = false ->
   studyIndex (studyClicks deck cs s) = 0).
Proof.
  revert s. induction cs as [|c cs IH]; intros s Hon Hoff; simpl; [auto|].
  destruct (studyClick_inRange c s Hon Hoff) as [Hon' Hoff'].
  apply IH; assumption.
Qed.

(** X8.  Through any sequence of clicks on the buttons of the flashcard
    panel over a deck, from the initial state: in study mode the index
    designates a card of the deck, so the card shown exists; out of study
    mode the index is 0. *)
Theorem study_card_shown (cs : list StudyClick) :
  let s := studyClicks deck cs initialStudy in
  (studyMode s = true -> exists c, cardAt deck (studyIndex s) = Some c) /\
  (studyMode s = false -> studyIndex s = 0).
Proof.
  intros s.
  destruct (studyClicks_inRange cs initialStudy) as [Hon Hoff];
    [discriminate|reflexivity|].
  fold s in Hon, Hoff. split; [|exact Hoff].
  intros Hm. specialize (Hon Hm). unfold cardAt.
  destruct (Z.ltb_spec (studyIndex s) 0); [lia|].
  apply lookup_lt_is_Some_2. lia.
Qed.

Lemma studyClicks_snoc cs c s :
  studyClicks deck (cs ++ [c]) s = studyClick deck c (studyClicks deck cs s).
Proof. unfold studyClicks. rewrite fold_left_app. reflexivity. Qed.

Lemma repeat_snoc {A} (x : A) n : repeat x (S n) = repeat x n ++ [x].
Proof. induction n as [|n IH]; simpl; [reflexivity|]. f_equal. exact IH. Qed.

Lemma study_walk_state (s : Study) (k : nat) :
  (k < length deck)%nat ->
  studyClicks deck (ClickStudy :: repeat ClickNext k) s
  = mkStudy true (Z.of_nat k) false (studyAlerts s).
Proof.
  intros Hk. induction k as [|k IH].
  - simpl. unfold startStudy.
    destruct (Nat.eqb_spec (length deck) 0); [lia|reflexivity].
  - rewrite repeat_snoc, app_comm_cons, studyClicks_snoc, IH by lia.
    simpl. unfold onNextClick. simpl.
    destruct (Z.geb_spec (Z.of_nat k) (Z.of_nat (length deck) - 1)); [lia|].
    unfold nextCard. simpl. f_equal. lia.
Qed.

(** X9.  On a deck that has a card at position [k], "Study" followed by
    [k] clicks on "Next" shows that card, front side up; and as many clicks
    on "Next" as the deck has cards end the study with the alert "Done!"
    and the index back at 0. *)
Theorem study_next_walk (s : Study) (k : nat) :
  (k < length deck)%nat ->
  let sk := studyClicks deck (ClickStudy :: repeat ClickNext k) s in
  let send := studyClicks deck (ClickStudy :: repeat ClickNext (length deck)) s in
  (studyMode sk = true /\ studyFlipped sk = false /\
   cardAt deck (studyIndex sk) = deck !! k) /\
  (studyMode send = false /\ studyIndex send = 0 /\
   studyAlerts send = studyAlerts s ++ ["Done! 🎉"%string]).
Proof.
  intros Hk sk send. split.
  - subst sk. rewrite (study_walk_state s k Hk). simpl.
    split; [reflexivity|]. split; [reflexivity|].
    unfold cardAt. destruct (Z.ltb_spec (Z.of_nat k) 0); [lia|].
    rewrite Nat2Z.id. reflexivity.
  - subst send. destruct (length deck) as [|n] eqn:En; [lia|].
    rewrite repeat_snoc, app_comm_cons, studyClicks_snoc.
    rewrite (study_walk_state s n) by lia.
    simpl. unfold onNextClick. simpl. rewrite En.
    destruct (Z.geb_spec (Z.of_nat n) (Z.of_nat (S n) - 1)); [|lia].
    simpl. auto.
Qed.

End StudyClickFacts.

(** On the deck of two cards: one click on "Next" shows the second card,
    two end the study. *)
Lemma study_next_walk_witness :
  studyIndex (studyClicks twoCards [ClickStudy; ClickNext] initialStudy) = 1 /\
  studyMode (studyClicks twoCards [ClickStudy; ClickNext; ClickNext] initialStudy)
  = false.
Proof.
  destruct (study_next_walk twoCards initialStudy 1) as [_ (Hm & _ & _)];
    [simpl; lia|].
  split; [reflexivity|exact Hm].
Defined.


Section StudyDeckFacts.

(** X10.  The study deck holds the cards of the list that belong to the
    active note when "only this note" is ticked and a note is active, and
    every card otherwise; "Study" pressed out of study mode enters it
    exactly when the deck has a card, and alerts otherwise. *)
Theorem studyDeck_start (cards : list Flashcard) (only : bool)
    (active : option string) (s : Study) :
  let deck := studyDeck cards only active in
  (forall c, In c deck <->
             In c cards /\
             (only = false \/ truthyId active = false \/ card_noteId c = active)) /\
  (studyMode s = false ->
   (studyMode (startStudy deck s) = true <-> exists c, In c deck) /\
   (deck = [] ->
    startStudy deck s
    = mkStudy false (studyIndex s) (studyFlipped s)
        (studyAlerts s ++ ["No flashcards to study yet."%string]))).
Proof.
  intros deck. split.
  - intros c. subst deck. unfold studyDeck.
    destruct only; simpl; [|tauto].
    destruct (truthyId active); simpl; [|tauto].
    rewrite List.filter_In, bool_decide_eq_true. split.
    + intros [H1 H2]. auto.
    + intros [H1 [H|[H|H]]]; try discriminate. auto.
  - intros Hm. split.
    + unfold startStudy. destruct deck as [|c deck']; simpl.
      * rewrite Hm. split; [discriminate|]. intros (c & []).
      * split; [intros _; exists c; left; reflexivity|reflexivity].
    + intros ->. unfold startStudy. simpl. rewrite Hm. reflexivity.
Qed.

End StudyDeckFacts.

(** ** Autosave: debounce, load guard, completion *)

Section AutosaveFacts.
Import JsString.

Lemma type_body_ready s uid A v :
  editingNote s uid A -> v <> draftBody s ->
  let s' := step (TypeBody v) s in
  editingNote s' uid A /\
  saveDebounceRef s' =
    Some (AutosaveTimer
            (mkClosure (Some uid) (Some A) (draftTitle s) (draftClass s) v)) /\
  writes s' = writes s /\
  draftTitle s' = draftTitle s /\ draftClass s' = draftClass s /\
  draftBody s' = v.
Proof.
  intros (Hu & Ha & HA & Hig) Hv s'.
  destruct s as [u n a t c b bz ss tm ig cl ir fl w al].
  simpl in Hu, Ha, Hig, Hv. subst u a ig.
  assert (Hs : s' = mkEditor (Some uid) n (Some A) t c v bz Saving
                      (Some (AutosaveTimer
                               (mkClosure (Some uid) (Some A) t c v)))
                      false true ir fl w al).
  { subst s'. unfold step.
    rewrite rerender_same_active by reflexivity.
    rewrite bool_decide_eq_false_2 by (unfold drafts; simpl; congruence).
    unfold autosaveCleanupFn, autosaveEffect.
    destruct cl; simpl; rewrite (truthyId_nonempty A HA); reflexivity. }
  rewrite Hs. unfold editingNote. simpl. auto 10.
Qed.

Lemma typing_bodies vs : forall s uid A,
  editingNote s uid A -> vs <> [] -> allChange (draftBody s) vs ->
  let s' := run (map TypeBody vs) s in
  editingNote s' uid A /\
  saveDebounceRef s' =
    Some (AutosaveTimer
            (mkClosure (Some uid) (Some A) (draftTitle s) (draftClass s)
               (List.last vs EmptyString))) /\
  writes s' = writes s.
Proof.
  induction vs as [|v vs IH]; intros s uid A Hr Hne Hch; [congruence|].
  destruct Hch as [Hv Hch].
  destruct (type_body_ready s uid A v Hr Hv) as (Hr1 & Ht1 & Hw1 & Et & Ec & Eb).
  destruct vs as [|v2 vs].
  - simpl. auto.
  - rewrite <- Eb in Hch.
    destruct (IH (step (TypeBody v) s) uid A Hr1 ltac:(discriminate) Hch)
      as (Hr2 & Ht2 & Hw2).
    change (run (map TypeBody (v :: v2 :: vs)) s)
      with (run (map TypeBody (v2 :: vs)) (step (TypeBody v) s)).
    cbv zeta. rewrite Et, Ec in Ht2.
    split; [exact Hr2|]. split; [exact Ht2|]. congruence.
Qed.

Lemma run_app es es' s : run (es ++ es') s = run es' (run es s).
Proof. unfold run. apply fold_left_app. Qed.

(** X11.  While a signed-in user edits a note with the load guard down, a
    series of edits of the body, each changing it, followed by the firing of
    the timer issues exactly one write, to that note, with the trimmed title
    and folder label and the body of the last edit; a second firing issues
    nothing. *)
Theorem autosave_debounced (s : Editor) (uid A : string) (vs : list string) :
  editingNote s uid A ->
  vs <> [] ->
  allChange (draftBody s) vs ->
  let op := MergeNoteDoc uid A (savedTitle (draftTitle s))
              (trim (draftClass s)) (List.last vs EmptyString) in
  writes (run (map TypeBody vs ++ [DebounceFires]) s) = writes s ++ [op] /\
  writes (run (map TypeBody vs ++ [DebounceFires; DebounceFires]) s)
  = writes s ++ [op].
Proof.
  intros Hr Hne Hch op.
  destruct (typing_bodies vs s uid A Hr Hne Hch) as (Hr' & Ht & Hw).
  destruct Hr' as (_ & _ & HA & _).
  assert (H1 : writes (run (map TypeBody vs ++ [DebounceFires]) s) = writes s ++ [op] /\
               saveDebounceRef (run (map TypeBody vs ++ [DebounceFires]) s) = None).
  { rewrite run_app. simpl. rewrite Ht.
    split.
    - rewrite (saveNote_writes false _ _ uid A) by (try reflexivity; exact HA).
      simpl. rewrite <- Hw.
      destruct (run (map TypeBody vs) s); reflexivity.
    - destruct A as [|ch A]; [congruence|].
      destruct (run (map TypeBody vs) s); reflexivity. }
  destruct H1 as [H1 H2]. split; [exact H1|].
  change [DebounceFires; DebounceFires] with ([DebounceFires] ++ [DebounceFires]).
  rewrite app_assoc, run_app. simpl. rewrite H2. exact H1.
Qed.

(** Three keystrokes in note A, then the timer. *)
Lemma autosave_debounced_witness :
  writes (run [TypeBody "f"; TypeBody "fi"; TypeBody "fin"; DebounceFires] editingA)
  = [MergeNoteDoc "u1" "A" "Alpha" "Math" "fin"].
Proof.
  destruct (autosave_debounced editingA "u1" "A" ["f"; "fi"; "fin"]%string)
    as [H _].
  - repeat split; try reflexivity. discriminate.
  - discriminate.
  - simpl. repeat split; discriminate.
  - exact H.
Defined.

End AutosaveFacts.

Section GuardFacts.
Import JsString.

(** Setting the active note from a state without autosave timer leaves
    none. *)
Lemma activate_quiet (prev s : Editor) (next : option string) :
  noAutosaveTimer s ->
  drafts prev = drafts s ->
  noAutosaveTimer (rerender prev (set_activeNoteId next s)).
Proof.
  unfold noAutosaveTimer. intros H Hd.
  destruct (decide (activeNoteId prev = next)) as [E|E].
  - rewrite rerender_same_active by (destruct s; exact E).
    rewrite bool_decide_eq_true_2 by (destruct s; exact Hd).
    destruct s; exact H.
  - rewrite rerender_new_active by (destruct s; exact E).
    unfold draftLoadEffect.
    destruct (activeNote (set_activeNoteId next s)) as [note|].
    + match goal with
      | |- context [bool_decide ?P] => destruct (bool_decide P)
      end.
      * destruct s; exact H.
      * unfold autosaveCleanupFn, autosaveEffect.
        destruct s as [u n a t c b bz ss tm ig cl ir fl w al]. simpl.
        destruct cl; simpl;
          destruct (bool_decide (is_Some u) && truthyId next); simpl;
          try exact I; exact H.
    + rewrite bool_decide_eq_true_2 by (destruct s; exact Hd).
      destruct s; exact H.
Qed.

Lemma load_quiet e s :
  loadEvent e -> noAutosaveTimer s ->
  noAutosaveTimer (step e s) /\ writes (step e s) = writes s.
Proof.
  destruct e; simpl; try contradiction; intros _ H.
  - split; [|rewrite rerender_writes; destruct s; reflexivity].
    apply activate_quiet; [exact H|reflexivity].
  - unfold onNotesSnapshot.
    split; [|rewrite rerender_writes; destruct s; reflexivity].
    apply activate_quiet; destruct s; [exact H|reflexivity].
Qed.

(** X12.  Loading notes saves nothing: from a state without a live
    autosave timer, a click on a note of the list or a snapshot of the notes
    arms no autosave timer, and neither this event nor the timers that fire
    and the writes that settle afterwards issue a write. *)
Theorem load_issues_no_write (e : Event) (later : list Event) (s : Editor) :
  loadEvent e ->
  noAutosaveTimer s ->
  Forall systemEvent later ->
  noAutosaveTimer (step e s) /\
  writes (run (e :: later) s) = writes s.
Proof.
  intros He Hs Hl. destruct (load_quiet e s He Hs) as [Hq Hw].
  split; [exact Hq|].
  change (run (e :: later) s) with (run later (step e s)).
  rewrite (systemEvents_quiet later _ Hl Hq). exact Hw.
Qed.

(** Opening note A from the list, then all timers. *)
Lemma load_issues_no_write_witness :
  writes (run [OpenNote "A"; IgnoreResetFires; DebounceFires] twoNotesEditor) = [].
Proof.
  destruct (load_issues_no_write (OpenNote "A") [IgnoreResetFires; DebounceFires]
              twoNotesEditor) as [_ H].
  - exact I.
  - exact I.
  - repeat constructor.
  - exact H.
Defined.

(** X13.  When a save completes while the autosave timer of a newer edit
    is pending, the completion replaces that timer by the one that resets
    the status: the status reads "saved", and no timer or settling write
    afterwards writes the newer drafts. *)
Theorem save_completion_drops_newer_timer (s : Editor) (cl : Closure)
    (later : list Event) :
  saveDebounceRef s = Some (AutosaveTimer cl) ->
  inFlight s <> [] ->
  Forall systemEvent later ->
  let s' := step (WriteSettles WriteOk) s in
  saveDebounceRef s' = Some IdleTimer /\
  saveState s' = Saved /\
  drafts s' = drafts s /\
  writes (run (WriteSettles WriteOk :: later) s) = writes s.
Proof.
  intros Ht Hf Hl s'.
  destruct s as [u n a t c b bz ss tm ig cle ir fl w al].
  simpl in Ht, Hf. destruct fl as [|m fl]; [congruence|].
  assert (Hs : s' = mkEditor u n a t c b (if m then ""%string else bz) Saved
                      (Some IdleTimer) ig cle ir fl w al).
  { subst s'. simpl. unfold saveNote_settled. simpl. destruct m; reflexivity. }
  split; [rewrite Hs; reflexivity|].
  split; [rewrite Hs; reflexivity|].
  split; [rewrite Hs; reflexivity|].
  change (run (WriteSettles WriteOk :: later)
            (mkEditor u n a t c b bz ss tm ig cle ir (m :: fl) w al))
    with (run later s').
  rewrite (systemEvents_quiet later s' Hl) by (rewrite Hs; exact I).
  rewrite Hs. reflexivity.
Qed.

(** The edit "v2", typed while the write of "v1" was awaited, is not
    written once that write has settled. *)
Lemma save_completion_drops_newer_timer_witness :
  draftBody editedDuringSave = "v2"%string /\
  writes (run [WriteSettles WriteOk; DebounceFires; DebounceFires] editedDuringSave)
  = [MergeNoteDoc "u1" "A" "Alpha" "Math" "v1"].
Proof.
  split; [reflexivity|].
  destruct (save_completion_drops_newer_timer editedDuringSave
              (mkClosure (Some "u1") (Some "A") "Alpha" "Math" "v2")%string
              [DebounceFires; DebounceFires]) as (_ & _ & _ & H).
  - reflexivity.
  - vm_compute. discriminate.
  - repeat constructor.
  - exact H.
Defined.

(** X14.  A manual save whose write fails leaves the three drafts and the
    timer as they were, sets the status to error, clears the busy text and
    alerts with the message of the failure; "Save now" pressed again issues
    the same write again. *)
Theorem failed_save_keeps_drafts (s : Editor) (uid A message : string) :
  user s = Some uid ->
  activeNoteId s = Some A ->
  A <> EmptyString ->
  inFlight s = [] ->
  let s1 := run [SaveNow; WriteSettles (WriteFailed message)] s in
  drafts s1 = drafts s /\
  saveDebounceRef s1 = saveDebounceRef s /\
  saveState s1 = SaveError /\
  busy s1 = EmptyString /\
  alerts s1 = alerts s ++ [("Save failed: " ++ message)%string] /\
  writes s1 = writes s ++ [draftWrite uid A s] /\
  writes (step SaveNow s1) = writes s ++ [draftWrite uid A s; draftWrite uid A s].
Proof.
  intros Hu Ha HA Hf s1.
  destruct s as [u n a t c b bz ss tm ig cle ir fl w al].
  simpl in Hu, Ha, Hf. subst u a fl.
  destruct A as [|ch A]; [congruence|].
  subst s1. unfold draftWrite. simpl.
  repeat split. rewrite <- app_assoc. reflexivity.
Qed.

Lemma failed_save_keeps_drafts_witness :
  let s1 := run [SaveNow; WriteSettles (WriteFailed "offline")] blankTitleEditor in
  draftBody s1 = "E = mc^2 "%string /\
  alerts s1 = ["Save failed: offline"%string].
Proof.
  destruct (failed_save_keeps_drafts blankTitleEditor "u1" "n1" "offline")
    as (Hd & _ & _ & _ & Hal & _);
    [reflexivity | reflexivity | discriminate | reflexivity |].
  split; [|exact Hal].
  apply (f_equal snd) in Hd. exact Hd.
Defined.

End GuardFacts.

(** ** Saving, loading, pinning, deleting *)

Section RoundTripFacts.
Import JsString.

Lemma trimStart_fixed s : startsWithSpace s = false -> trimStart s = s.
Proof. destruct s as [|c s]; simpl; [reflexivity|]. intros ->. reflexivity. Qed.

Lemma trimEnd_fixed s : endsWithSpace s = false -> trimEnd s = s.
Proof.
  induction s as [|c s IH]; [reflexivity|].
  destruct s as [|c' s'].
  - simpl. intros ->. reflexivity.
  - intros H. change (endsWithSpace (String c' s') = false) in H.
    change (trimEnd (String c (String c' s')))
      with (let r := trimEnd (String c' s') in
            if Ascii.is_space c && isEmpty r then EmptyString else String c r).
    rewrite (IH H). simpl. rewrite andb_false_r. reflexivity.
Qed.

(** Trimming twice is trimming once. *)
Lemma trim_idempotent s : trim (trim s) = trim s.
Proof.
  destruct (trim_ends s) as [Hs He].
  unfold trim at 1. rewrite (trimStart_fixed _ Hs). apply trimEnd_fixed, He.
Qed.

Lemma savedTitle_idempotent t : savedTitle (savedTitle t) = savedTitle t.
Proof.
  rewrite (savedTitle_spec t).
  destruct (isEmpty (trim t)) eqn:E; [reflexivity|].
  rewrite savedTitle_spec, trim_idempotent, E. reflexivity.
Qed.

Lemma orEmpty_Some x : orEmpty (Some x) = x.
Proof. destruct x; reflexivity. Qed.

Lemma rerender_drafts prev s :
  drafts (rerender prev s)
  = drafts (if bool_decide (activeNoteId prev = activeNoteId s) then s
            else draftLoadEffect s).
Proof.
  unfold rerender.
  match goal with
  | |- context [if bool_decide (drafts ?a = drafts ?b) then _ else _] =>
      destruct (bool_decide (drafts a = drafts b)); [reflexivity|];
      generalize b
  end.
  intros x. unfold autosaveEffect, autosaveCleanupFn.
  destruct x as [u n a t c b bz ss tm ig cl ir fl w al]. simpl.
  destruct cl; simpl;
    destruct (bool_decide (is_Some u) && truthyId a); simpl;
    try reflexivity; destruct ig; reflexivity.
Qed.

(** X15.  What a save writes comes back when the note is opened again: once
    the write is applied and the mirrored list holds the note of the
    record, opening that note loads the body as it was typed, the title as
    it was saved (trimmed, or "Untitled") and the trimmed folder label; and
    saving these drafts would write the same three fields again. *)
Theorem save_then_load (s s' : Editor) (uid A : string) (now : Z)
    (col : gmap string NoteDoc) (d : NoteDoc) :
  user s = Some uid ->
  activeNoteId s = Some A ->
  A <> EmptyString ->
  applyNoteOp uid now (draftWrite uid A s) col !! A = Some d ->
  activeNoteId s' <> Some A ->
  List.find (fun n => String.eqb (note_id n) A) (notes s') = Some (noteOfDoc A d) ->
  let s'' := step (OpenNote A) s' in
  writes (saveNote true (closure s) s) = writes s ++ [draftWrite uid A s] /\
  draftBody s'' = draftBody s /\
  draftTitle s'' = savedTitle (draftTitle s) /\
  draftClass s'' = trim (draftClass s) /\
  draftWrite uid A s'' = draftWrite uid A s.
Proof.
  intros Hu Ha HA Hd Hother Hfind s''.
  assert (Ed : d = mkNoteDoc (Some (savedTitle (draftTitle s)))
                     (Some (trim (draftClass s))) (Some (draftBody s))
                     (doc_pinned (default emptyNoteDoc (col !! A)))
                     (doc_createdAt (default emptyNoteDoc (col !! A)))
                     (Some now)).
  { unfold draftWrite in Hd. simpl in Hd. rewrite String.eqb_refl in Hd.
    rewrite lookup_insert_eq in Hd. congruence. }
  assert (Edr : drafts s'' = (savedTitle (draftTitle s), trim (draftClass s),
                              draftBody s)).
  { subst s''. unfold step. rewrite rerender_drafts.
    rewrite bool_decide_eq_false_2 by (destruct s'; exact Hother).
    unfold draftLoadEffect, activeNote.
    replace (activeNoteId (set_activeNoteId (Some A) s')) with (Some A)
      by (destruct s'; reflexivity).
    replace (notes (set_activeNoteId (Some A) s')) with (notes s')
      by (destruct s'; reflexivity).
    rewrite Hfind, Ed. simpl. rewrite !orEmpty_Some.
    destruct s'; reflexivity. }
  unfold drafts in Edr.
  pose proof (f_equal (fun p => fst (fst p)) Edr) as Et.
  pose proof (f_equal (fun p => snd (fst p)) Edr) as Ec.
  pose proof (f_equal snd Edr) as Eb.
  simpl in Et, Ec, Eb.
  split; [|split; [exact Eb|split; [exact Et|split; [exact Ec|]]]].
  - apply saveNote_writes; destruct s; simpl in *; assumption.
  - unfold draftWrite. rewrite Et, Ec, Eb, savedTitle_idempotent, trim_idempotent.
    reflexivity.
Qed.

(** The draft with the blank title, saved into an empty collection and
    opened in a later session. *)
Lemma save_then_load_witness :
  draftTitle (step (OpenNote "n1") reloadedEditor) = "Untitled"%string /\
  draftClass (step (OpenNote "n1") reloadedEditor) = "Math"%string /\
  draftBody (step (OpenNote "n1") reloadedEditor) = "E = mc^2 "%string.
Proof.
  destruct (save_then_load blankTitleEditor reloadedEditor "u1" "n1"
              1700000000 ∅ savedBlankDoc) as (_ & Hb & Ht & Hc & _);
    [reflexivity | reflexivity | discriminate | reflexivity | discriminate
    | reflexivity |].
  split; [exact Ht|]. split; [exact Hc|exact Hb].
Defined.

Lemma applyPin_lookup uid id p now (col : gmap string NoteDoc) :
  applyAdminOp uid now (MergePinDoc uid id p) col !! id =
  Some (mkNoteDoc (doc_title (default emptyNoteDoc (col !! id)))
          (doc_className (default emptyNoteDoc (col !! id)))
          (doc_body (default emptyNoteDoc (col !! id)))
          (Some p) (doc_createdAt (default emptyNoteDoc (col !! id)))
          (Some now)).
Proof. simpl. rewrite String.eqb_refl. apply lookup_insert_eq. Qed.

(** X16.  [togglePin] writes the opposite of the flag the mirrored note
    shows and a new update time, and leaves the other fields of the record
    alone.  Two toggles, the mirror refreshed in between, bring the flag of
    the record back to what the note showed at first; two toggles from the
    same mirrored note write the same flag twice. *)
Theorem togglePin_twice (uid id : string) (d : NoteDoc)
    (col : gmap string NoteDoc) (now1 now2 : Z) :
  col !! id = Some d ->
  let n := noteOfDoc id d in
  let col1 := fold_right (applyAdminOp uid now1) col (togglePin (Some uid) n) in
  exists d1,
    col1 !! id = Some d1 /\
    d1 = mkNoteDoc (doc_title d) (doc_className d) (doc_body d)
           (Some (negb (note_pinned n))) (doc_createdAt d) (Some now1) /\
    (let col2 := fold_right (applyAdminOp uid now2) col1
                   (togglePin (Some uid) (noteOfDoc id d1)) in
     col2 !! id =
     Some (mkNoteDoc (doc_title d) (doc_className d) (doc_body d)
             (Some (note_pinned n)) (doc_createdAt d) (Some now2))) /\
    (let col2' := fold_right (applyAdminOp uid now2) col1
                    (togglePin (Some uid) n) in
     col2' !! id =
     Some (mkNoteDoc (doc_title d) (doc_className d) (doc_body d)
             (Some (negb (note_pinned n))) (doc_createdAt d) (Some now2))) /\
    (forall other, other <> id -> col1 !! other = col !! other).
Proof.
  intros Hd n col1.
  assert (E1 : col1 !! id =
               Some (mkNoteDoc (doc_title d) (doc_className d) (doc_body d)
                       (Some (negb (note_pinned n))) (doc_createdAt d)
                       (Some now1))).
  { subst col1.
    change (togglePin (Some uid) n) with [MergePinDoc uid id (negb (note_pinned n))].
    cbn [fold_right]. rewrite applyPin_lookup, Hd. reflexivity. }
  eexists. split; [exact E1|]. split; [reflexivity|].
  split; [|split].
  - match goal with
    | |- context [togglePin _ (noteOfDoc id ?x)] =>
        change (togglePin (Some uid) (noteOfDoc id x))
          with [MergePinDoc uid id (negb (negb (note_pinned n)))]
    end.
    cbn [fold_right]. rewrite applyPin_lookup, E1. cbn [default doc_title
      doc_className doc_body doc_createdAt]. rewrite negb_involutive. reflexivity.
  - change (togglePin (Some uid) n) with [MergePinDoc uid id (negb (note_pinned n))].
    cbn [fold_right]. rewrite applyPin_lookup, E1. reflexivity.
  - intros other Hne. subst col1.
    change (togglePin (Some uid) n) with [MergePinDoc uid id (negb (note_pinned n))].
    cbn [fold_right applyAdminOp]. rewrite String.eqb_refl.
    rewrite lookup_insert_ne by congruence. reflexivity.
Qed.

Lemma togglePin_twice_witness :
  let col := {["n1"%string := savedBlankDoc]} : gmap string NoteDoc in
  fold_right (applyAdminOp "u1" 2) col
    (togglePin (Some "u1"%string) (noteOfDoc "n1" savedBlankDoc)) !! "n1"%string
  = Some (mkNoteDoc (Some "Untitled"%string) (Some "Math"%string)
            (Some "E = mc^2 "%string) (Some true) None (Some 2)).
Proof.
  intros col.
  destruct (togglePin_twice "u1" "n1" savedBlankDoc col 2 3)
    as (d1 & H1 & E1 & _); [reflexivity|].
  rewrite H1, E1. reflexivity.
Defined.

End RoundTripFacts.

Section DeleteFacts.
Import JsString.

Lemma passive_idle e s :
  passiveEvent e -> activeNoteId s = None -> noAutosaveTimer s ->
  activeNoteId (step e s) = None /\ noAutosaveTimer (step e s) /\
  writes (step e s) = writes s.
Proof.
  intros [He|He] Ha Hq.
  - destruct s as [u n a t c b bz ss tm ig cl ir fl w al].
    simpl in Ha. subst a. unfold noAutosaveTimer in *. simpl in Hq.
    destruct e; simpl in He; try contradiction; unfold step;
      rewrite rerender_same_active by reflexivity;
      match goal with
      | |- context [bool_decide ?P] => destruct (bool_decide P)
      end; simpl; auto;
      unfold autosaveCleanupFn, autosaveEffect; simpl;
      destruct cl; simpl; rewrite andb_false_r; simpl; auto.
  - destruct (systemEvent_quiet e s He Hq) as [Hq' Hw].
    split; [|auto].
    destruct s as [u n a t c b bz ss tm ig cl ir fl w al].
    simpl in Ha. subst a.
    destruct e; simpl in He; try contradiction; simpl.
    + destruct ir; reflexivity.
    + destruct tm as [[cl'|]|]; simpl; try reflexivity.
      unfold noAutosaveTimer in Hq. simpl in Hq. contradiction.
    + unfold saveNote_settled. simpl.
      destruct fl as [|[|] fl]; simpl; [reflexivity|destruct r; reflexivity..].
Qed.

Lemma passive_run_idle es : forall s,
  Forall passiveEvent es -> activeNoteId s = None -> noAutosaveTimer s ->
  writes (run es s) = writes s.
Proof.
  induction es as [|e es IH]; intros s Hes Ha Hq; [reflexivity|].
  inversion Hes as [|? ? He Hes']; subst.
  destruct (passive_idle e s He Ha Hq) as (Ha' & Hq' & Hw).
  change (run (e :: es) s) with (run es (step e s)).
  rewrite (IH _ Hes' Ha' Hq'). exact Hw.
Qed.

Lemma deleteNote_confirmed s uid A :
  user s = Some uid -> activeNoteId s = Some A -> A <> EmptyString ->
  deleteNote false s = [] /\ deleteNote true s = [DeleteNoteDoc uid A].
Proof.
  intros Hu Ha HA. unfold deleteNote. rewrite Hu, Ha.
  destruct A as [|ch A]; [congruence|]. split; reflexivity.
Qed.

Lemma deleteNote_acknowledged s :
  deleteNote_settled WriteOk s = set_activeNoteId None s.
Proof.
  unfold deleteNote_settled.
  assert (Hload : draftLoadEffect (set_activeNoteId None s)
                  = set_activeNoteId None s).
  { unfold draftLoadEffect, activeNote.
    replace (activeNoteId (set_activeNoteId None s)) with (@None string)
      by (destruct s; reflexivity).
    reflexivity. }
  assert (Hd : drafts s = drafts (set_activeNoteId None s))
    by (destruct s; reflexivity).
  destruct (decide (activeNoteId s = activeNoteId (set_activeNoteId None s)))
    as [E|E].
  - rewrite rerender_same_active by exact E.
    rewrite bool_decide_eq_true_2 by exact Hd. reflexivity.
  - rewrite rerender_new_active by exact E.
    rewrite Hload, bool_decide_eq_true_2 by exact Hd. reflexivity.
Qed.

(** X17.  A delete that the user declines issues nothing.  A confirmed
    delete of the active note issues the deletion of its record, and
    nothing changes before the store answers.  When the store acknowledges
    the deletion, no note is active any more and the drafts stay as they
    are; if no autosave timer is pending at that moment, nothing typed
    afterwards and no timer or settling write issues a write, as long as
    no note is opened.  When the deletion is rejected the state is left as
    it is, and the note stays active. *)
Theorem deleteNote_spec (s s' : Editor) (uid A message : string)
    (es : list Event) :
  user s = Some uid ->
  activeNoteId s = Some A ->
  A <> EmptyString ->
  noAutosaveTimer s' ->
  Forall passiveEvent es ->
  deleteNote false s = [] /\
  deleteNote true s = [DeleteNoteDoc uid A] /\
  activeNoteId (deleteNote_settled WriteOk s') = None /\
  drafts (deleteNote_settled WriteOk s') = drafts s' /\
  writes (run es (deleteNote_settled WriteOk s')) = writes s' /\
  deleteNote_settled (WriteFailed message) s' = s' /\
  activeNoteId (deleteNote_settled (WriteFailed message) s) = Some A.
Proof.
  intros Hu Ha HA Hq Hes.
  destruct (deleteNote_confirmed s uid A Hu Ha HA) as [Hno Hyes].
  split; [exact Hno|]. split; [exact Hyes|].
  rewrite deleteNote_acknowledged.
  split; [destruct s'; reflexivity|].
  split; [destruct s'; reflexivity|].
  split; [|split; [reflexivity|exact Ha]].
  rewrite (passive_run_idle es (set_activeNoteId None s') Hes);
    [destruct s'; reflexivity | destruct s'; reflexivity | destruct s'; exact Hq].
Qed.

Lemma deleteNote_spec_witness :
  deleteNote true editingA = [DeleteNoteDoc "u1" "A"] /\
  activeNoteId (deleteNote_settled WriteOk editingA) = None /\
  writes (run [TypeBody "more"; DebounceFires]
            (deleteNote_settled WriteOk editingA)) = [] /\
  activeNoteId (deleteNote_settled (WriteFailed "unavailable") editingA)
  = Some "A"%string.
Proof.
  destruct (deleteNote_spec editingA editingA "u1" "A" "unavailable"
              [TypeBody "more"; DebounceFires])
    as (_ & Hop & Hn & _ & Hw & _ & Hkept).
  - reflexivity.
  - reflexivity.
  - discriminate.
  - exact I.
  - constructor; [left; exact I|]. constructor; [right; exact I|constructor].
  - split; [exact Hop|]. split; [exact Hn|]. split; [exact Hw|exact Hkept].
Defined.

(** X18.  A confirmed delete does not clear a pending autosave timer,
    whether the store acknowledges the deletion, rejects it or has not
    answered yet: when the timer armed by an edit of the active note fires
    after the delete, the drafts of that edit are written to the deleted
    note's identity, and the merge-write applied after the deletion leaves
    a record there again, with title, folder and body but without pinned
    flag and creation time. *)
Theorem deleteNote_keeps_pending_save (s : Editor) (uid A : string)
    (cl : Closure) (now1 now2 : Z) (col : gmap string NoteDoc)
    (outcome : option WriteResult) :
  user s = Some uid ->
  activeNoteId s = Some A ->
  A <> EmptyString ->
  saveDebounceRef s = Some (AutosaveTimer cl) ->
  cl_user cl = Some uid ->
  cl_activeNoteId cl = Some A ->
  let s1 := match outcome with
            | Some r => deleteNote_settled r s
            | None => s
            end in
  let op := MergeNoteDoc uid A (savedTitle (cl_draftTitle cl))
              (trim (cl_draftClass cl)) (cl_draftBody cl) in
  deleteNote true s = [DeleteNoteDoc uid A] /\
  saveDebounceRef s1 = Some (AutosaveTimer cl) /\
  writes (step DebounceFires s1) = writes s ++ [op] /\
  applyAdminOp uid now1 (DeleteNoteDoc uid A) col !! A = None /\
  applyNoteOp uid now2 op (applyAdminOp uid now1 (DeleteNoteDoc uid A) col) !! A
  = Some (mkNoteDoc (Some (savedTitle (cl_draftTitle cl)))
            (Some (trim (cl_draftClass cl))) (Some (cl_draftBody cl))
            None None (Some now2)).
Proof.
  intros Hu Ha HA Ht Hcu Hca s1 op.
  destruct (deleteNote_confirmed s uid A Hu Ha HA) as [_ Hyes].
  split; [exact Hyes|].
  assert (Hs1 : saveDebounceRef s1 = Some (AutosaveTimer cl) /\
                writes s1 = writes s).
  { subst s1. destruct outcome as [[|message]|]; [|auto..].
    rewrite deleteNote_acknowledged. destruct s; simpl in *; auto. }
  destruct Hs1 as [Ht1 Hw1].
  split; [exact Ht1|].
  split.
  - unfold step. rewrite Ht1.
    rewrite (saveNote_writes false cl _ uid A Hcu Hca HA).
    replace (writes (set_saveDebounceRef None s1)) with (writes s1)
      by (destruct s1; reflexivity).
    rewrite Hw1. reflexivity.
  - assert (Hdel : applyAdminOp uid now1 (DeleteNoteDoc uid A) col !! A = None).
    { simpl. rewrite String.eqb_refl. apply lookup_delete_eq. }
    split; [exact Hdel|].
    subst op. cbn [applyNoteOp]. rewrite String.eqb_refl, lookup_insert_eq, Hdel.
    reflexivity.
Qed.

(** Note A edited, deleted within the quiet period, the deletion
    acknowledged, then the timer. *)
Lemma deleteNote_keeps_pending_save_witness :
  writes (step DebounceFires (deleteNote_settled WriteOk pendingEditA))
  = [MergeNoteDoc "u1" "A" "Alpha" "Math" "edited"].
Proof.
  destruct (deleteNote_keeps_pending_save pendingEditA "u1" "A"
              (mkClosure (Some "u1") (Some "A") "Alpha" "Math" "edited")%string
              1 2 ∅ (Some WriteOk)) as (_ & _ & Hw & _);
    [reflexivity | reflexivity | discriminate | reflexivity | reflexivity
    | reflexivity |].
  exact Hw.
Defined.

End DeleteFacts.

(** ** Tasks *)

Section TaskFacts.
Import JsString.

(** X19.  [addTask] issues a write only when the trimmed title and the due
    date are both non-empty: otherwise it alerts and leaves the form and the
    collection alone.  The task written has the trimmed title and folder
    label, the due date of the form, and is not done; the form is emptied
    when the write succeeds, and kept, with an alert, when it fails. *)
Theorem addTask_spec (uid id : string) (r : WriteResult) (p : TaskPanel) :
  let f := tp_form p in
  let p' := addTask (Some uid) id r p in
  (trim (taskTitle f) = EmptyString \/ taskDue f = EmptyString ->
   p' = mkTaskPanel f (tp_selectedDay p) (tp_ops p)
          (tp_alerts p ++ ["Task title and due date required."%string])) /\
  (trim (taskTitle f) <> EmptyString -> taskDue f <> EmptyString ->
   tp_ops p' = tp_ops p ++ [SetTaskDoc uid id (trim (taskTitle f))
                              (trim (taskClass f)) (taskDue f) false] /\
   match r with
   | WriteOk => tp_form p' = mkTaskForm "" "" "" /\ tp_alerts p' = tp_alerts p
   | WriteFailed message =>
       tp_form p' = f /\
       tp_alerts p' = tp_alerts p ++ [("Task save failed: " ++ message)%string]
   end) /\
  (forall uid' id' title className due done,
      In (SetTaskDoc uid' id' title className due done) (tp_ops p') ->
      ~ In (SetTaskDoc uid' id' title className due done) (tp_ops p) ->
      title <> EmptyString /\ due <> EmptyString /\ done = false).
Proof.
  intros f p'. subst p'. unfold addTask. fold f.
  destruct (isEmpty (trim (taskTitle f))) eqn:Et;
    destruct (isEmpty (taskDue f)) eqn:Ed; simpl.
  1-3: split; [intros _; reflexivity|];
       split; [intros H1 H2;
               try (apply isEmpty_true in Et; congruence);
               try (apply isEmpty_true in Ed; congruence)|];
       intros; contradiction.
  assert (Ht : trim (taskTitle f) <> EmptyString)
    by (intros H; rewrite H in Et; discriminate Et).
  assert (Hd : taskDue f <> EmptyString)
    by (intros H; rewrite H in Ed; discriminate Ed).
  split; [intros [H|H]; contradiction|].
  split.
  - intros _ _. destruct r; simpl; auto.
  - intros uid' id' title className due done Hin Hnot.
    assert (Hin' : In (SetTaskDoc uid' id' title className due done)
                     (tp_ops p ++ [SetTaskDoc uid id (trim (taskTitle f))
                                     (trim (taskClass f)) (taskDue f) false]))
      by (destruct r; exact Hin).
    apply in_app_or in Hin' as [H|[H|[]]]; [contradiction|].
    inversion H; subst. auto.
Qed.

Lemma taskDueKey_of_due t D :
  task_due t = Some D -> D <> EmptyString -> taskDueKey t = Some D.
Proof. intros H HD. apply taskDueKey_Some. auto. Qed.

(** X20.  A click on the calendar cell of a day puts the key of that day in
    the due-date input and selects the day; a task then added with a title
    that is not blank is written with that key as due date, and once the
    task list mirrors it, it is among the tasks of the cell of that day,
    whatever else the list holds. *)
Theorem clickDay_addTask (uid id : string) (p : TaskPanel) (d : JsDate.t)
    (calMonth : JsDate.t) (tasks : list Task) (col : gmap string TaskDoc) :
  trim (taskTitle (tp_form p)) <> EmptyString ->
  let p1 := clickDay d p in
  let op := SetTaskDoc uid id (trim (taskTitle (tp_form p)))
              (trim (taskClass (tp_form p))) (ymd d) false in
  tp_selectedDay p1 = Some (ymd d) /\
  tp_ops (addTask (Some uid) id WriteOk p1) = tp_ops p ++ [op] /\
  exists doc,
    applyTaskOp uid op col !! id = Some doc /\
    (In (taskOfDoc id doc) tasks ->
     In (taskOfDoc id doc)
        (cell_due (calendarCell calMonth (tp_selectedDay p1)
                     (tasksByDate tasks) d)) /\
     cell_isSelected (calendarCell calMonth (tp_selectedDay p1)
                        (tasksByDate tasks) d) = true).
Proof.
  intros Ht p1 op.
  split; [reflexivity|]. split.
  - subst p1 op. unfold addTask, clickDay. simpl.
    destruct (isEmpty (trim (taskTitle (tp_form p)))) eqn:Et;
      [apply isEmpty_true in Et; contradiction|].
    destruct (isEmpty (ymd d)) eqn:Ed;
      [apply isEmpty_true in Ed; destruct (ymd_nonempty d Ed)|].
    reflexivity.
  - exists (mkTaskDoc (Some (trim (taskTitle (tp_form p))))
              (Some (trim (taskClass (tp_form p)))) (Some (ymd d)) (Some false)).
    split.
    + subst op. simpl. rewrite String.eqb_refl. apply lookup_insert_eq.
    + intros Hin. split.
      * rewrite cell_due_tasksDue. apply tasksDue_In. split; [exact Hin|reflexivity].
      * unfold calendarCell, p1, clickDay. simpl.
        apply bool_decide_eq_true_2. reflexivity.
Qed.

Lemma clickDay_addTask_witness :
  tp_ops (addTask (Some "u1"%string) "t9" WriteOk (clickDay 19797 essayPanel))
  = [SetTaskDoc "u1" "t9" "Essay" "Art" "2024-03-15" false].
Proof.
  destruct (clickDay_addTask "u1" "t9" essayPanel 19797 19797 [] ∅)
    as (_ & H & _); [discriminate|].
  exact H.
Defined.

Lemma applyToggle_lookup uid id b (col : gmap string TaskDoc) :
  applyTaskOp uid (MergeTaskDone uid id b) col !! id =
  Some (mkTaskDoc (td_title (default emptyTaskDoc (col !! id)))
          (td_className (default emptyTaskDoc (col !! id)))
          (td_due (default emptyTaskDoc (col !! id))) (Some b)).
Proof. simpl. rewrite String.eqb_refl. apply lookup_insert_eq. Qed.

(** X21.  [toggleTask] writes the opposite of the done flag the mirrored
    task shows and nothing else of the record; two toggles, the mirror
    refreshed in between, restore the flag; [deleteTask] removes the record;
    neither touches another task. *)
Theorem toggleTask_deleteTask (uid id : string) (d : TaskDoc)
    (col : gmap string TaskDoc) :
  col !! id = Some d ->
  let t := taskOfDoc id d in
  let col1 := fold_right (applyTaskOp uid) col (toggleTask (Some uid) t) in
  let d1 := mkTaskDoc (td_title d) (td_className d) (td_due d)
              (Some (negb (task_done t))) in
  col1 !! id = Some d1 /\
  fold_right (applyTaskOp uid) col1 (toggleTask (Some uid) (taskOfDoc id d1)) !! id
  = Some (mkTaskDoc (td_title d) (td_className d) (td_due d)
            (Some (task_done t))) /\
  fold_right (applyTaskOp uid) col (deleteTask (Some uid) t) !! id = None /\
  (forall other, other <> id ->
                 col1 !! other = col !! other /\
                 fold_right (applyTaskOp uid) col (deleteTask (Some uid) t) !! other
                 = col !! other).
Proof.
  intros Hd t col1 d1.
  assert (E1 : col1 !! id = Some d1).
  { subst col1.
    change (toggleTask (Some uid) t) with [MergeTaskDone uid id (negb (task_done t))].
    cbn [fold_right]. rewrite applyToggle_lookup, Hd. reflexivity. }
  split; [exact E1|]. split; [|split].
  - change (toggleTask (Some uid) (taskOfDoc id d1))
      with [MergeTaskDone uid id (negb (negb (task_done t)))].
    cbn [fold_right]. rewrite applyToggle_lookup, E1.
    cbn [default td_title td_className td_due d1].
    rewrite negb_involutive. reflexivity.
  - change (deleteTask (Some uid) t) with [DeleteTaskDoc uid id].
    cbn [fold_right applyTaskOp]. rewrite String.eqb_refl. apply lookup_delete_eq.
  - intros other Hne. split.
    + subst col1.
      change (toggleTask (Some uid) t)
        with [MergeTaskDone uid id (negb (task_done t))].
      cbn [fold_right applyTaskOp]. rewrite String.eqb_refl.
      rewrite lookup_insert_ne by congruence. reflexivity.
    + change (deleteTask (Some uid) t) with [DeleteTaskDoc uid id].
      cbn [fold_right applyTaskOp]. rewrite String.eqb_refl.
      rewrite lookup_delete_ne by congruence. reflexivity.
Qed.

Lemma toggleTask_deleteTask_witness :
  let d := mkTaskDoc (Some "Essay"%string) (Some "Art"%string)
             (Some "2024-03-15"%string) (Some false) in
  let col := {["t9"%string := d]} : gmap string TaskDoc in
  fold_right (applyTaskOp "u1") col
    (toggleTask (Some "u1"%string) (taskOfDoc "t9" d)) !! "t9"%string
  = Some (mkTaskDoc (Some "Essay"%string) (Some "Art"%string)
            (Some "2024-03-15"%string) (Some true)).
Proof.
  intros d col.
  destruct (toggleTask_deleteTask "u1" "t9" d col) as (H & _); [reflexivity|].
  exact H.
Defined.

End TaskFacts.

(** ** Transcript *)

Section TranscriptFacts.
Import JsString.

Lemma append_Empty_r (s : string) : (s ++ EmptyString)%string = s.
Proof. induction s as [|c s IH]; [reflexivity|]. rewrite append_String, IH. reflexivity. Qed.

Lemma append_assoc3 (a b c : string) :
  ((a ++ b) ++ c)%string = (a ++ (b ++ c))%string.
Proof.
  induction a as [|ch a IH]; [reflexivity|].
  rewrite !append_String, IH. reflexivity.
Qed.

Lemma finalText_fold (rs : list SpeechResult) (acc : string) :
  fold_left (fun acc r =>
               if isFinal r then (acc ++ (alternative0 r ++ " "))%string else acc)
    rs acc
  = (acc ++ joinAll (map (fun r => (alternative0 r ++ " ")%string)
                       (List.filter isFinal rs)))%string.
Proof.
  revert acc. induction rs as [|r rs IH]; intros acc; simpl.
  - rewrite append_Empty_r. reflexivity.
  - rewrite IH. destruct (isFinal r); simpl; [|reflexivity].
    rewrite append_assoc3. reflexivity.
Qed.

Lemma set_saveDebounceRef_writes v s :
  writes (set_saveDebounceRef v s) = writes s.
Proof. destruct s; reflexivity. Qed.

(** X22.  A recognition event appends to the transcript the text of its
    final results from [resultIndex] on, each followed by a space, in
    order; interim results add nothing, so an event without a final result
    leaves the transcript as it was. *)
Theorem onresult_spec (resultIndex : nat) (results : list SpeechResult)
    (transcript : string) :
  onresult resultIndex results transcript
  = (transcript ++ joinAll (finalSegments resultIndex results))%string /\
  (Forall (fun r => isFinal r = false) (drop resultIndex results) ->
   onresult resultIndex results transcript = transcript).
Proof.
  assert (E : onresult resultIndex results transcript
              = (transcript ++ joinAll (finalSegments resultIndex results))%string).
  { unfold onresult, finalSegments. rewrite finalText_fold, append_Empty.
    destruct (isEmpty _) eqn:Ee; [|reflexivity].
    apply isEmpty_true in Ee. rewrite Ee, append_Empty_r. reflexivity. }
  split; [exact E|].
  intros Hall. rewrite E. unfold finalSegments.
  assert (Hf : List.filter isFinal (drop resultIndex results) = []).
  { induction Hall as [|r rs Hr Hall IH]; simpl; [reflexivity|].
    rewrite Hr. exact IH. }
  rewrite Hf. simpl. apply append_Empty_r.
Qed.

(** X23.  [insertTranscriptIntoNote] does nothing when the transcript is
    blank.  Otherwise it appends to the draft body the trimmed transcript
    between the [--- TRANSCRIPT ---] markers; and while a signed-in user
    edits a note with the load guard down, the firing of the autosave timer
    then writes that body to the note. *)
Theorem insertTranscript_spec (transcript : string) (s : Editor) (uid A : string) :
  editingNote s uid A ->
  let body := (draftBody s ++ nl ++ nl ++ "--- TRANSCRIPT ---" ++ nl
               ++ trim transcript ++ nl ++ "--- /TRANSCRIPT ---" ++ nl)%string in
  (trim transcript = EmptyString -> insertTranscriptIntoNote transcript s = s) /\
  (trim transcript <> EmptyString ->
   draftBody (insertTranscriptIntoNote transcript s) = body /\
   writes (insertTranscriptIntoNote transcript s) = writes s /\
   writes (step DebounceFires (insertTranscriptIntoNote transcript s))
   = writes s ++ [MergeNoteDoc uid A (savedTitle (draftTitle s))
                    (trim (draftClass s)) body]).
Proof.
  intros Hr body. split.
  - intros E. unfold insertTranscriptIntoNote. rewrite E. reflexivity.
  - intros Hne.
    assert (Hi : insertTranscriptIntoNote transcript s = step (TypeBody body) s).
    { unfold insertTranscriptIntoNote.
      destruct (isEmpty (trim transcript)) eqn:E;
        [apply isEmpty_true in E; contradiction|reflexivity]. }
    assert (Hb : body <> draftBody s).
    { subst body. intros H. apply (f_equal String.length) in H.
      rewrite append_length in H. unfold nl in H.
      rewrite append_String in H. simpl in H. lia. }
    destruct (type_body_ready s uid A body Hr Hb) as (Hr' & Ht & Hw & Et & Ec & Eb).
    rewrite Hi. split; [exact Eb|]. split; [exact Hw|].
    destruct Hr' as (_ & _ & HA & _).
    unfold step at 1. rewrite Ht.
    rewrite (saveNote_writes false _ _ uid A) by (try reflexivity; exact HA).
    rewrite set_saveDebounceRef_writes, Hw. reflexivity.
Qed.

Lemma insertTranscript_spec_witness :
  draftBody (insertTranscriptIntoNote "  hello world " editingA)
  = ("first body" ++ nl ++ nl ++ "--- TRANSCRIPT ---" ++ nl ++ "hello world"
     ++ nl ++ "--- /TRANSCRIPT ---" ++ nl)%string.
Proof.
  destruct (insertTranscript_spec "  hello world " editingA "u1" "A")
    as [_ H].
  - repeat split; try reflexivity. discriminate.
  - destruct H as (Hb & _); [discriminate|]. exact Hb.
Defined.

End TranscriptFacts.

(** ** Flashcard generation that saves nothing *)

Section FlashcardFailureFacts.

(** X24.  When the request fails, the response is not a success, its body
    is not JSON, or its [cards] is no array or an empty one,
    [makeFlashcards] writes no flashcard: for a signed-in user with an
    active note it raises exactly one alert and clears the busy text;
    without a user or an active note it does nothing at all.  The drafts
    are never touched. *)
Theorem makeFlashcards_nothing_saved (uid : nat -> string)
    (settles : nat -> WriteResult) (r : Fetched CardsData) (s : Editor) :
  ~ usableCards r ->
  let s' := makeFlashcards uid settles r s in
  writes s' = writes s /\
  drafts s' = drafts s /\
  (user s = None \/ truthyId (activeNoteId s) = false -> s' = s) /\
  (forall u, user s = Some u -> truthyId (activeNoteId s) = true ->
             busy s' = EmptyString /\
             exists msg, alerts s' = alerts s ++ [msg] /\
                         (msg = flashcardsFailed \/
                          msg = "No cards returned."%string)).
Proof.
  intros Hr s'. subst s'. unfold makeFlashcards.
  destruct s as [u n a t c b bz ss tm ig cl ir fl w al]. simpl.
  destruct u as [u|]; [|repeat split; auto; intros; discriminate].
  destruct a as [[|ch a]|]; simpl;
    [repeat split; auto; intros; discriminate | |
     repeat split; auto; intros; discriminate].
  destruct r as [| text | | [| |[|card cards]]]; simpl;
    try (exfalso; apply Hr; exact I);
    (split; [reflexivity|]; split; [reflexivity|];
     split; [intros [H|H]; discriminate|];
     intros u' _ _; split; [reflexivity|]; eexists; split; [reflexivity|]; auto).
Qed.

Lemma makeFlashcards_nothing_saved_witness :
  writes (makeFlashcards sampleUid acceptAll (NotOk "quota") blankTitleEditor)
  = [] /\
  alerts (makeFlashcards sampleUid acceptAll (Json (CardsArray []))
            blankTitleEditor)
  = ["No cards returned."%string].
Proof.
  destruct (makeFlashcards_nothing_saved sampleUid acceptAll (NotOk "quota")
              blankTitleEditor)
    as (Hw & _); [intros []|].
  split; [exact Hw|reflexivity].
Defined.

End FlashcardFailureFacts.

(** ** What the handlers answer *)

Section ApiOutcomeFacts.
Import Api.
Variable parseCards : Js.value -> option (option (list CardJson)).

Lemma handle_outcomes call finish env req :
  (forall content res, finish content = Some res -> status res = 200) ->
  let res := fst (handle call finish env req) in
  let calls := snd (handle call finish env req) in
  (status res = 200 \/ status res = 400 \/ status res = 405 \/ status res = 500) /\
  (calls = [] \/
   exists text, body req = Some text /\ calls = [call text] /\
                method req = "POST"%string /\ clientOk env = true /\
                tooShort text = false) /\
  (status res = 200 -> calls <> []) /\
  (status res = 400 \/ status res = 405 -> calls = []).
Proof.
  intros Hfin. unfold handle.
  destruct (String.eqb_spec (method req) "POST") as [Hm|Hm]; simpl;
    [|repeat split; auto; discriminate].
  destruct (clientOk env) eqn:Hc; simpl;
    [|repeat split; auto; try discriminate; intros [H|H]; discriminate].
  destruct (body req) as [text|] eqn:Hb;
    [|simpl; repeat split; auto; try discriminate; intros [H|H]; discriminate].
  destruct (tooShort text) eqn:Hs; simpl;
    [repeat split; auto; discriminate|].
  assert (Hcalls : exists text0, Some text = Some text0 /\
                                 [call text] = [call text0] /\
                                 method req = "POST"%string /\ true = true /\
                                 tooShort text0 = false)
    by (exists text; auto).
  destruct (complete env (call text)) as [content|]; simpl;
    [|repeat split; auto; try discriminate; intros [H|H]; discriminate].
  destruct (finish content) as [res|] eqn:Hf; simpl;
    [|repeat split; auto; try discriminate; intros [H|H]; discriminate].
  rewrite (Hfin _ _ Hf).
  repeat split; auto; try discriminate. intros [H|H]; discriminate.
Qed.

(** X25.  Each handler answers with status 200, 400, 405 or 500 and makes
    at most one completion call; a call is made only for a POST whose text
    passed the length check, with the client built, and carries that text;
    a 200 is answered only after such a call, and a 400 or a 405 only
    without any.  The summarize handler answers 200 with the content of the
    completion whenever that call returns. *)
Theorem handlers_outcomes (env : Env) (req : Request) :
  (forall h,
      h = flashcards parseCards \/ h = summarize ->
      let res := fst (h env req) in
      let calls := snd (h env req) in
      (status res = 200 \/ status res = 400 \/ status res = 405 \/
       status res = 500) /\
      (length calls <= 1)%nat /\
      (forall c, In c calls ->
                 method req = "POST"%string /\ clientOk env = true /\
                 body req = Some (userText c) /\ tooShort (userText c) = false) /\
      (status res = 200 -> calls <> []) /\
      (status res = 400 \/ status res = 405 -> calls = [])) /\
  (forall text content,
      method req = "POST"%string -> clientOk env = true ->
      body req = Some text -> tooShort text = false ->
      complete env (mkCompletion "gpt-4o-mini" summarizePrompt text false)
      = Some content ->
      fst (summarize env req) = mkResponse 200 (SummaryBody content)).
Proof.
  split.
  - intros h Hh res calls.
    assert (Hgen : exists call finish,
               h = handle call finish /\
               (forall content r, finish content = Some r -> status r = 200) /\
               (forall text, userText (call text) = text)).
    { destruct Hh as [-> | ->].
      - eexists _, _. split; [reflexivity|]. split; [|reflexivity].
        intros content r H. destruct (parseCards content); inversion H.
        reflexivity.
      - eexists _, _. split; [reflexivity|]. split; [|reflexivity].
        intros content r H. inversion H. reflexivity. }
    destruct Hgen as (call & finish & -> & Hfin & Hut).
    destruct (handle_outcomes call finish env req Hfin) as (Hst & Hc & H200 & H4).
    fold res calls in Hst, Hc, H200, H4.
    split; [exact Hst|]. split; [|split; [|split; assumption]].
    + destruct Hc as [-> | (text & _ & -> & _)]; simpl; lia.
    + intros c Hin. destruct Hc as [E | (text & Hb & E & Hm & Hcl & Hs)];
        rewrite E in Hin; [contradiction|].
      destruct Hin as [<-|[]]. rewrite Hut. auto.
  - intros text content Hm Hc Hb Hs Hcomp.
    unfold summarize, handle. rewrite Hm, Hc, Hb, Hs. simpl. rewrite Hcomp.
    reflexivity.
Qed.

End ApiOutcomeFacts.

(** ** PDF import *)

Section PdfFacts.
Import JsString.

Lemma pdf_fold_appends pages out :
  exists rest, fold_left pdfStep pages out = (out ++ rest)%string.
Proof.
  revert out. induction pages as [|pg pages IH]; intros out; simpl.
  - exists EmptyString. symmetry. apply append_Empty_r.
  - destruct (IH (pdfStep out pg)) as (rest & E). rewrite E.
    unfold pdfStep. eexists. rewrite !append_assoc3. reflexivity.
Qed.

(** X26.  The text extracted from a document has no white space at either
    end; it is empty for a document without pages, and otherwise starts with
    the marker of the first page, [[Page 1]]. *)
Theorem extractPdfText_spec (pages : list (list string)) :
  startsWithSpace (extractPdfText pages) = false /\
  endsWithSpace (extractPdfText pages) = false /\
  (pages = [] -> extractPdfText pages = EmptyString) /\
  (pages <> [] ->
   exists rest, extractPdfText pages = ("[Page 1]" ++ rest)%string).
Proof.
  unfold extractPdfText.
  destruct (trim_ends (fold_left pdfStep (combine (seq 1 (length pages)) pages)
                         EmptyString)) as [Hs He].
  split; [exact Hs|]. split; [exact He|]. split.
  - intros ->. reflexivity.
  - intros Hne. destruct pages as [|items pages]; [congruence|].
    change (combine (seq 1 (length (items :: pages))) (items :: pages))
      with ((1%nat, items) :: combine (seq 2 (length pages)) pages).
    cbn [fold_left].
    destruct (pdf_fold_appends (combine (seq 2 (length pages)) pages)
                (pdfStep EmptyString (1%nat, items))) as (rest & E).
    rewrite E. unfold pdfStep. cbn [fst snd]. rewrite append_Empty.
    rewrite !append_assoc3.
    set (tail := (pageStrings items ++ rest)%string).
    change (decimal 1) with "1"%string.
    unfold trim, nl.
    change (trimStart (String "010" "" ++ String "010" "" ++ "[Page " ++ "1" ++ "]"
                       ++ String "010" "" ++ tail)%string)
      with ("[Page 1]" ++ String "010" tail)%string.
    change ("[Page 1]" ++ String "010" tail)%string
      with (String "[" (String "P" (String "a" (String "g" (String "e"
             (String " " (String "1" (String "]" (String "010" tail))))))))).
    cbn [trimEnd Ascii.is_space andb isEmpty].
    eexists. reflexivity.
Qed.

(** X27.  [importPdf] with an extracted text puts into the draft body the
    block made of the header naming the file, the text and the closing
    marker: after the body when there is one, and alone, without the two
    leading line feeds, when the body is empty.  When the extraction fails
    the drafts are unchanged and one alert is raised.  It writes nothing by
    itself. *)
Theorem importPdf_spec (name : string) (extracted : option string) (s : Editor) :
  let block text := ("--- PDF IMPORT: " ++ name ++ " ---" ++ nl ++ text ++ nl
                     ++ "--- /PDF ---" ++ nl)%string in
  writes (importPdf name extracted s) = writes s /\
  match extracted with
  | Some text =>
      draftBody (importPdf name extracted s)
      = (if isEmpty (draftBody s) then block text
         else (draftBody s ++ nl ++ nl ++ block text)%string) /\
      alerts (importPdf name extracted s) = alerts s
  | None =>
      drafts (importPdf name extracted s) = drafts s /\
      alerts (importPdf name extracted s) = alerts s ++ ["PDF import failed."%string]
  end.
Proof.
  intros block. unfold importPdf.
  destruct extracted as [text|].
  - split; [|split].
    + rewrite set_busy_writes, rerender_writes. destruct s; reflexivity.
    + rewrite set_busy_draftBody.
      rewrite rerender_draftBody by (destruct s; reflexivity).
      destruct s as [u n a t c b bz ss tm ig cl ir fl w al]. simpl.
      subst block. cbv beta.
      destruct (isEmpty b); rewrite ?append_assoc3; reflexivity.
    + rewrite set_busy_alerts, rerender_alerts. destruct s; reflexivity.
  - destruct s; simpl. auto.
Qed.

End PdfFacts.
